(** * Keyboard focus tracking (ckeditor5-utils, keyboardfocustracker.ts)

    A shallow embedding of [KeyboardFocusTracker] and of the shared
    [GlobalKeyboardMouseInteractionTracker], in the generation that keeps one
    global tracker for all consumers, together with the properties of the
    derived flag [isFocusedUsingKeyboard] and of the singleton's life cycle.

    Objects live in heaps (lists indexed by allocation order), a reference is
    an index, and every method is a function on the whole [World]: the
    callbacks of one object mutate other objects, so the store is shared. *)

From Stdlib Require Import ZArith String List Bool Lia.
From stdpp Require Import base list.

Local Open Scope string_scope.
Local Open Scope list_scope.

(** ** Objects *)

(** A DOM element, as far as the trackers care: its identity. *)
Definition Element := nat.

(** The three listener bodies of [_mountDocumentListeners]: the closure
    [handleMouseMoved], the arrow function given for keydown, and the closure
    [handleResetKeyPress]. *)
Inductive DocumentCallback :=
| handleMouseMoved
| handleKeyDown
| handleResetKeyPress.

(** One registration on [global.document]: the event type, the global tracker
    whose [_domEmitter] made it, and the callback. *)
Record DocumentListener := {
  dl_type : string;
  dl_owner : nat;
  dl_callback : DocumentCallback
}.

(** [change_isMouseMoved] and [change_isKeyPressed] are the callbacks attached
    with [on] to the two change events; a callback is named by the keyboard
    focus tracker that owns it (each tracker has its own arrow functions). *)
Record GlobalKeyboardMouseInteractionTracker := {
  isKeyPressed : bool;
  isMouseMoved : bool;
  change_isMouseMoved : list nat;
  change_isKeyPressed : list nat
}.

(** Modelled from the spec: the Focus Tracker (focustracker.ts) is not among
    the sources. It is the external collaborator that publishes a change
    notification carrying the new focused element (or none) and a readable
    [isFocused]; a blur only schedules the reset ([_nextEventLoopTimeout]),
    which a later focus cancels, as the test "should keep
    isFocusedUsingKeyboard=true while switching focus between elements"
    relies on. *)
Record FocusTracker := {
  focusedElement : option Element;
  isFocused : bool;
  _nextEventLoopTimeout : bool;
  change_focusedElement : list nat
}.

Record KeyboardFocusTracker := {
  isFocusedUsingKeyboard : bool;
  _globalInteractionTracker : nat;
  focusTracker : nat
}.

(** The store: the three heaps, the two static fields of
    [GlobalKeyboardMouseInteractionTracker], and the listeners registered on
    the document. *)
Record World := {
  globalTrackers : list GlobalKeyboardMouseInteractionTracker;
  _instance : option nat;
  _totalInstances : Z;
  focusTrackers : list FocusTracker;
  keyboardFocusTrackers : list KeyboardFocusTracker;
  documentListeners : list DocumentListener
}.

Definition initial : World :=
  {| globalTrackers := []; _instance := None; _totalInstances := 0%Z;
     focusTrackers := []; keyboardFocusTrackers := [];
     documentListeners := [] |}.

(** ** Field updates *)

Definition with_globalTrackers (l : list GlobalKeyboardMouseInteractionTracker)
    (w : World) : World :=
  {| globalTrackers := l; _instance := _instance w;
     _totalInstances := _totalInstances w; focusTrackers := focusTrackers w;
     keyboardFocusTrackers := keyboardFocusTrackers w;
     documentListeners := documentListeners w |}.

Definition with_instance (o : option nat) (w : World) : World :=
  {| globalTrackers := globalTrackers w; _instance := o;
     _totalInstances := _totalInstances w; focusTrackers := focusTrackers w;
     keyboardFocusTrackers := keyboardFocusTrackers w;
     documentListeners := documentListeners w |}.

Definition with_totalInstances (n : Z) (w : World) : World :=
  {| globalTrackers := globalTrackers w; _instance := _instance w;
     _totalInstances := n; focusTrackers := focusTrackers w;
     keyboardFocusTrackers := keyboardFocusTrackers w;
     documentListeners := documentListeners w |}.

Definition with_focusTrackers (l : list FocusTracker) (w : World) : World :=
  {| globalTrackers := globalTrackers w; _instance := _instance w;
     _totalInstances := _totalInstances w; focusTrackers := l;
     keyboardFocusTrackers := keyboardFocusTrackers w;
     documentListeners := documentListeners w |}.

Definition with_keyboardFocusTrackers (l : list KeyboardFocusTracker)
    (w : World) : World :=
  {| globalTrackers := globalTrackers w; _instance := _instance w;
     _totalInstances := _totalInstances w; focusTrackers := focusTrackers w;
     keyboardFocusTrackers := l;
     documentListeners := documentListeners w |}.

Definition with_documentListeners (l : list DocumentListener)
    (w : World) : World :=
  {| globalTrackers := globalTrackers w; _instance := _instance w;
     _totalInstances := _totalInstances w; focusTrackers := focusTrackers w;
     keyboardFocusTrackers := keyboardFocusTrackers w;
     documentListeners := l |}.

Definition update_global (i : nat)
    (f : GlobalKeyboardMouseInteractionTracker ->
         GlobalKeyboardMouseInteractionTracker) (w : World) : World :=
  with_globalTrackers (alter f i (globalTrackers w)) w.

Definition update_focus (i : nat) (f : FocusTracker -> FocusTracker)
    (w : World) : World :=
  with_focusTrackers (alter f i (focusTrackers w)) w.

Definition update_keyboard (k : nat)
    (f : KeyboardFocusTracker -> KeyboardFocusTracker) (w : World) : World :=
  with_keyboardFocusTrackers (alter f k (keyboardFocusTrackers w)) w.

(** ** KeyboardFocusTracker: the three callbacks *)

(** [this.isFocusedUsingKeyboard = v] on tracker [k]. Nothing in these
    sources subscribes to the change of this property. *)
Definition set_isFocusedUsingKeyboard (k : nat) (v : bool) : World -> World :=
  update_keyboard k (fun t =>
    {| isFocusedUsingKeyboard := v;
       _globalInteractionTracker := _globalInteractionTracker t;
       focusTracker := focusTracker t |}).

(** [!!focusedElement]. *)
Definition truthy (el : option Element) : bool :=
  match el with
  | Some _ => true
  | None => false
  end.

Definition _watchMouseMoved (k : nat) (mouseMoved : bool) (w : World) : World :=
  if mouseMoved then set_isFocusedUsingKeyboard k false w else w.

Definition _watchIsKeyPressed (k : nat) (keyPressed : bool) (w : World)
    : World :=
  if keyPressed then
    match keyboardFocusTrackers w !! k with
    | Some t =>
        match focusTrackers w !! focusTracker t with
        | Some f => set_isFocusedUsingKeyboard k (isFocused f) w
        | None => w
        end
    | None => w
    end
  else w.

Definition _watchChangeFocusedElement (k : nat) (el : option Element)
    (w : World) : World :=
  match keyboardFocusTrackers w !! k with
  | Some t =>
      match globalTrackers w !! _globalInteractionTracker t with
      | Some g =>
          set_isFocusedUsingKeyboard k
            (truthy el && negb (isMouseMoved g) && isKeyPressed g) w
      | None => w
      end
  | None => w
  end.

(** ** Emitter and observable primitives *)

(** Modelled from the spec: the emitter and observable mixins
    (emittermixin.ts, observablemixin.ts) are not among the sources. Firing
    an event runs the attached callbacks in the order of attachment. *)
Definition fire {A : Type} (callback : nat -> A -> World -> World)
    (attached : list nat) (payload : A) (w : World) : World :=
  fold_left (fun w k => callback k payload w) attached w.

(** The record with one property replaced. *)
Definition put_isMouseMoved (v : bool)
    (g : GlobalKeyboardMouseInteractionTracker)
    : GlobalKeyboardMouseInteractionTracker :=
  {| isKeyPressed := isKeyPressed g; isMouseMoved := v;
     change_isMouseMoved := change_isMouseMoved g;
     change_isKeyPressed := change_isKeyPressed g |}.

Definition put_isKeyPressed (v : bool)
    (g : GlobalKeyboardMouseInteractionTracker)
    : GlobalKeyboardMouseInteractionTracker :=
  {| isKeyPressed := v; isMouseMoved := isMouseMoved g;
     change_isMouseMoved := change_isMouseMoved g;
     change_isKeyPressed := change_isKeyPressed g |}.

Definition put_focusedElement (v : option Element) (t : FocusTracker)
    : FocusTracker :=
  {| focusedElement := v; isFocused := isFocused t;
     _nextEventLoopTimeout := _nextEventLoopTimeout t;
     change_focusedElement := change_focusedElement t |}.

(** Modelled from the spec: assignment to an observable property (the mixins
    are not among the sources) stores the value and notifies the change
    subscribers only when the new value differs from the old one. *)
Definition set_isMouseMoved (i : nat) (v : bool) (w : World) : World :=
  match globalTrackers w !! i with
  | Some g =>
      if Bool.eqb (isMouseMoved g) v then w
      else
        fire _watchMouseMoved (change_isMouseMoved g) v
          (update_global i (put_isMouseMoved v) w)
  | None => w
  end.

(** Modelled from the spec: as [set_isMouseMoved], for [isKeyPressed]. *)
Definition set_isKeyPressed (i : nat) (v : bool) (w : World) : World :=
  match globalTrackers w !! i with
  | Some g =>
      if Bool.eqb (isKeyPressed g) v then w
      else
        fire _watchIsKeyPressed (change_isKeyPressed g) v
          (update_global i (put_isKeyPressed v) w)
  | None => w
  end.

(** Modelled from the spec: [emitter.on( event, callback )] of the absent
    emitter mixin appends the callback to the event's list. *)
Definition on_change_isMouseMoved (i k : nat) : World -> World :=
  update_global i (fun g =>
    {| isKeyPressed := isKeyPressed g; isMouseMoved := isMouseMoved g;
       change_isMouseMoved := change_isMouseMoved g ++ [k];
       change_isKeyPressed := change_isKeyPressed g |}).

(** Modelled from the spec: [on] of the absent emitter mixin, for
    change:isKeyPressed. *)
Definition on_change_isKeyPressed (i k : nat) : World -> World :=
  update_global i (fun g =>
    {| isKeyPressed := isKeyPressed g; isMouseMoved := isMouseMoved g;
       change_isMouseMoved := change_isMouseMoved g;
       change_isKeyPressed := change_isKeyPressed g ++ [k] |}).

(** Modelled from the spec: [emitter.off( event, callback )] of the absent
    emitter mixin removes every attachment of that callback. *)
Definition off_change_isMouseMoved (i k : nat) : World -> World :=
  update_global i (fun g =>
    {| isKeyPressed := isKeyPressed g; isMouseMoved := isMouseMoved g;
       change_isMouseMoved :=
         filter (fun k' => k' <> k) (change_isMouseMoved g);
       change_isKeyPressed := change_isKeyPressed g |}).

(** Modelled from the spec: [stopListening()] of the absent emitter mixin,
    called on the global tracker itself. [on] is listening to oneself, so the
    call without arguments drops everything attached with [on]; the source's
    comment on the call reads "Unmount local listeners". *)
Definition stopListening (i : nat) : World -> World :=
  update_global i (fun g =>
    {| isKeyPressed := isKeyPressed g; isMouseMoved := isMouseMoved g;
       change_isMouseMoved := []; change_isKeyPressed := [] |}).

(** Modelled from the spec: [_domEmitter.listenTo( global.document, type,
    callback, { useCapture: true } )] of the absent DOM emitter mixin
    registers the callback on the document. *)
Definition _domEmitter_listenTo (i : nat) (type : string)
    (c : DocumentCallback) (w : World) : World :=
  with_documentListeners
    (documentListeners w ++
     [{| dl_type := type; dl_owner := i; dl_callback := c |}]) w.

(** Modelled from the spec: [_domEmitter.stopListening()] of the absent DOM
    emitter mixin removes every registration that emitter made. *)
Definition _domEmitter_stopListening (i : nat) (w : World) : World :=
  with_documentListeners
    (filter (fun l => dl_owner l <> i) (documentListeners w)) w.

(** ** GlobalKeyboardMouseInteractionTracker *)

Definition _mountDocumentListeners (i : nat) (w : World) : World :=
  let w := _domEmitter_listenTo i "mouseleave" handleMouseMoved w in
  let w := _domEmitter_listenTo i "pointerleave" handleMouseMoved w in
  let w := _domEmitter_listenTo i "mouseenter" handleMouseMoved w in
  let w := _domEmitter_listenTo i "pointerenter" handleMouseMoved w in
  let w := _domEmitter_listenTo i "keydown" handleKeyDown w in
  _domEmitter_listenTo i "keyup" handleResetKeyPress w.

(** The bodies of the document callbacks, run for the tracker that mounted
    them. *)
Definition run_callback (i : nat) (c : DocumentCallback) (w : World) : World :=
  match c with
  | handleMouseMoved => set_isMouseMoved i true w
  | handleKeyDown =>
      let w := set_isMouseMoved i false w in
      set_isKeyPressed i true w
  | handleResetKeyPress =>
      let w := set_isKeyPressed i false w in
      set_isMouseMoved i false w
  end.

(** [new GlobalKeyboardMouseInteractionTracker()]: the count goes up first;
    an existing [_instance] is returned as it is, otherwise the new object
    becomes the instance, gets its two properties and mounts the listeners. *)
Definition new_GlobalKeyboardMouseInteractionTracker (w : World)
    : nat * World :=
  let w := with_totalInstances (_totalInstances w + 1)%Z w in
  match _instance w with
  | Some i => (i, w)
  | None =>
      let i := length (globalTrackers w) in
      let w :=
        with_globalTrackers
          (globalTrackers w ++
           [{| isKeyPressed := false; isMouseMoved := false;
               change_isMouseMoved := []; change_isKeyPressed := [] |}]) w in
      let w := with_instance (Some i) w in
      (i, _mountDocumentListeners i w)
  end.

(** How a call ends: it returns, it throws (the non-null assertion on
    [_instance] met null), or the model ran out of call depth. *)
Inductive Outcome :=
| Returns (w : World)
| TypeError
| OutOfFuel.

(** [GlobalKeyboardMouseInteractionTracker.destroy], which calls itself on
    [_instance] when the count reaches zero; [depth] bounds the nesting. *)
Fixpoint GlobalKeyboardMouseInteractionTracker_destroy (depth : nat) (i : nat)
    (w : World) : Outcome :=
  match depth with
  | O => OutOfFuel
  | S depth =>
      let w := stopListening i w in
      let w := _domEmitter_stopListening i w in
      let w := set_isKeyPressed i false w in
      let w := set_isMouseMoved i false w in
      let w := with_totalInstances (_totalInstances w - 1)%Z w in
      if (_totalInstances w =? 0)%Z then
        match _instance w with
        | Some j =>
            match GlobalKeyboardMouseInteractionTracker_destroy depth j w with
            | Returns w => Returns (with_instance None w)
            | failure => failure
            end
        | None => TypeError
        end
      else Returns w
  end.

(** The nested call never nests again, so two levels are all the source can
    use; the lemma [destroy_depth] below shows that more changes nothing. *)
Definition call_depth : nat := 2.

(** ** FocusTracker *)

(** Modelled from the spec: assignment to the observable [focusedElement] of
    the absent Focus Tracker; the subscribers get the new element as the
    payload, and only when it differs from the old one. *)
Definition set_focusedElement (f : nat) (v : option Element) (w : World)
    : World :=
  match focusTrackers w !! f with
  | Some t =>
      if bool_decide (focusedElement t = v) then w
      else
        fire _watchChangeFocusedElement (change_focusedElement t) v
          (update_focus f (put_focusedElement v) w)
  | None => w
  end.

(** Modelled from the spec: assignment to [isFocused] of the absent Focus
    Tracker; the keyboard focus tracker only reads it. *)
Definition set_isFocused (f : nat) (v : bool) : World -> World :=
  update_focus f (fun t =>
    {| focusedElement := focusedElement t; isFocused := v;
       _nextEventLoopTimeout := _nextEventLoopTimeout t;
       change_focusedElement := change_focusedElement t |}).

(** Modelled from the spec: setting and clearing the timer of the absent
    Focus Tracker. *)
Definition set_nextEventLoopTimeout (f : nat) (v : bool) : World -> World :=
  update_focus f (fun t =>
    {| focusedElement := focusedElement t; isFocused := isFocused t;
       _nextEventLoopTimeout := v;
       change_focusedElement := change_focusedElement t |}).

(** Modelled from the spec: [new FocusTracker()] of the absent Focus
    Tracker: nothing focused, nobody subscribed. *)
Definition new_FocusTracker (w : World) : nat * World :=
  (length (focusTrackers w),
   with_focusTrackers
     (focusTrackers w ++
      [{| focusedElement := None; isFocused := false;
          _nextEventLoopTimeout := false; change_focusedElement := [] |}]) w).

(** Modelled from the spec: a focus event on an element tracked by the
    absent Focus Tracker [f] cancels a pending reset and publishes the
    element. *)
Definition FocusTracker_focus (f : nat) (el : Element) (w : World) : World :=
  let w := set_nextEventLoopTimeout f false w in
  let w := set_focusedElement f (Some el) w in
  set_isFocused f true w.

(** Modelled from the spec: a blur event on a tracked element only schedules
    the reset of the absent Focus Tracker. *)
Definition FocusTracker_blur (f : nat) (w : World) : World :=
  set_nextEventLoopTimeout f true w.

(** Modelled from the spec: the scheduled reset of the absent Focus Tracker
    runs, if it is still pending. *)
Definition FocusTracker_timeout (f : nat) (w : World) : World :=
  match focusTrackers w !! f with
  | Some t =>
      if _nextEventLoopTimeout t then
        let w := set_nextEventLoopTimeout f false w in
        let w := set_focusedElement f None w in
        set_isFocused f false w
      else w
  | None => w
  end.

(** Modelled from the spec: [focusTracker.on( 'change:focusedElement',
    callback )] and the matching [off] of the absent emitter mixin. *)
Definition on_change_focusedElement (f k : nat) : World -> World :=
  update_focus f (fun t =>
    {| focusedElement := focusedElement t; isFocused := isFocused t;
       _nextEventLoopTimeout := _nextEventLoopTimeout t;
       change_focusedElement := change_focusedElement t ++ [k] |}).

(** Modelled from the spec: [off] of the absent emitter mixin, for
    change:focusedElement. *)
Definition off_change_focusedElement (f k : nat) : World -> World :=
  update_focus f (fun t =>
    {| focusedElement := focusedElement t; isFocused := isFocused t;
       _nextEventLoopTimeout := _nextEventLoopTimeout t;
       change_focusedElement :=
         filter (fun k' => k' <> k) (change_focusedElement t) |}).

(** ** KeyboardFocusTracker: construction and destruction *)

(** [new KeyboardFocusTracker( focusTracker )]. *)
Definition new_KeyboardFocusTracker (f : nat) (w : World) : nat * World :=
  let k := length (keyboardFocusTrackers w) in
  let '(i, w) := new_GlobalKeyboardMouseInteractionTracker w in
  let w :=
    with_keyboardFocusTrackers
      (keyboardFocusTrackers w ++
       [{| isFocusedUsingKeyboard := false; _globalInteractionTracker := i;
           focusTracker := f |}]) w in
  let w := on_change_isMouseMoved i k w in
  let w := on_change_isKeyPressed i k w in
  (k, on_change_focusedElement f k w).

(** [KeyboardFocusTracker.destroy]. Its own [this.stopListening()] has
    nothing to stop: the tracker attaches its callbacks with [on] of the other
    two objects and listens to nothing itself. *)
Definition KeyboardFocusTracker_destroy (k : nat) (w : World) : Outcome :=
  match keyboardFocusTrackers w !! k with
  | Some t =>
      let w := off_change_focusedElement (focusTracker t) k w in
      let w := off_change_isMouseMoved (_globalInteractionTracker t) k w in
      match
        GlobalKeyboardMouseInteractionTracker_destroy call_depth
          (_globalInteractionTracker t) w
      with
      | Returns w => Returns (set_isFocusedUsingKeyboard k false w)
      | failure => failure
      end
  | None => Returns w
  end.

(** ** The document and the environment *)

(** [document.dispatchEvent]: the listeners registered for the type run in
    the order of registration. *)
Definition document_dispatchEvent (type : string) (w : World) : World :=
  fold_left
    (fun w l =>
       if String.eqb (dl_type l) type
       then run_callback (dl_owner l) (dl_callback l) w
       else w)
    (documentListeners w) w.

(** What can happen to the system: an event on the document, a focus or a
    blur on an element tracked by a focus tracker, the focus tracker's timer,
    and the construction and destruction of trackers. An event on an object
    that was never made does nothing. *)
Inductive Event :=
| DocumentEvent (type : string)
| ElementFocus (f : nat) (el : Element)
| ElementBlur (f : nat)
| RunTimeout (f : nat)
| NewFocusTracker
| NewKeyboardFocusTracker (f : nat)
| Destroy (k : nat).

Definition step (e : Event) (w : World) : Outcome :=
  match e with
  | DocumentEvent type => Returns (document_dispatchEvent type w)
  | ElementFocus f el => Returns (FocusTracker_focus f el w)
  | ElementBlur f => Returns (FocusTracker_blur f w)
  | RunTimeout f => Returns (FocusTracker_timeout f w)
  | NewFocusTracker => Returns (snd (new_FocusTracker w))
  | NewKeyboardFocusTracker f =>
      if bool_decide (f < length (focusTrackers w))
      then Returns (snd (new_KeyboardFocusTracker f w))
      else Returns w
  | Destroy k => KeyboardFocusTracker_destroy k w
  end.

Fixpoint run (es : list Event) (w : World) : Outcome :=
  match es with
  | [] => Returns w
  | e :: es =>
      match step e w with
      | Returns w => run es w
      | failure => failure
      end
  end.

Definition reachable (w : World) : Prop :=
  exists es, run es initial = Returns w.

(** ** Observations *)

(** The flag of tracker [k], if there is such a tracker. *)
Definition flag (k : nat) (w : World) : option bool :=
  isFocusedUsingKeyboard <$> keyboardFocusTrackers w !! k.

Definition keyPressed (i : nat) (w : World) : option bool :=
  isKeyPressed <$> globalTrackers w !! i.

Definition mouseMoved (i : nat) (w : World) : option bool :=
  isMouseMoved <$> globalTrackers w !! i.

(** The flag after a run from the initial store. *)
Definition flag_after (es : list Event) (k : nat) : option bool :=
  match run es initial with
  | Returns w => flag k w
  | _ => None
  end.

(** Which callback [_mountDocumentListeners] registers for an event type, if
    any. *)
Definition callback_for (type : string) : option DocumentCallback :=
  if String.eqb "mouseleave" type then Some handleMouseMoved
  else if String.eqb "pointerleave" type then Some handleMouseMoved
  else if String.eqb "mouseenter" type then Some handleMouseMoved
  else if String.eqb "pointerenter" type then Some handleMouseMoved
  else if String.eqb "keydown" type then Some handleKeyDown
  else if String.eqb "keyup" type then Some handleResetKeyPress
  else None.

(** The table of event-driven transitions as the specification words it, on
    the pair (isKeyPressed, isMouseMoved). *)
Definition transition (type : string) (s : bool * bool) : bool * bool :=
  if String.eqb type "keydown" then (true, false)
  else if String.eqb type "keyup" then (false, false)
  else if String.eqb type "mouseenter" || String.eqb type "mouseleave"
          || String.eqb type "pointerenter" || String.eqb type "pointerleave"
  then (fst s, true)
  else s.

Definition signals (i : nat) (w : World) : option (bool * bool) :=
  (fun g => (isKeyPressed g, isMouseMoved g)) <$> globalTrackers w !! i.

(** The store a run from [initial] ends in ([initial] itself if the run
    throws, which the proofs below show it never does). *)
Definition world_after (es : list Event) : World :=
  match run es initial with
  | Returns w => w
  | _ => initial
  end.

(** One focus tracker and [n] keyboard focus trackers made on it. *)
Definition consumers (n : nat) : list Event :=
  NewFocusTracker :: repeat (NewKeyboardFocusTracker 0) n.

(** One consumer made and destroyed; then a second one made and destroyed;
    then a third one made. *)
Definition first_cycle : World := Eval vm_compute in
  world_after [NewFocusTracker; NewKeyboardFocusTracker 0; Destroy 0].

Definition second_cycle : World := Eval vm_compute in
  world_after [NewFocusTracker; NewKeyboardFocusTracker 0; Destroy 0;
               NewKeyboardFocusTracker 0; Destroy 1].

Definition third_acquire : World := Eval vm_compute in
  world_after [NewFocusTracker; NewKeyboardFocusTracker 0; Destroy 0;
               NewKeyboardFocusTracker 0; Destroy 1;
               NewKeyboardFocusTracker 0].

(** One focus tracker and one keyboard focus tracker on it. *)
Definition one_tracker : World := Eval vm_compute in
  world_after [NewFocusTracker; NewKeyboardFocusTracker 0].

(** One focus tracker, one keyboard focus tracker on it, and a key held
    down. *)
Definition key_held : World := Eval vm_compute in
  world_after [NewFocusTracker; NewKeyboardFocusTracker 0;
               DocumentEvent "keydown"].

(** The same with an element focused while the key is down, and with an
    element focused before any key. *)
Definition key_held_focused : World := Eval vm_compute in
  world_after [NewFocusTracker; NewKeyboardFocusTracker 0;
               DocumentEvent "keydown"; ElementFocus 0 7].

Definition focused_without_key : World := Eval vm_compute in
  world_after [NewFocusTracker; NewKeyboardFocusTracker 0;
               ElementFocus 0 7].

(** ** Views and invariants *)

(** What a keyboard focus tracker is wired to: its global tracker and its
    focus tracker. The callbacks never change it. *)
Definition links (w : World) : list (nat * nat) :=
  (fun t => (_globalInteractionTracker t, focusTracker t))
    <$> keyboardFocusTrackers w.

(** The subscribers of each global tracker (mouse moved, key pressed) and of
    each focus tracker. *)
Definition globalSubscribers (w : World) : list (list nat * list nat) :=
  (fun g => (change_isMouseMoved g, change_isKeyPressed g))
    <$> globalTrackers w.

Definition focusSubscribers (w : World) : list (list nat) :=
  change_focusedElement <$> focusTrackers w.

(** [w'] differs from [w] at most in the flags of keyboard focus trackers. *)
Record flags_only (w w' : World) : Prop := {
  fo_global : globalTrackers w' = globalTrackers w;
  fo_instance : _instance w' = _instance w;
  fo_total : _totalInstances w' = _totalInstances w;
  fo_focus : focusTrackers w' = focusTrackers w;
  fo_document : documentListeners w' = documentListeners w;
  fo_links : links w' = links w
}.

(** [w'] has the wiring of [w]: same subscriptions, same listeners, same
    statics; signals, focus state and flags may differ. *)
Record same_wiring (w w' : World) : Prop := {
  sw_links : links w' = links w;
  sw_global : globalSubscribers w' = globalSubscribers w;
  sw_focus : focusSubscribers w' = focusSubscribers w;
  sw_instance : _instance w' = _instance w;
  sw_total : _totalInstances w' = _totalInstances w;
  sw_document : documentListeners w' = documentListeners w
}.

(** The six registrations of [_mountDocumentListeners] for tracker [i]. *)
Definition mounted_listeners (i : nat) : list DocumentListener :=
  [ {| dl_type := "mouseleave"; dl_owner := i;
       dl_callback := handleMouseMoved |};
    {| dl_type := "pointerleave"; dl_owner := i;
       dl_callback := handleMouseMoved |};
    {| dl_type := "mouseenter"; dl_owner := i;
       dl_callback := handleMouseMoved |};
    {| dl_type := "pointerenter"; dl_owner := i;
       dl_callback := handleMouseMoved |};
    {| dl_type := "keydown"; dl_owner := i; dl_callback := handleKeyDown |};
    {| dl_type := "keyup"; dl_owner := i;
       dl_callback := handleResetKeyPress |} ].

(** Every consumer wired to global tracker [m] is subscribed to its two
    change events and to the change of its own focus tracker. *)
Definition consumers_subscribed (m : nat) (w : World) : Prop :=
  exists mm kp,
    globalSubscribers w !! m = Some (mm, kp) /\
    forall k f, links w !! k = Some (m, f) ->
      k ∈ mm /\ k ∈ kp /\
      exists fe, focusSubscribers w !! f = Some fe /\ k ∈ fe.

(** The invariant of every store reached from [initial]. *)
Record Inv (w : World) : Prop := {
  inv_links : forall k i f, links w !! k = Some (i, f) ->
    is_Some (globalSubscribers w !! i) /\ is_Some (focusSubscribers w !! f);
  inv_global : forall i mm kp k,
    globalSubscribers w !! i = Some (mm, kp) -> k ∈ mm \/ k ∈ kp ->
    exists f, links w !! k = Some (i, f);
  inv_focus : forall f fe k,
    focusSubscribers w !! f = Some fe -> k ∈ fe ->
    exists i, links w !! k = Some (i, f);
  inv_mounted :
    documentListeners w = [] \/
    exists m, documentListeners w = mounted_listeners m /\
              _instance w = Some m /\ consumers_subscribed m w;
  inv_slot :
    match _instance w with
    | Some i => is_Some (globalSubscribers w !! i)
    | None => (_totalInstances w <= 0)%Z
    end
}.

(** The event types that end or taint a key hold: keyup, and the four
    enter and leave events. *)
Definition keyup_or_mouse (type : string) : bool :=
  String.eqb type "keyup" || String.eqb type "mouseenter"
  || String.eqb type "mouseleave" || String.eqb type "pointerenter"
  || String.eqb type "pointerleave".

(** Events during which a key hold goes on: anything but a keyup, a mouse or
    pointer enter or leave, and the destruction of a tracker. *)
Definition holds_key (e : Event) : bool :=
  match e with
  | DocumentEvent type => negb (keyup_or_mouse type)
  | Destroy _ => false
  | _ => true
  end.

(** Events that, in addition, do not run the pending reset of focus tracker
    [f]. *)
Definition calm (f : nat) (e : Event) : bool :=
  holds_key e &&
  match e with
  | RunTimeout f' => negb (Nat.eqb f' f)
  | _ => true
  end.

(** Tracker [k] is in a key hold: the listeners of its global tracker are on
    the document, a key is pressed and the mouse has not moved. *)
Definition key_hold (k : nat) (w : World) : Prop :=
  exists i f,
    links w !! k = Some (i, f) /\
    documentListeners w = mounted_listeners i /\
    signals i w = Some (true, false).

(** What a new consumer [k] does to the subscribers of its global tracker. *)
Definition subscribe_both (k : nat) (p : list nat * list nat)
    : list nat * list nat :=
  (p.1 ++ [k], p.2 ++ [k]).

(** A callback that at most assigns the flag of its own tracker. *)
Definition writes_flag {A : Type} (callback : nat -> A -> World -> World)
    : Prop :=
  forall k a w,
    callback k a w = w \/
    exists b, callback k a w = set_isFocusedUsingKeyboard k b w.

(** Tracker [k] is attached to nothing: no event can reach it. *)
Definition detached (k : nat) (w : World) : Prop :=
  (forall i mm kp, globalSubscribers w !! i = Some (mm, kp) ->
     (k ∉ mm) /\ (k ∉ kp)) /\
  (forall f fe, focusSubscribers w !! f = Some fe -> k ∉ fe).

(** What a focus tracker holds apart from its subscribers. *)
Definition focus_state (t : FocusTracker) : option Element * bool * bool :=
  (focusedElement t, isFocused t, _nextEventLoopTimeout t).

(** The part of [GlobalKeyboardMouseInteractionTracker.destroy] before the
    test of the count. *)
Definition teardown (i : nat) (w : World) : World :=
  let w := stopListening i w in
  let w := _domEmitter_stopListening i w in
  let w := set_isKeyPressed i false w in
  let w := set_isMouseMoved i false w in
  with_totalInstances (_totalInstances w - 1)%Z w.

(** ** Further invariants *)

(** Global tracker [i] has no listener on the document. *)
Definition unmounted (i : nat) (w : World) : Prop :=
  forall l, l ∈ documentListeners w -> dl_owner l <> i.

(** What the signals and the flags satisfy in every store reached from
    [initial]: a global tracker without listeners has both signals false, and
    while the mouse has moved no consumer of the listening tracker is
    attributed to the keyboard. *)
Record Inv_values (w : World) : Prop := {
  inv_silent : forall i s, signals i w = Some s ->
    unmounted i w -> s = (false, false);
  inv_moved : forall m k f kp,
    documentListeners w = mounted_listeners m ->
    signals m w = Some (kp, true) ->
    links w !! k = Some (m, f) -> flag k w = Some false
}.

(** The four event types that [_mountDocumentListeners] gives to
    [handleMouseMoved]. *)
Definition mouse_events : list string :=
  ["mouseleave"; "pointerleave"; "mouseenter"; "pointerenter"].

(** A key held, an element focused, then the mouse moved. *)
Definition mouse_moved_after_focus : World := Eval vm_compute in
  world_after [NewFocusTracker; NewKeyboardFocusTracker 0;
               DocumentEvent "keydown"; ElementFocus 0 7;
               DocumentEvent "mouseenter"].

(** The slot holding a destroyed instance (see [second_cycle]), a consumer
    made on it, then a keydown and a focus. *)
Definition after_deaf_keydown : World := Eval vm_compute in
  world_after [NewFocusTracker; NewKeyboardFocusTracker 0; Destroy 0;
               NewKeyboardFocusTracker 0; Destroy 1;
               NewKeyboardFocusTracker 0; DocumentEvent "keydown";
               ElementFocus 0 7].

(** Two consumers of one focus tracker, a key held and an element focused. *)
Definition two_consumers_focused : World := Eval vm_compute in
  world_after [NewFocusTracker; NewKeyboardFocusTracker 0;
               NewKeyboardFocusTracker 0; DocumentEvent "keydown";
               ElementFocus 0 7].
(** * The per-instance generation (keyboardfocustracker.ts under packages/)

    The older [KeyboardFocusTracker]: every tracker has its own
    [isKeyPressed] and its own two listeners on the document, and a keydown
    defers an update of the flag with [setTimeout]. *)

Module PerInstance.

(** The two arrow functions that [_watchWindowKeyPress] gives to the
    document. *)
Inductive DocumentCallback :=
| onKeyDown
| onKeyUp.

Record DocumentListener := {
  dl_type : string;
  dl_owner : nat;
  dl_callback : DocumentCallback
}.

Record KeyboardFocusTracker := {
  isFocusedUsingKeyboard : bool;
  isKeyPressed : bool;
  focusTracker : nat
}.

(** The store: the focus trackers (as above, their subscribers now being
    trackers of this generation), the keyboard focus trackers, the listeners
    on the document, and the callbacks that the keydown listeners gave to
    [setTimeout], oldest first, each named by the tracker whose listener
    scheduled it. The reset that a focus tracker schedules on blur stays with
    the focus tracker, as above; the events below let the two kinds of timer
    run in any order. *)
Record World := {
  focusTrackers : list FocusTracker;
  keyboardFocusTrackers : list KeyboardFocusTracker;
  documentListeners : list DocumentListener;
  timeouts : list nat
}.

Definition initial : World :=
  {| focusTrackers := []; keyboardFocusTrackers := [];
     documentListeners := []; timeouts := [] |}.

Definition with_focusTrackers (l : list FocusTracker) (w : World) : World :=
  {| focusTrackers := l; keyboardFocusTrackers := keyboardFocusTrackers w;
     documentListeners := documentListeners w; timeouts := timeouts w |}.

Definition with_keyboardFocusTrackers (l : list KeyboardFocusTracker)
    (w : World) : World :=
  {| focusTrackers := focusTrackers w; keyboardFocusTrackers := l;
     documentListeners := documentListeners w; timeouts := timeouts w |}.

Definition with_documentListeners (l : list DocumentListener) (w : World)
    : World :=
  {| focusTrackers := focusTrackers w;
     keyboardFocusTrackers := keyboardFocusTrackers w;
     documentListeners := l; timeouts := timeouts w |}.

Definition with_timeouts (l : list nat) (w : World) : World :=
  {| focusTrackers := focusTrackers w;
     keyboardFocusTrackers := keyboardFocusTrackers w;
     documentListeners := documentListeners w; timeouts := l |}.

Definition update_focus (f : nat) (h : FocusTracker -> FocusTracker)
    (w : World) : World :=
  with_focusTrackers (alter h f (focusTrackers w)) w.

Definition update_keyboard (k : nat)
    (h : KeyboardFocusTracker -> KeyboardFocusTracker) (w : World) : World :=
  with_keyboardFocusTrackers (alter h k (keyboardFocusTrackers w)) w.

(** [this.isFocusedUsingKeyboard = v] and [this.isKeyPressed = v]; nothing in
    these sources subscribes to the change of either. *)
Definition set_isFocusedUsingKeyboard (k : nat) (v : bool) : World -> World :=
  update_keyboard k (fun t =>
    {| isFocusedUsingKeyboard := v; isKeyPressed := isKeyPressed t;
       focusTracker := focusTracker t |}).

Definition set_isKeyPressed (k : nat) (v : bool) : World -> World :=
  update_keyboard k (fun t =>
    {| isFocusedUsingKeyboard := isFocusedUsingKeyboard t; isKeyPressed := v;
       focusTracker := focusTracker t |}).

Definition _watchFocusTracker (k : nat) (el : option Element) (w : World)
    : World :=
  match keyboardFocusTrackers w !! k with
  | Some t => set_isFocusedUsingKeyboard k (truthy el && isKeyPressed t) w
  | None => w
  end.

(** The callback that the keydown listener gives to [setTimeout]. *)
Definition deferred_update (k : nat) (w : World) : World :=
  match keyboardFocusTrackers w !! k with
  | Some t =>
      match focusTrackers w !! focusTracker t with
      | Some f => set_isFocusedUsingKeyboard k (isFocused f) w
      | None => w
      end
  | None => w
  end.

(** Modelled from the spec: [setTimeout( callback )] of the host, which is
    not among the sources: the callback joins the queue and runs later, after
    those scheduled before it. *)
Definition setTimeout (k : nat) (w : World) : World :=
  with_timeouts (timeouts w ++ [k]) w.

(** The bodies of the two document callbacks of tracker [k]. *)
Definition run_callback (k : nat) (c : DocumentCallback) (w : World) : World :=
  match c with
  | onKeyDown =>
      let w := set_isKeyPressed k true w in
      setTimeout k w
  | onKeyUp => set_isKeyPressed k false w
  end.

(** Modelled from the spec: firing an event of the absent emitter mixin runs
    the attached callbacks in the order of attachment. *)
Definition fire (attached : list nat) (el : option Element) (w : World)
    : World :=
  fold_left (fun w k => _watchFocusTracker k el w) attached w.

(** Modelled from the spec: the absent Focus Tracker, as in the first part:
    assignment to [focusedElement] notifies on change, a focus cancels the
    pending reset and publishes the element, a blur schedules the reset. *)
Definition set_focusedElement (f : nat) (v : option Element) (w : World)
    : World :=
  match focusTrackers w !! f with
  | Some t =>
      if bool_decide (focusedElement t = v) then w
      else
        fire (change_focusedElement t) v
          (update_focus f (put_focusedElement v) w)
  | None => w
  end.

(** Modelled from the spec: [isFocused] and the timer of the absent Focus
    Tracker. *)
Definition set_isFocused (f : nat) (v : bool) : World -> World :=
  update_focus f (fun t =>
    {| focusedElement := focusedElement t; isFocused := v;
       _nextEventLoopTimeout := _nextEventLoopTimeout t;
       change_focusedElement := change_focusedElement t |}).

(** Modelled from the spec: the timer of the absent Focus Tracker. *)
Definition set_nextEventLoopTimeout (f : nat) (v : bool) : World -> World :=
  update_focus f (fun t =>
    {| focusedElement := focusedElement t; isFocused := isFocused t;
       _nextEventLoopTimeout := v;
       change_focusedElement := change_focusedElement t |}).

(** Modelled from the spec: [new FocusTracker()] of the absent Focus
    Tracker. *)
Definition new_FocusTracker (w : World) : nat * World :=
  (length (focusTrackers w),
   with_focusTrackers
     (focusTrackers w ++
      [{| focusedElement := None; isFocused := false;
          _nextEventLoopTimeout := false; change_focusedElement := [] |}]) w).

(** Modelled from the spec: focus, blur and the scheduled reset of the absent
    Focus Tracker. *)
Definition FocusTracker_focus (f : nat) (el : Element) (w : World) : World :=
  let w := set_nextEventLoopTimeout f false w in
  let w := set_focusedElement f (Some el) w in
  set_isFocused f true w.

(** Modelled from the spec: a blur of the absent Focus Tracker. *)
Definition FocusTracker_blur (f : nat) (w : World) : World :=
  set_nextEventLoopTimeout f true w.

(** Modelled from the spec: the reset of the absent Focus Tracker runs. *)
Definition FocusTracker_timeout (f : nat) (w : World) : World :=
  match focusTrackers w !! f with
  | Some t =>
      if _nextEventLoopTimeout t then
        let w := set_nextEventLoopTimeout f false w in
        let w := set_focusedElement f None w in
        set_isFocused f false w
      else w
  | None => w
  end.

(** Modelled from the spec: [on] and [off] of the absent emitter mixin, for
    change:focusedElement. *)
Definition on_change_focusedElement (f k : nat) : World -> World :=
  update_focus f (fun t =>
    {| focusedElement := focusedElement t; isFocused := isFocused t;
       _nextEventLoopTimeout := _nextEventLoopTimeout t;
       change_focusedElement := change_focusedElement t ++ [k] |}).

(** Modelled from the spec: [off] of the absent emitter mixin. *)
Definition off_change_focusedElement (f k : nat) : World -> World :=
  update_focus f (fun t =>
    {| focusedElement := focusedElement t; isFocused := isFocused t;
       _nextEventLoopTimeout := _nextEventLoopTimeout t;
       change_focusedElement :=
         filter (fun k' => k' <> k) (change_focusedElement t) |}).

(** Modelled from the spec: [listenTo] and [stopListening] of the absent DOM
    emitter mixin, on the tracker's own [_domEmitter]. *)
Definition _domEmitter_listenTo (k : nat) (type : string)
    (c : DocumentCallback) (w : World) : World :=
  with_documentListeners
    (documentListeners w ++
     [{| dl_type := type; dl_owner := k; dl_callback := c |}]) w.

(** Modelled from the spec: [stopListening] of the absent DOM emitter
    mixin. *)
Definition _domEmitter_stopListening (k : nat) (w : World) : World :=
  with_documentListeners
    (filter (fun l => dl_owner l <> k) (documentListeners w)) w.

Definition _watchWindowKeyPress (k : nat) (w : World) : World :=
  let w := _domEmitter_listenTo k "keydown" onKeyDown w in
  _domEmitter_listenTo k "keyup" onKeyUp w.

(** [new KeyboardFocusTracker( focusTracker )]. *)
Definition new_KeyboardFocusTracker (f : nat) (w : World) : nat * World :=
  let k := length (keyboardFocusTrackers w) in
  let w :=
    with_keyboardFocusTrackers
      (keyboardFocusTrackers w ++
       [{| isFocusedUsingKeyboard := false; isKeyPressed := false;
           focusTracker := f |}]) w in
  let w := on_change_focusedElement f k w in
  (k, _watchWindowKeyPress k w).

(** [destroy]. Its [this.stopListening()] has nothing to stop, as in the
    later generation; nothing clears the callbacks given to [setTimeout]. *)
Definition destroy (k : nat) (w : World) : World :=
  match keyboardFocusTrackers w !! k with
  | Some t =>
      let w := set_isFocusedUsingKeyboard k false w in
      let w := set_isKeyPressed k false w in
      let w := off_change_focusedElement (focusTracker t) k w in
      _domEmitter_stopListening k w
  | None => w
  end.

Definition document_dispatchEvent (type : string) (w : World) : World :=
  fold_left
    (fun w l =>
       if String.eqb (dl_type l) type
       then run_callback (dl_owner l) (dl_callback l) w
       else w)
    (documentListeners w) w.

(** The oldest callback held by [setTimeout] runs. *)
Definition run_timeout (w : World) : World :=
  match timeouts w with
  | k :: rest => deferred_update k (with_timeouts rest w)
  | [] => w
  end.

(** All the callbacks held by [setTimeout] run, oldest first (none of them
    schedules another). *)
Fixpoint run_timeouts (n : nat) (w : World) : World :=
  match n with
  | O => w
  | S n => run_timeouts n (run_timeout w)
  end.

Definition drain (w : World) : World :=
  run_timeouts (length (timeouts w)) w.

Inductive Event :=
| DocumentEvent (type : string)
| ElementFocus (f : nat) (el : Element)
| ElementBlur (f : nat)
| RunFocusReset (f : nat)
| RunTimeout
| NewFocusTracker
| NewKeyboardFocusTracker (f : nat)
| Destroy (k : nat).

Definition step (e : Event) (w : World) : World :=
  match e with
  | DocumentEvent type => document_dispatchEvent type w
  | ElementFocus f el => FocusTracker_focus f el w
  | ElementBlur f => FocusTracker_blur f w
  | RunFocusReset f => FocusTracker_timeout f w
  | RunTimeout => run_timeout w
  | NewFocusTracker => (new_FocusTracker w).2
  | NewKeyboardFocusTracker f =>
      if bool_decide (f < length (focusTrackers w))
      then (new_KeyboardFocusTracker f w).2
      else w
  | Destroy k => destroy k w
  end.

Definition run (es : list Event) (w : World) : World :=
  fold_left (fun w e => step e w) es w.

Definition reachable (w : World) : Prop :=
  exists es, run es initial = w.

Definition flag (k : nat) (w : World) : option bool :=
  isFocusedUsingKeyboard <$> keyboardFocusTrackers w !! k.

Definition keyPressed (k : nat) (w : World) : option bool :=
  isKeyPressed <$> keyboardFocusTrackers w !! k.

(** Tracker [k] has a listener on the document. *)
Definition listening (k : nat) (w : World) : Prop :=
  exists l, l ∈ documentListeners w /\ dl_owner l = k.

(** Tracker [k] is no subscriber of any focus tracker. *)
Definition unsubscribed (k : nat) (w : World) : Prop :=
  forall f t, focusTrackers w !! f = Some t -> k ∉ change_focusedElement t.

(** What holds of every store reached from [initial]: a listener is one of
    the two that [_watchWindowKeyPress] registers, for a tracker that
    exists, and a tracker has both or none; the subscribers and the pending
    callbacks are trackers that exist, a subscriber being attached to its
    own focus tracker. *)
Record Inv (w : World) : Prop := {
  inv_listeners : forall l, l ∈ documentListeners w ->
    is_Some (keyboardFocusTrackers w !! dl_owner l) /\
    ((dl_type l = "keydown" /\ dl_callback l = onKeyDown) \/
     (dl_type l = "keyup" /\ dl_callback l = onKeyUp));
  inv_keydown : forall k, listening k w ->
    {| dl_type := "keydown"; dl_owner := k; dl_callback := onKeyDown |}
      ∈ documentListeners w /\
    {| dl_type := "keyup"; dl_owner := k; dl_callback := onKeyUp |}
      ∈ documentListeners w;
  inv_subscribers : forall f t k,
    focusTrackers w !! f = Some t -> k ∈ change_focusedElement t ->
    exists kt, keyboardFocusTrackers w !! k = Some kt /\ focusTracker kt = f;
  inv_timeouts : forall k, k ∈ timeouts w ->
    is_Some (keyboardFocusTrackers w !! k);
  inv_focus : forall k kt, keyboardFocusTrackers w !! k = Some kt ->
    is_Some (focusTrackers w !! focusTracker kt)
}.

(** No object is lost or made, no tracker changes its focus tracker, and no
    subscription is added. *)
Definition keeps_objects (w w' : World) : Prop :=
  (forall j t', keyboardFocusTrackers w' !! j = Some t' ->
     exists t, keyboardFocusTrackers w !! j = Some t /\
               focusTracker t' = focusTracker t) /\
  (forall j, is_Some (keyboardFocusTrackers w !! j) ->
     is_Some (keyboardFocusTrackers w' !! j)) /\
  (forall f ft' k, focusTrackers w' !! f = Some ft' ->
     k ∈ change_focusedElement ft' ->
     exists ft, focusTrackers w !! f = Some ft /\
                k ∈ change_focusedElement ft) /\
  (forall f, is_Some (focusTrackers w !! f) ->
     is_Some (focusTrackers w' !! f)).

(** What a dispatch of [type] over the listeners [ls] leaves in
    [isKeyPressed] of tracker [k], and the trackers whose keydown callback it
    runs, in order. *)
Definition keyPressed_after (ls : list DocumentListener) (type : string)
    (k : nat) (b : bool) : bool :=
  fold_left
    (fun b l =>
       if String.eqb (dl_type l) type && bool_decide (dl_owner l = k)
       then match dl_callback l with onKeyDown => true | onKeyUp => false end
       else b)
    ls b.

Fixpoint scheduled (ls : list DocumentListener) (type : string) : list nat :=
  match ls with
  | [] => []
  | l :: ls =>
      if String.eqb (dl_type l) type
      then match dl_callback l with
           | onKeyDown => dl_owner l :: scheduled ls type
           | onKeyUp => scheduled ls type
           end
      else scheduled ls type
  end.

(** The tracker as [destroy] leaves it. *)
Definition destroyed (k : nat) (w : World) : Prop :=
  flag k w = Some false /\ keyPressed k w = Some false /\
  ~ listening k w /\ unsubscribed k w.

(** Stores used as examples. *)
Definition focused_then_keydown : World := Eval vm_compute in
  run [NewFocusTracker; NewKeyboardFocusTracker 0; ElementFocus 0 7;
       DocumentEvent "keydown"] initial.

Definition key_held : World := Eval vm_compute in
  run [NewFocusTracker; NewKeyboardFocusTracker 0; DocumentEvent "keydown";
       RunTimeout] initial.

Definition two_trackers_key_held : World := Eval vm_compute in
  run [NewFocusTracker; NewKeyboardFocusTracker 0;
       NewKeyboardFocusTracker 0; DocumentEvent "keydown"; RunTimeout;
       RunTimeout] initial.

Definition after_destroy : World := Eval vm_compute in
  run [NewFocusTracker; NewKeyboardFocusTracker 0; DocumentEvent "keydown";
       RunTimeout; Destroy 0] initial.

End PerInstance.

(** * Proofs *)

(** The test file's scenarios, replayed on the model. *)
Example keydown_then_focus :
  flag_after [NewFocusTracker; NewKeyboardFocusTracker 0;
              DocumentEvent "keydown"; ElementFocus 0 1] 0
  = Some true.
Proof. reflexivity. Qed.

Example focus_without_key :
  flag_after [NewFocusTracker; NewKeyboardFocusTracker 0;
              ElementFocus 0 1] 0
  = Some false.
Proof. reflexivity. Qed.

Example attribution_survives_keyup :
  flag_after [NewFocusTracker; NewKeyboardFocusTracker 0;
              DocumentEvent "keydown"; ElementFocus 0 1;
              DocumentEvent "keyup"] 0
  = Some true.
Proof. reflexivity. Qed.

Example switching_between_elements :
  flag_after [NewFocusTracker; NewKeyboardFocusTracker 0;
              DocumentEvent "keydown"; ElementFocus 0 1;
              ElementBlur 0; ElementFocus 0 2] 0
  = Some true.
Proof. reflexivity. Qed.

(** ** Frames *)

Lemma flags_only_refl w : flags_only w w.
Proof. by constructor. Qed.

Lemma flags_only_trans w1 w2 w3 :
  flags_only w1 w2 -> flags_only w2 w3 -> flags_only w1 w3.
Proof. intros [] []; constructor; congruence. Qed.

Lemma flags_only_wiring w w' : flags_only w w' -> same_wiring w w'.
Proof.
  intros []; constructor; try done.
  - unfold globalSubscribers; congruence.
  - unfold focusSubscribers; congruence.
Qed.

Lemma same_wiring_refl w : same_wiring w w.
Proof. by constructor. Qed.

Lemma same_wiring_trans w1 w2 w3 :
  same_wiring w1 w2 -> same_wiring w2 w3 -> same_wiring w1 w3.
Proof. intros [] []; constructor; congruence. Qed.

Lemma alter_fmap_fixed {A B : Type} (p : A -> B) (f : A -> A) i (l : list A) :
  (forall x, p (f x) = p x) -> p <$> alter f i l = p <$> l.
Proof.
  intros Hp. rewrite (list_fmap_alter _ _ id).
  - by apply list_alter_id.
  - apply Forall_forall; intros; apply Hp.
Qed.

Lemma set_flag_flags_only k b w :
  flags_only w (set_isFocusedUsingKeyboard k b w).
Proof.
  constructor; try done.
  unfold links, set_isFocusedUsingKeyboard, update_keyboard; simpl.
  by apply alter_fmap_fixed.
Qed.

Lemma set_flag_lookup k b w k' :
  flag k' (set_isFocusedUsingKeyboard k b w)
  = if decide (k = k') then (fun _ => b) <$> flag k' w else flag k' w.
Proof.
  unfold flag, set_isFocusedUsingKeyboard, update_keyboard; simpl.
  rewrite list_lookup_alter. case_decide; [subst|done].
  by destruct (keyboardFocusTrackers w !! k').
Qed.

Lemma set_flag_other k b w k' :
  k <> k' -> flag k' (set_isFocusedUsingKeyboard k b w) = flag k' w.
Proof. intros. rewrite set_flag_lookup. by case_decide. Qed.

Lemma set_flag_same k b w :
  is_Some (flag k w) -> flag k (set_isFocusedUsingKeyboard k b w) = Some b.
Proof.
  intros [x Hx]. rewrite set_flag_lookup, Hx. by case_decide.
Qed.

Lemma flag_links k w : is_Some (flag k w) <-> is_Some (links w !! k).
Proof.
  unfold flag, links. rewrite list_lookup_fmap.
  destruct (keyboardFocusTrackers w !! k); simpl; split; intros [? ?]; eauto;
    discriminate.
Qed.

Lemma watchMouseMoved_writes : writes_flag _watchMouseMoved.
Proof. intros k [] w; unfold _watchMouseMoved; eauto. Qed.

Lemma watchIsKeyPressed_writes : writes_flag _watchIsKeyPressed.
Proof.
  intros k [] w; unfold _watchIsKeyPressed; eauto.
  destruct (keyboardFocusTrackers w !! k) as [t|]; eauto.
  destruct (focusTrackers w !! focusTracker t); eauto.
Qed.

Lemma watchChangeFocusedElement_writes : writes_flag _watchChangeFocusedElement.
Proof.
  intros k el w; unfold _watchChangeFocusedElement.
  destruct (keyboardFocusTrackers w !! k) as [t|]; eauto.
  destruct (globalTrackers w !! _globalInteractionTracker t); eauto.
Qed.

Create HintDb trackers.

#[local] Hint Resolve watchMouseMoved_writes watchIsKeyPressed_writes
  watchChangeFocusedElement_writes : trackers.

Section Fire.
Context {A : Type} (callback : nat -> A -> World -> World).
Hypothesis Hcallback : writes_flag callback.

Lemma callback_flags_only k a w : flags_only w (callback k a w).
Proof.
  destruct (Hcallback k a w) as [-> | [b ->]].
  - apply flags_only_refl.
  - apply set_flag_flags_only.
Qed.

Lemma callback_flag_other k a w k' :
  k <> k' -> flag k' (callback k a w) = flag k' w.
Proof.
  intros. destruct (Hcallback k a w) as [-> | [b ->]]; [done|].
  by apply set_flag_other.
Qed.

Lemma fire_cons k ks a w :
  fire callback (k :: ks) a w = fire callback ks a (callback k a w).
Proof. reflexivity. Qed.

Lemma fire_flags_only ks a w : flags_only w (fire callback ks a w).
Proof.
  revert w. induction ks as [|k ks IH]; intros w.
  - apply flags_only_refl.
  - rewrite fire_cons.
    eapply flags_only_trans; [apply callback_flags_only | apply IH].
Qed.

Lemma fire_flag_other ks a w k :
  k ∉ ks -> flag k (fire callback ks a w) = flag k w.
Proof.
  revert w. induction ks as [|k0 ks IH]; intros w Hk; [done|].
  apply not_elem_of_cons in Hk as [? ?].
  rewrite fire_cons, IH by done. by apply callback_flag_other.
Qed.
End Fire.

(** ** Observable assignments *)

Lemma alter_fixed {A : Type} (f : A -> A) i (l : list A) :
  (forall x, l !! i = Some x -> f x = x) -> alter f i l = l.
Proof.
  intros Hx. rewrite <- (list_alter_id id l i) at 2 by done.
  by apply list_alter_ext.
Qed.

Lemma fire_noop {A : Type} (callback : nat -> A -> World -> World) ks a w :
  (forall k w, callback k a w = w) -> fire callback ks a w = w.
Proof.
  intros Hc. revert w. induction ks as [|k ks IH]; intros w; [done|].
  by rewrite fire_cons, Hc, IH.
Qed.

Lemma update_global_wiring i f w :
  (forall g, change_isMouseMoved (f g) = change_isMouseMoved g /\
             change_isKeyPressed (f g) = change_isKeyPressed g) ->
  same_wiring w (update_global i f w).
Proof.
  intros Hf. constructor; try done.
  unfold globalSubscribers, update_global; simpl.
  apply alter_fmap_fixed. intros g. destruct (Hf g). congruence.
Qed.

Lemma update_focus_wiring i f w :
  (forall t, change_focusedElement (f t) = change_focusedElement t) ->
  same_wiring w (update_focus i f w).
Proof.
  intros Hf. constructor; try done.
  unfold focusSubscribers, update_focus; simpl.
  by apply alter_fmap_fixed.
Qed.

Lemma set_isMouseMoved_wiring i v w : same_wiring w (set_isMouseMoved i v w).
Proof.
  unfold set_isMouseMoved.
  destruct (globalTrackers w !! i) as [g|]; [|apply same_wiring_refl].
  destruct (Bool.eqb _ _); [apply same_wiring_refl|].
  eapply same_wiring_trans;
    [by apply (update_global_wiring i (put_isMouseMoved v))|].
  apply flags_only_wiring, fire_flags_only; auto with trackers.
Qed.

Lemma set_isKeyPressed_wiring i v w : same_wiring w (set_isKeyPressed i v w).
Proof.
  unfold set_isKeyPressed.
  destruct (globalTrackers w !! i) as [g|]; [|apply same_wiring_refl].
  destruct (Bool.eqb _ _); [apply same_wiring_refl|].
  eapply same_wiring_trans;
    [by apply (update_global_wiring i (put_isKeyPressed v))|].
  apply flags_only_wiring, fire_flags_only; auto with trackers.
Qed.

Lemma set_isMouseMoved_global i v w :
  globalTrackers (set_isMouseMoved i v w)
  = alter (put_isMouseMoved v) i (globalTrackers w).
Proof.
  unfold set_isMouseMoved.
  destruct (globalTrackers w !! i) as [g|] eqn:Hg.
  - destruct (Bool.eqb _ _) eqn:Hv.
    + symmetry. apply alter_fixed. intros g' Hg'.
      assert (g' = g) as -> by congruence.
      apply Bool.eqb_prop in Hv. destruct g; simpl in *; by subst.
    + by rewrite (fo_global _ _ (fire_flags_only _ watchMouseMoved_writes _ _ _)).
  - symmetry. apply alter_fixed. congruence.
Qed.

Lemma set_isKeyPressed_global i v w :
  globalTrackers (set_isKeyPressed i v w)
  = alter (put_isKeyPressed v) i (globalTrackers w).
Proof.
  unfold set_isKeyPressed.
  destruct (globalTrackers w !! i) as [g|] eqn:Hg.
  - destruct (Bool.eqb _ _) eqn:Hv.
    + symmetry. apply alter_fixed. intros g' Hg'.
      assert (g' = g) as -> by congruence.
      apply Bool.eqb_prop in Hv. destruct g; simpl in *; by subst.
    + by rewrite (fo_global _ _
                    (fire_flags_only _ watchIsKeyPressed_writes _ _ _)).
  - symmetry. apply alter_fixed. congruence.
Qed.

Lemma set_isMouseMoved_focus i v w :
  focusTrackers (set_isMouseMoved i v w) = focusTrackers w.
Proof.
  unfold set_isMouseMoved.
  destruct (globalTrackers w !! i) as [g|]; [|done].
  destruct (Bool.eqb _ _); [done|].
  by rewrite (fo_focus _ _ (fire_flags_only _ watchMouseMoved_writes _ _ _)).
Qed.

Lemma set_isKeyPressed_focus i v w :
  focusTrackers (set_isKeyPressed i v w) = focusTrackers w.
Proof.
  unfold set_isKeyPressed.
  destruct (globalTrackers w !! i) as [g|]; [|done].
  destruct (Bool.eqb _ _); [done|].
  by rewrite (fo_focus _ _ (fire_flags_only _ watchIsKeyPressed_writes _ _ _)).
Qed.

Lemma set_isMouseMoved_flag_other i v w k :
  (forall g, globalTrackers w !! i = Some g -> k ∉ change_isMouseMoved g) ->
  flag k (set_isMouseMoved i v w) = flag k w.
Proof.
  intros Hk. unfold set_isMouseMoved.
  destruct (globalTrackers w !! i) as [g|]; [|done].
  destruct (Bool.eqb _ _); [done|].
  rewrite fire_flag_other; auto with trackers.
Qed.

Lemma set_isKeyPressed_flag_other i v w k :
  (forall g, globalTrackers w !! i = Some g -> k ∉ change_isKeyPressed g) ->
  flag k (set_isKeyPressed i v w) = flag k w.
Proof.
  intros Hk. unfold set_isKeyPressed.
  destruct (globalTrackers w !! i) as [g|]; [|done].
  destruct (Bool.eqb _ _); [done|].
  rewrite fire_flag_other; auto with trackers.
Qed.

Lemma set_isMouseMoved_false i w :
  keyboardFocusTrackers (set_isMouseMoved i false w) = keyboardFocusTrackers w.
Proof.
  unfold set_isMouseMoved.
  destruct (globalTrackers w !! i) as [g|]; [|done].
  destruct (Bool.eqb _ _); [done|].
  by rewrite fire_noop.
Qed.

Lemma set_isKeyPressed_false i w :
  keyboardFocusTrackers (set_isKeyPressed i false w) = keyboardFocusTrackers w.
Proof.
  unfold set_isKeyPressed.
  destruct (globalTrackers w !! i) as [g|]; [|done].
  destruct (Bool.eqb _ _); [done|].
  by rewrite fire_noop.
Qed.

(** ** Events that leave the wiring alone *)

Lemma globalSubscribers_lookup w i g :
  globalTrackers w !! i = Some g ->
  globalSubscribers w !! i
  = Some (change_isMouseMoved g, change_isKeyPressed g).
Proof. intros H. unfold globalSubscribers. by rewrite list_lookup_fmap, H. Qed.

Lemma focusSubscribers_lookup w f t :
  focusTrackers w !! f = Some t ->
  focusSubscribers w !! f = Some (change_focusedElement t).
Proof. intros H. unfold focusSubscribers. by rewrite list_lookup_fmap, H. Qed.

Lemma links_lookup w k t :
  keyboardFocusTrackers w !! k = Some t ->
  links w !! k = Some (_globalInteractionTracker t, focusTracker t).
Proof. intros H. unfold links. by rewrite list_lookup_fmap, H. Qed.

Lemma links_lookup_inv w k i f :
  links w !! k = Some (i, f) ->
  exists t, keyboardFocusTrackers w !! k = Some t /\
            _globalInteractionTracker t = i /\ focusTracker t = f.
Proof.
  unfold links. rewrite list_lookup_fmap.
  destruct (keyboardFocusTrackers w !! k) as [t|]; simpl; [|done].
  intros [= <- <-]. eauto.
Qed.

Lemma globalSubscribers_lookup_inv w i mm kp :
  globalSubscribers w !! i = Some (mm, kp) ->
  exists g, globalTrackers w !! i = Some g /\
            change_isMouseMoved g = mm /\ change_isKeyPressed g = kp.
Proof.
  unfold globalSubscribers. rewrite list_lookup_fmap.
  destruct (globalTrackers w !! i) as [g|]; simpl; [|done].
  intros [= <- <-]. eauto.
Qed.

Lemma focusSubscribers_lookup_inv w f fe :
  focusSubscribers w !! f = Some fe ->
  exists t, focusTrackers w !! f = Some t /\ change_focusedElement t = fe.
Proof.
  unfold focusSubscribers. rewrite list_lookup_fmap.
  destruct (focusTrackers w !! f) as [t|]; simpl; [|done].
  intros [= <-]. eauto.
Qed.

Lemma set_focusedElement_wiring f v w :
  same_wiring w (set_focusedElement f v w).
Proof.
  unfold set_focusedElement.
  destruct (focusTrackers w !! f) as [t|]; [|apply same_wiring_refl].
  case_bool_decide; [apply same_wiring_refl|].
  eapply same_wiring_trans;
    [by apply (update_focus_wiring f (put_focusedElement v))|].
  apply flags_only_wiring, fire_flags_only; auto with trackers.
Qed.

Lemma set_focusedElement_global f v w :
  globalTrackers (set_focusedElement f v w) = globalTrackers w.
Proof.
  unfold set_focusedElement.
  destruct (focusTrackers w !! f) as [t|]; [|done].
  case_bool_decide; [done|].
  by rewrite (fo_global _ _
                (fire_flags_only _ watchChangeFocusedElement_writes _ _ _)).
Qed.

Lemma set_focusedElement_flag_other f v w k :
  (forall t, focusTrackers w !! f = Some t -> k ∉ change_focusedElement t) ->
  flag k (set_focusedElement f v w) = flag k w.
Proof.
  intros Hk. unfold set_focusedElement.
  destruct (focusTrackers w !! f) as [t|]; [|done].
  case_bool_decide; [done|].
  rewrite fire_flag_other; auto with trackers.
Qed.

Lemma set_isFocused_wiring f v w : same_wiring w (set_isFocused f v w).
Proof. by apply update_focus_wiring. Qed.

Lemma set_nextEventLoopTimeout_wiring f v w :
  same_wiring w (set_nextEventLoopTimeout f v w).
Proof. by apply update_focus_wiring. Qed.

#[local] Hint Resolve same_wiring_refl set_isMouseMoved_wiring
  set_isKeyPressed_wiring set_focusedElement_wiring set_isFocused_wiring
  set_nextEventLoopTimeout_wiring : trackers.

Ltac wiring_chain :=
  repeat first
    [ solve [auto with trackers]
    | eapply same_wiring_trans; [|solve [auto with trackers]] ].

Lemma FocusTracker_focus_wiring f el w :
  same_wiring w (FocusTracker_focus f el w).
Proof. unfold FocusTracker_focus. wiring_chain. Qed.

Lemma FocusTracker_blur_wiring f w : same_wiring w (FocusTracker_blur f w).
Proof. unfold FocusTracker_blur. wiring_chain. Qed.

Lemma FocusTracker_timeout_wiring f w :
  same_wiring w (FocusTracker_timeout f w).
Proof.
  unfold FocusTracker_timeout.
  destruct (focusTrackers w !! f) as [t|]; [|wiring_chain].
  destruct (_nextEventLoopTimeout t); wiring_chain.
Qed.

Lemma run_callback_wiring i c w : same_wiring w (run_callback i c w).
Proof. destruct c; simpl; wiring_chain. Qed.

Lemma document_dispatchEvent_wiring type w :
  same_wiring w (document_dispatchEvent type w).
Proof.
  unfold document_dispatchEvent. generalize (documentListeners w) as ls.
  intros ls. revert w. induction ls as [|l ls IH]; intros w; simpl.
  - apply same_wiring_refl.
  - eapply same_wiring_trans; [|apply IH].
    destruct (String.eqb _ _); [apply run_callback_wiring|].
    apply same_wiring_refl.
Qed.

Lemma consumers_subscribed_wiring m w w' :
  same_wiring w w' -> consumers_subscribed m w -> consumers_subscribed m w'.
Proof.
  intros [Hl Hg Hf _ _ _]. unfold consumers_subscribed.
  by rewrite Hl, Hg, Hf.
Qed.

Lemma Inv_wiring w w' : same_wiring w w' -> Inv w -> Inv w'.
Proof.
  intros Hw [H1 H2 H3 H4 H5].
  pose proof Hw as [Hl Hg Hf Hi Ht Hd].
  constructor; rewrite ?Hl, ?Hg, ?Hf, ?Hi, ?Ht, ?Hd; try done.
  destruct H4 as [?|(m & ? & ? & ?)]; [by left|right].
  exists m. eauto using consumers_subscribed_wiring.
Qed.

Lemma detached_wiring k w w' : same_wiring w w' -> detached k w -> detached k w'.
Proof. intros [_ Hg Hf _ _ _]. unfold detached. by rewrite Hg, Hf. Qed.

(** ** Construction *)

Lemma fmap_alter_commute {A B : Type} (p : A -> B) (f : A -> A) (h : B -> B)
    i (l : list A) :
  (forall x, p (f x) = h (p x)) -> p <$> alter f i l = alter h i (p <$> l).
Proof. intros Hp. apply list_fmap_alter, Forall_forall. auto. Qed.

Ltac fields :=
  cbn [globalTrackers _instance _totalInstances focusTrackers
       keyboardFocusTrackers documentListeners fst snd
       with_globalTrackers with_instance with_totalInstances
       with_focusTrackers with_keyboardFocusTrackers with_documentListeners
       update_global update_focus update_keyboard] in *.

Lemma new_FocusTracker_views w :
  let w' := (new_FocusTracker w).2 in
  links w' = links w /\
  globalSubscribers w' = globalSubscribers w /\
  focusSubscribers w' = focusSubscribers w ++ [[]] /\
  _instance w' = _instance w /\
  _totalInstances w' = _totalInstances w /\
  documentListeners w' = documentListeners w.
Proof.
  simpl. repeat split. unfold focusSubscribers; simpl. by rewrite fmap_app.
Qed.

Lemma new_KeyboardFocusTracker_views f w :
  let w' := (new_KeyboardFocusTracker f w).2 in
  let k := length (links w) in
  let i :=
    match _instance w with
    | Some i => i
    | None => length (globalSubscribers w)
    end in
  let fresh := match _instance w with Some _ => [] | None => [([], [])] end in
  let mounted :=
    match _instance w with Some _ => [] | None => mounted_listeners i end in
  links w' = links w ++ [(i, f)] /\
  globalSubscribers w'
  = alter (subscribe_both k) i (globalSubscribers w ++ fresh) /\
  focusSubscribers w' = alter (fun fe => fe ++ [k]) f (focusSubscribers w) /\
  _instance w' = Some i /\
  _totalInstances w' = (_totalInstances w + 1)%Z /\
  documentListeners w' = documentListeners w ++ mounted.
Proof.
  unfold new_KeyboardFocusTracker, new_GlobalKeyboardMouseInteractionTracker.
  unfold links, globalSubscribers, focusSubscribers.
  rewrite !length_fmap. fields.
  destruct (_instance w) as [i|] eqn:Hi;
    unfold _mountDocumentListeners, _domEmitter_listenTo,
      on_change_focusedElement, on_change_isKeyPressed, on_change_isMouseMoved;
    fields; rewrite ?Hi, ?app_nil_r.
  - repeat split.
    + by rewrite fmap_app.
    + apply list_eq; intros j.
      rewrite !list_lookup_fmap, !list_lookup_alter, !list_lookup_fmap.
      repeat case_decide; try done. by destruct (globalTrackers w !! i).
    + by apply fmap_alter_commute.
  - repeat split.
    + by rewrite fmap_app.
    + match goal with
      | |- _ = alter _ _ ((?p <$> ?G) ++ _) =>
          replace ((p <$> G) ++ [([], [])])
            with (p <$> (G ++ [{| isKeyPressed := false; isMouseMoved := false;
                                  change_isMouseMoved := [];
                                  change_isKeyPressed := [] |}]))
            by (by rewrite fmap_app)
      end.
      apply list_eq; intros j.
      rewrite !list_lookup_fmap, !list_lookup_alter, !list_lookup_fmap.
      repeat case_decide; try done.
      by destruct ((globalTrackers w ++ _) !! _).
    + by apply fmap_alter_commute.
    + unfold mounted_listeners. by rewrite <- !app_assoc.
Qed.

Lemma lookup_alter_Some {A : Type} (h : A -> A) i j (l : list A) y :
  alter h i l !! j = Some y <->
  exists x, l !! j = Some x /\ y = if decide (i = j) then h x else x.
Proof.
  rewrite list_lookup_alter. case_decide; subst.
  - destruct (l !! j) as [x|]; simpl; split.
    + intros [= <-]. eauto.
    + by intros (x' & [= <-] & ->).
    + done.
    + by intros (x' & ? & _).
  - split; [eauto|]. by intros (x & -> & ->).
Qed.

Lemma lookup_alter_is_Some {A : Type} (h : A -> A) i j (l : list A) :
  is_Some (alter h i l !! j) <-> is_Some (l !! j).
Proof. by rewrite !lookup_lt_is_Some, length_alter. Qed.

Lemma lookup_snoc_old {A : Type} (l : list A) x j y :
  l !! j = Some y -> (l ++ [x]) !! j = Some y.
Proof. intros H. by apply lookup_app_l_Some. Qed.

Lemma lookup_snoc_inv {A : Type} (l : list A) x j y :
  (l ++ [x]) !! j = Some y ->
  l !! j = Some y \/ (j = length l /\ y = x).
Proof.
  intros H. apply lookup_app_Some in H as [?|[? H]]; [by left|right].
  destruct (j - length l) as [|n] eqn:E; simpl in H; [|done].
  split; [lia|congruence].
Qed.

Lemma Inv_new_FocusTracker w : Inv w -> Inv (new_FocusTracker w).2.
Proof.
  intros [H1 H2 H3 H4 H5].
  destruct (new_FocusTracker_views w) as (EL & EG & EF & EI & ET & ED).
  constructor; rewrite ?EL, ?EG, ?EF, ?EI, ?ET, ?ED; try done.
  - intros k i f Hk. destruct (H1 k i f Hk) as [? [fe ?]].
    split; [done|]. exists fe. by apply lookup_snoc_old.
  - intros f fe k Hf Hk. apply lookup_snoc_inv in Hf as [Hf|[_ ->]].
    + eauto.
    + by apply elem_of_nil in Hk.
  - destruct H4 as [?|(m & ? & ? & mm & kp & ? & Hc)]; [by left|right].
    exists m. repeat split; try done. exists mm, kp. rewrite EL, EG, EF.
    split; [done|]. intros k f Hk.
    destruct (Hc k f Hk) as (? & ? & fe & ? & ?).
    repeat split; try done. exists fe. split; [|done].
    by apply lookup_snoc_old.
Qed.

Lemma Inv_new_KeyboardFocusTracker f w :
  Inv w -> f < length (focusTrackers w) ->
  Inv (new_KeyboardFocusTracker f w).2.
Proof.
  intros [H1 H2 H3 H4 H5] Hf.
  destruct (new_KeyboardFocusTracker_views f w)
    as (EL & EG & EF & EI & ET & ED).
  set (k := length (links w)) in *.
  assert (Hk : forall p, links w !! k = Some p -> False).
  { intros p Hp. apply lookup_lt_Some in Hp. unfold k in Hp. lia. }
  assert (HfS : is_Some (focusSubscribers w !! f)).
  { apply lookup_lt_is_Some. unfold focusSubscribers. by rewrite length_fmap. }
  set (i := match _instance w with
            | Some i => i
            | None => length (globalSubscribers w)
            end) in *.
  set (G0 := globalSubscribers w ++
             match _instance w with Some _ => [] | None => [([], [])] end)
    in *.
  assert (Hold : forall j p, globalSubscribers w !! j = Some p ->
                             G0 !! j = Some p).
  { intros j p Hp. by apply lookup_app_l_Some. }
  assert (Hnew : forall j p, G0 !! j = Some p ->
            globalSubscribers w !! j = Some p \/
            (p = ([], []) /\ j = i /\ _instance w = None /\
             documentListeners w = [] /\
             forall f', links w !! k = Some (i, f') -> False)).
  { intros j p. unfold G0, i. destruct (_instance w) as [i0|] eqn:Hi.
    - rewrite app_nil_r. auto.
    - intros Hp. apply lookup_snoc_inv in Hp as [?|[-> ->]]; [by left|right].
      repeat split; try done.
      + destruct H4 as [?|(m & _ & ? & _)]; [done|congruence].
      + intros f' Hf'. by apply Hk in Hf'. }
  assert (Hfresh : _instance w = None ->
            forall k' f', links w !! k' = Some (i, f') -> False).
  { intros Hi k' f' Hl. destruct (H1 _ _ _ Hl) as [Hs _].
    apply lookup_lt_is_Some in Hs. unfold i in Hs. rewrite Hi in Hs. lia. }
  assert (HiS : is_Some (G0 !! i)).
  { unfold G0, i. destruct (_instance w) as [i0|] eqn:Hi.
    - by rewrite app_nil_r.
    - rewrite list_lookup_middle; [eauto|done]. }
  constructor; rewrite ?EL, ?EG, ?EF, ?EI, ?ET, ?ED.
  - (* links *)
    intros k' i' f' Hl. rewrite !lookup_alter_is_Some.
    apply lookup_snoc_inv in Hl as [Hl|[_ [= -> ->]]]; [|done].
    destruct (H1 _ _ _ Hl) as [[p Hp] ?]. split; [|done].
    exists p. by apply Hold.
  - (* global subscribers *)
    intros j mm kp k' Hj Hk'.
    apply lookup_alter_Some in Hj as (p & Hp & Hmm).
    case_decide as Hij; subst.
    + unfold subscribe_both in Hmm. injection Hmm as -> ->.
      rewrite !elem_of_app, !list_elem_of_singleton in Hk'.
      destruct (decide (k' = k)) as [->|Hne].
      * exists f. by apply list_lookup_middle.
      * assert (k' ∈ p.1 \/ k' ∈ p.2) as Hin by tauto.
        apply Hnew in Hp as [Hp|(-> & _)].
        -- destruct p as [mm kp].
           destruct (H2 _ _ _ _ Hp Hin) as [f' ?].
           exists f'. by apply lookup_snoc_old.
        -- simpl in Hin. rewrite !elem_of_nil in Hin. tauto.
    + apply Hnew in Hp as [Hp|(_ & ? & _)]; [|done].
      destruct (H2 _ _ _ _ Hp Hk') as [f' ?].
      exists f'. by apply lookup_snoc_old.
  - (* focus subscribers *)
    intros f' fe k' Hf' Hk'.
    apply lookup_alter_Some in Hf' as (fe0 & Hfe0 & ->).
    case_decide as Hff; subst.
    + rewrite elem_of_app, list_elem_of_singleton in Hk'.
      destruct Hk' as [Hk'| ->].
      * destruct (H3 _ _ _ Hfe0 Hk') as [i' ?].
        exists i'. by apply lookup_snoc_old.
      * exists i. by apply list_lookup_middle.
    + destruct (H3 _ _ _ Hfe0 Hk') as [i' ?].
      exists i'. by apply lookup_snoc_old.
  - (* mounted *)
    assert (Hcons : (forall k' f', links w !! k' = Some (i, f') ->
               exists mm kp, globalSubscribers w !! i = Some (mm, kp) /\
                 k' ∈ mm /\ k' ∈ kp /\
                 exists fe, focusSubscribers w !! f' = Some fe /\ k' ∈ fe) ->
             consumers_subscribed i (new_KeyboardFocusTracker f w).2).
    { intros Hc. destruct HiS as [[mm kp] Hp].
      exists (mm ++ [k]), (kp ++ [k]). rewrite EL, EG, EF. split.
      - apply lookup_alter_Some. exists (mm, kp). split; [done|].
        by rewrite decide_True.
      - intros k' f' Hl.
        apply lookup_snoc_inv in Hl as [Hl|[-> [= ->]]].
        + destruct (Hc _ _ Hl) as (mm' & kp' & Hg & ? & ? & fe & Hfe & ?).
          apply Hold in Hg. assert (mm' = mm /\ kp' = kp) as [-> ->].
          { split; congruence. }
          rewrite !elem_of_app. repeat split; try tauto.
          destruct (decide (f = f')) as [->|].
          * exists (fe ++ [k]). split.
            -- apply lookup_alter_Some. exists fe. by rewrite decide_True.
            -- rewrite elem_of_app. tauto.
          * exists fe. split; [|done].
            apply lookup_alter_Some. exists fe. by rewrite decide_False.
        + rewrite !elem_of_app, !list_elem_of_singleton.
          repeat split; try tauto.
          destruct HfS as [fe Hfe]. exists (fe ++ [k]). split.
          * apply lookup_alter_Some. exists fe. by rewrite decide_True.
          * rewrite elem_of_app, list_elem_of_singleton. tauto. }
    destruct (_instance w) as [i0|] eqn:Hi.
    + rewrite app_nil_r.
      destruct H4 as [?|(m & ? & ? & mm & kp & Hg & Hc)]; [by left|right].
      assert (m = i) as -> by (unfold i; congruence).
      exists i. repeat split; try done. apply Hcons.
      intros k' f' Hl. exists mm, kp. split; [done|]. by apply Hc.
    + right. exists i. repeat split.
      * destruct H4 as [->|(m & _ & ? & _)]; [done|congruence].
      * apply Hcons. intros k' f' Hl. destruct (Hfresh eq_refl _ _ Hl).
  - (* slot *)
    by apply lookup_alter_is_Some.
Qed.

(** ** Destruction *)

Lemma filter_mounted_listeners i m :
  filter (fun l => dl_owner l <> i) (mounted_listeners m)
  = if decide (m = i) then [] else mounted_listeners m.
Proof.
  unfold mounted_listeners. case_decide.
  - rewrite !filter_cons_False, filter_nil; simpl; auto.
  - by rewrite !filter_cons_True, filter_nil.
Qed.

Lemma teardown_views i w :
  let w' := teardown i w in
  links w' = links w /\
  globalSubscribers w'
  = alter (fun _ => ([], [])) i (globalSubscribers w) /\
  focusSubscribers w' = focusSubscribers w /\
  _instance w' = _instance w /\
  _totalInstances w' = (_totalInstances w - 1)%Z /\
  documentListeners w'
  = filter (fun l => dl_owner l <> i) (documentListeners w).
Proof.
  unfold teardown.
  set (w0 := _domEmitter_stopListening i (stopListening i w)).
  assert (same_wiring w0
            (set_isMouseMoved i false (set_isKeyPressed i false w0)))
    as [Hl Hg Hf Hi Ht Hd] by wiring_chain.
  unfold links, globalSubscribers, focusSubscribers in *.
  fields. rewrite Hl, Hg, Hf, Hi, Ht, Hd.
  unfold w0, _domEmitter_stopListening, stopListening. fields.
  repeat split. by apply fmap_alter_commute.
Qed.

(** Unmounting tracker [i]: its subscribers are dropped, its listeners are
    removed, and focus subscriptions may shrink, but only for consumers of
    [i]. *)
Lemma Inv_unmount w w' i :
  Inv w ->
  links w' = links w ->
  globalSubscribers w'
  = alter (fun _ => ([], [])) i (globalSubscribers w) ->
  (forall f fe', focusSubscribers w' !! f = Some fe' ->
     exists fe, focusSubscribers w !! f = Some fe /\ fe' ⊆ fe) ->
  (forall f fe k j f', focusSubscribers w !! f = Some fe -> k ∈ fe ->
     links w !! k = Some (j, f') -> j <> i ->
     exists fe', focusSubscribers w' !! f = Some fe' /\ k ∈ fe') ->
  (forall f, is_Some (focusSubscribers w !! f) ->
     is_Some (focusSubscribers w' !! f)) ->
  _instance w' = _instance w ->
  (_totalInstances w' <= _totalInstances w)%Z ->
  documentListeners w'
  = filter (fun l => dl_owner l <> i) (documentListeners w) ->
  Inv w'.
Proof.
  intros [H1 H2 H3 H4 H5] EL EG Hsub Hkeep Hsome EI ET ED.
  constructor; rewrite ?EL, ?EG, ?EI, ?ED.
  - intros k j f Hk. destruct (H1 _ _ _ Hk).
    rewrite lookup_alter_is_Some. auto.
  - intros j mm kp k Hj Hk.
    apply lookup_alter_Some in Hj as ([mm0 kp0] & Hp & Hmm).
    case_decide; subst.
    + injection Hmm as -> ->. rewrite !elem_of_nil in Hk. tauto.
    + injection Hmm as -> ->. eauto.
  - intros f fe' k Hf Hk. destruct (Hsub _ _ Hf) as (fe & ? & Hincl).
    apply (H3 f fe k); [done|]. by apply Hincl.
  - destruct H4 as [->|(m & -> & Hm & mm & kp & Hg & Hc)]; [by left|].
    rewrite filter_mounted_listeners. case_decide as Hmi; [by left|right].
    exists m. repeat split; try done. exists mm, kp. rewrite EL, EG. split.
    + apply lookup_alter_Some. exists (mm, kp). split; [done|].
      by rewrite decide_False.
    + intros k f Hk. destruct (Hc _ _ Hk) as (? & ? & fe & Hfe & Hin).
      repeat split; try done. eauto.
  - destruct (_instance w); [by apply lookup_alter_is_Some|lia].
Qed.

Lemma Inv_teardown i w : Inv w -> Inv (teardown i w).
Proof.
  intros HI.
  destruct (teardown_views i w) as (EL & EG & EF & EI & ET & ED).
  apply (Inv_unmount w _ i); rewrite ?EF; try done; eauto; lia.
Qed.

Lemma destroy_unfold depth i w :
  GlobalKeyboardMouseInteractionTracker_destroy (S depth) i w
  = let w := teardown i w in
    if (_totalInstances w =? 0)%Z then
      match _instance w with
      | Some j =>
          match GlobalKeyboardMouseInteractionTracker_destroy depth j w with
          | Returns w => Returns (with_instance None w)
          | failure => failure
          end
      | None => TypeError
      end
    else Returns w.
Proof. reflexivity. Qed.

(** The nested call finds the count at -1 and returns at once. *)
Lemma destroy_nested depth j w :
  _totalInstances w = 0%Z ->
  GlobalKeyboardMouseInteractionTracker_destroy (S depth) j w
  = Returns (teardown j w).
Proof.
  intros Hw. rewrite destroy_unfold. cbv zeta.
  destruct (teardown_views j w) as (_ & _ & _ & _ & -> & _).
  by rewrite Hw.
Qed.

(** What [destroy] comes to, at any depth the source can reach. *)
Lemma destroy_outcome depth i w :
  GlobalKeyboardMouseInteractionTracker_destroy (S (S depth)) i w
  = if (_totalInstances w =? 1)%Z then
      match _instance w with
      | Some j => Returns (with_instance None (teardown j (teardown i w)))
      | None => TypeError
      end
    else Returns (teardown i w).
Proof.
  rewrite destroy_unfold. cbv zeta.
  destruct (teardown_views i w) as (_ & _ & _ & EI & ET & _).
  rewrite ET, EI.
  destruct (Z.eqb_spec (_totalInstances w) 1) as [E|E];
    destruct (Z.eqb_spec (_totalInstances w - 1) 0) as [E'|E'];
    try lia; [|done].
  destruct (_instance w) as [j|]; [|done].
  by rewrite destroy_nested by lia.
Qed.

Lemma destroy_depth depth i w :
  2 <= depth ->
  GlobalKeyboardMouseInteractionTracker_destroy depth i w
  = GlobalKeyboardMouseInteractionTracker_destroy call_depth i w.
Proof.
  intros H. destruct depth as [|[|depth]]; [lia|lia|].
  unfold call_depth. by rewrite !destroy_outcome.
Qed.

Lemma destroy_not_OutOfFuel i w :
  GlobalKeyboardMouseInteractionTracker_destroy call_depth i w <> OutOfFuel.
Proof.
  unfold call_depth. rewrite destroy_outcome.
  destruct (_ =? _)%Z; [|done]. by destruct (_instance w).
Qed.

Lemma Inv_with_instance_None w :
  Inv w -> documentListeners w = [] -> (_totalInstances w <= 0)%Z ->
  Inv (with_instance None w).
Proof.
  intros [H1 H2 H3 H4 H5] Hd Ht. constructor; try done. by left.
Qed.

Lemma destroy_Inv_after_teardown i w :
  Inv (teardown i w) ->
  (_instance w = None -> (_totalInstances w <= 0)%Z) ->
  exists w', GlobalKeyboardMouseInteractionTracker_destroy call_depth i w
             = Returns w' /\ Inv w' /\
             focusTrackers w' = focusTrackers (teardown i w) /\
             keyboardFocusTrackers w'
             = keyboardFocusTrackers (teardown i w) /\
             (_totalInstances w' < _totalInstances w)%Z /\
             documentListeners w' ⊆ documentListeners (teardown i w) /\
             forall j mm kp, globalSubscribers w' !! j = Some (mm, kp) ->
               exists mm0 kp0,
                 globalSubscribers (teardown i w) !! j = Some (mm0, kp0) /\
                 mm ⊆ mm0 /\ kp ⊆ kp0.
Proof.
  intros HI1 Hslot. unfold call_depth. rewrite destroy_outcome.
  destruct (teardown_views i w) as (_ & _ & _ & EI & ET & _).
  destruct (Z.eqb_spec (_totalInstances w) 1) as [E|E].
  - destruct (_instance w) as [j|] eqn:Hj.
    + eexists; split; [done|].
      pose proof (Inv_teardown j _ HI1) as HI2.
      destruct (teardown_views j (teardown i w))
        as (_ & EG' & _ & EI' & ET' & ED').
      split_and!.
      * apply Inv_with_instance_None; [done| |lia].
        rewrite ED'.
        destruct (inv_mounted _ HI1) as [->|(m & -> & Hm & _)]; [done|].
        rewrite filter_mounted_listeners, decide_True; [done|congruence].
      * unfold teardown. fields.
        by rewrite set_isMouseMoved_focus, set_isKeyPressed_focus.
      * unfold teardown at 1. fields.
        by rewrite set_isMouseMoved_false, set_isKeyPressed_false.
      * fields. lia.
      * fields. rewrite ED'. intros l Hl.
        by apply list_elem_of_filter in Hl as [_ ?].
      * intros j' mm kp. unfold globalSubscribers at 1. fields.
        fold (globalSubscribers (teardown j (teardown i w))).
        rewrite EG'. intros Hl.
        apply lookup_alter_Some in Hl as ([mm0 kp0] & Hl & Hmm).
        exists mm0, kp0. split; [done|].
        case_decide; injection Hmm as -> ->; split; try done;
          intros x Hx; by apply elem_of_nil in Hx.
    + specialize (Hslot eq_refl). lia.
  - eexists; split; [done|]. split_and!; try done; [lia|]. eauto.
Qed.

Lemma teardown_focus i w : focusTrackers (teardown i w) = focusTrackers w.
Proof.
  unfold teardown. fields.
  by rewrite set_isMouseMoved_focus, set_isKeyPressed_focus.
Qed.

Lemma teardown_keyboard i w :
  keyboardFocusTrackers (teardown i w) = keyboardFocusTrackers w.
Proof.
  unfold teardown. fields.
  by rewrite set_isMouseMoved_false, set_isKeyPressed_false.
Qed.

Lemma off_views k i f w :
  let w' := off_change_isMouseMoved i k (off_change_focusedElement f k w) in
  links w' = links w /\
  globalSubscribers w'
  = alter (fun p => (filter (fun k' => k' <> k) p.1, p.2)) i
      (globalSubscribers w) /\
  focusSubscribers w'
  = alter (filter (fun k' => k' <> k)) f (focusSubscribers w) /\
  _instance w' = _instance w /\
  _totalInstances w' = _totalInstances w /\
  documentListeners w' = documentListeners w /\
  keyboardFocusTrackers w' = keyboardFocusTrackers w /\
  focus_state <$> focusTrackers w' = focus_state <$> focusTrackers w.
Proof.
  unfold off_change_isMouseMoved, off_change_focusedElement.
  unfold links, globalSubscribers, focusSubscribers. fields.
  split_and!; try done.
  - by apply fmap_alter_commute.
  - by apply fmap_alter_commute.
  - by apply alter_fmap_fixed.
Qed.

Lemma KeyboardFocusTracker_destroy_spec k t w :
  Inv w -> keyboardFocusTrackers w !! k = Some t ->
  exists w',
    KeyboardFocusTracker_destroy k w = Returns w' /\ Inv w' /\
    detached k w' /\ flag k w' = Some false /\
    focus_state <$> focusTrackers w' = focus_state <$> focusTrackers w /\
    focusSubscribers w'
    = alter (filter (fun k' => k' <> k)) (focusTracker t)
        (focusSubscribers w) /\
    (_totalInstances w' < _totalInstances w)%Z /\
    (forall k', k' <> k -> flag k' w' = flag k' w) /\
    links w' = links w /\
    (forall l, l ∈ documentListeners w' ->
       l ∈ documentListeners w /\
       dl_owner l <> _globalInteractionTracker t) /\
    forall j mm kp, globalSubscribers w' !! j = Some (mm, kp) ->
      exists mm0 kp0, globalSubscribers w !! j = Some (mm0, kp0) /\
                      mm ⊆ mm0 /\ kp ⊆ kp0.
Proof.
  intros HI Ht. pose proof (links_lookup _ _ _ Ht) as Hl.
  unfold KeyboardFocusTracker_destroy. rewrite Ht.
  set (i := _globalInteractionTracker t) in *.
  set (f := focusTracker t) in *.
  destruct (off_views k i f w) as (EL & EG & EF & EI & ET & ED & EK & ES).
  set (w1 := off_change_isMouseMoved i k (off_change_focusedElement f k w))
    in *.
  destruct (teardown_views i w1) as (EL1 & EG1 & EF1 & EI1 & ET1 & ED1).
  assert (HG1 : globalSubscribers (teardown i w1)
                = alter (fun _ => ([], [])) i (globalSubscribers w)).
  { rewrite EG1, EG. apply list_eq; intros j.
    rewrite !list_lookup_alter. repeat case_decide; try done.
    by destruct (globalSubscribers w !! i). }
  assert (HI1 : Inv (teardown i w1)).
  { apply (Inv_unmount w _ i); rewrite ?EL1, ?EF1, ?EI1, ?ET1, ?ED1,
      ?EL, ?EF, ?EI, ?ET, ?ED; try done; try lia.
    - intros f' fe' Hf'. apply lookup_alter_Some in Hf' as (fe & ? & ->).
      exists fe. split; [done|]. case_decide; [|done].
      intros x Hx. by apply list_elem_of_filter in Hx as [_ ?].
    - intros f' fe k' j f'' Hfe Hk' Hl' Hj.
      exists (if decide (f = f') then filter (fun k' => k' <> k) fe else fe).
      split; [apply lookup_alter_Some; eauto|].
      case_decide; [|done]. apply list_elem_of_filter. split; [|done].
      intros ->. congruence.
    - intros f'. by rewrite lookup_alter_is_Some. }
  destruct (destroy_Inv_after_teardown i w1 HI1)
    as (w2 & -> & HI2 & EF2 & EK2 & ET2 & HD2 & HG2).
  { rewrite EI, ET. intros Hn. pose proof (inv_slot _ HI) as Hs.
    by rewrite Hn in Hs. }
  eexists. split; [done|].
  pose proof (set_flag_flags_only k false w2) as Hfo.
  pose proof (flags_only_wiring _ _ Hfo) as Hw.
  rewrite teardown_focus in EF2. rewrite teardown_keyboard, EK in EK2.
  assert (Hdet : detached k w2).
  { split.
    - intros j mm kp Hj.
      destruct (HG2 _ _ _ Hj) as (mm0 & kp0 & Hj0 & Hmm & Hkp).
      rewrite HG1 in Hj0.
      apply lookup_alter_Some in Hj0 as ([mm1 kp1] & Hj1 & E).
      case_decide; injection E as -> ->.
      + split; intros Hin; [apply Hmm in Hin|apply Hkp in Hin];
          by apply elem_of_nil in Hin.
      + split; intros Hin; [apply Hmm in Hin|apply Hkp in Hin];
          (destruct (inv_global _ HI _ _ _ k Hj1) as [f' Hf']; [tauto|]);
          congruence.
    - intros f' fe. unfold focusSubscribers. rewrite EF2.
      fold (focusSubscribers w1). rewrite EF. intros Hf'.
      apply lookup_alter_Some in Hf' as (fe0 & Hfe0 & ->).
      case_decide; subst.
      + intros Hin. by apply list_elem_of_filter in Hin as [? _].
      + intros Hin. destruct (inv_focus _ HI _ _ _ Hfe0 Hin) as [i' Hi'].
        congruence. }
  split_and!.
  - by apply (Inv_wiring w2).
  - by apply (detached_wiring k w2).
  - apply set_flag_same. unfold flag. rewrite EK2, Ht. eauto.
  - rewrite (fo_focus _ _ Hfo), EF2. exact ES.
  - rewrite (sw_focus _ _ Hw). unfold focusSubscribers. rewrite EF2.
    exact EF.
  - rewrite (fo_total _ _ Hfo). rewrite ET in ET2. exact ET2.
  - intros k' Hk'. rewrite set_flag_other by done.
    unfold flag. by rewrite EK2.
  - rewrite (fo_links _ _ Hfo). unfold links. by rewrite EK2.
  - intros l. rewrite (fo_document _ _ Hfo). intros Hin. apply HD2 in Hin.
    rewrite ED1, ED in Hin. by apply list_elem_of_filter in Hin as [? ?].
  - intros j mm kp. rewrite (sw_global _ _ Hw). intros Hj.
    destruct (HG2 _ _ _ Hj) as (mm0 & kp0 & Hj0 & Hmm & Hkp).
    rewrite HG1 in Hj0.
    apply lookup_alter_Some in Hj0 as ([mm1 kp1] & Hj1 & E).
    exists mm1, kp1. split; [done|].
    case_decide; injection E as -> ->; [|done].
    split; intros x Hx; [apply Hmm in Hx|apply Hkp in Hx];
      by apply elem_of_nil in Hx.
Qed.

(** ** Every run returns, and the invariant holds throughout *)

Lemma Inv_initial : Inv initial.
Proof.
  constructor; try done. by left.
Qed.

Lemma step_Inv e w :
  Inv w -> exists w', step e w = Returns w' /\ Inv w'.
Proof.
  intros HI. destruct e as [type|f el|f|f| |f|k]; simpl.
  - eexists; split; [done|].
    eapply Inv_wiring; [apply document_dispatchEvent_wiring|done].
  - eexists; split; [done|].
    eapply Inv_wiring; [apply FocusTracker_focus_wiring|done].
  - eexists; split; [done|].
    eapply Inv_wiring; [apply FocusTracker_blur_wiring|done].
  - eexists; split; [done|].
    eapply Inv_wiring; [apply FocusTracker_timeout_wiring|done].
  - eexists; split; [done|]. by apply Inv_new_FocusTracker.
  - case_bool_decide; eexists; (split; [done|]); [|done].
    by apply Inv_new_KeyboardFocusTracker.
  - destruct (keyboardFocusTrackers w !! k) as [t|] eqn:Ht.
    + destruct (KeyboardFocusTracker_destroy_spec k t w HI Ht)
        as (w' & ? & ? & _). eauto.
    + unfold KeyboardFocusTracker_destroy. rewrite Ht. eauto.
Qed.

Lemma run_Inv es w :
  Inv w -> exists w', run es w = Returns w' /\ Inv w'.
Proof.
  revert w. induction es as [|e es IH]; intros w HI; simpl; [eauto|].
  destruct (step_Inv e w HI) as (w1 & -> & HI1). by apply IH.
Qed.

Lemma reachable_Inv w : reachable w -> Inv w.
Proof.
  intros [es Hes]. destruct (run_Inv es initial Inv_initial) as (w' & E & ?).
  congruence.
Qed.

(** No run from [initial] throws or runs out of call depth. *)
Lemma run_returns es : exists w, run es initial = Returns w.
Proof. destruct (run_Inv es initial Inv_initial) as (w & ? & _). eauto. Qed.

(** At most one set of listeners is on the document at any time, and it
    belongs to the instance in the slot. *)
Lemma at_most_one_mounted w :
  reachable w ->
  documentListeners w = [] \/
  exists m, documentListeners w = mounted_listeners m /\ _instance w = Some m.
Proof.
  intros Hr. destruct (inv_mounted _ (reachable_Inv _ Hr))
    as [?|(m & ? & ? & _)]; eauto.
Qed.

Lemma run_app es1 es2 w :
  run (es1 ++ es2) w
  = match run es1 w with
    | Returns w1 => run es2 w1
    | failure => failure
    end.
Proof.
  revert w. induction es1 as [|e es1 IH]; intros w; simpl; [done|].
  destruct (step e w); auto.
Qed.

Lemma reachable_run es w w' :
  reachable w -> run es w = Returns w' -> reachable w'.
Proof.
  intros [es0 H0] H. exists (es0 ++ es). by rewrite run_app, H0.
Qed.

(** ** What a notification does to a subscriber *)

Lemma fire_member {A : Type} (callback : nat -> A -> World -> World)
    (P : World -> Prop) a k b :
  writes_flag callback ->
  (forall w w', flags_only w w' -> P w -> P w') ->
  (forall w, P w -> flag k (callback k a w) = Some b) ->
  forall ks w, P w -> k ∈ ks -> flag k (fire callback ks a w) = Some b.
Proof.
  intros Hcb HP Hk ks. induction ks as [|k0 ks IH]; intros w Hw Hin.
  - by apply elem_of_nil in Hin.
  - rewrite fire_cons. destruct (decide (k ∈ ks)) as [Hks|Hks].
    + apply IH; [|done]. eapply HP; [|done]. by apply callback_flags_only.
    + apply elem_of_cons in Hin as [->|?]; [|done].
      rewrite fire_flag_other by done. by apply Hk.
Qed.

Lemma watchMouseMoved_flag k w :
  is_Some (links w !! k) -> flag k (_watchMouseMoved k true w) = Some false.
Proof. intros H. apply set_flag_same. by apply flag_links. Qed.

Lemma watchIsKeyPressed_flag k i f t w :
  links w !! k = Some (i, f) -> focusTrackers w !! f = Some t ->
  flag k (_watchIsKeyPressed k true w) = Some (isFocused t).
Proof.
  intros Hl Hf. unfold _watchIsKeyPressed.
  apply links_lookup_inv in Hl as (t0 & Ht0 & _ & <-).
  rewrite Ht0, Hf. apply set_flag_same. unfold flag. rewrite Ht0. eauto.
Qed.

Lemma watchChangeFocusedElement_flag k i f g el w :
  links w !! k = Some (i, f) -> globalTrackers w !! i = Some g ->
  flag k (_watchChangeFocusedElement k el w)
  = Some (truthy el && negb (isMouseMoved g) && isKeyPressed g).
Proof.
  intros Hl Hg. unfold _watchChangeFocusedElement.
  apply links_lookup_inv in Hl as (t0 & Ht0 & <- & _).
  rewrite Ht0, Hg. apply set_flag_same. unfold flag. rewrite Ht0. eauto.
Qed.

Lemma fire_watchMouseMoved ks k w :
  is_Some (links w !! k) -> k ∈ ks ->
  flag k (fire _watchMouseMoved ks true w) = Some false.
Proof.
  intros Hl. revert w Hl.
  apply (fire_member _ (fun w => is_Some (links w !! k)));
    auto with trackers.
  - intros w w' [] ?. congruence.
  - intros. by apply watchMouseMoved_flag.
Qed.

Lemma fire_watchIsKeyPressed ks k i f t w :
  links w !! k = Some (i, f) -> focusTrackers w !! f = Some t -> k ∈ ks ->
  flag k (fire _watchIsKeyPressed ks true w) = Some (isFocused t).
Proof.
  intros Hl Hf.
  refine (fire_member _
      (fun w => links w !! k = Some (i, f) /\ focusTrackers w !! f = Some t)
      true k _ _ _ _ ks w (conj Hl Hf)); auto with trackers.
  - intros w0 w' [] [? ?]. split; congruence.
  - intros w0 [? ?]. by eapply watchIsKeyPressed_flag.
Qed.

Lemma fire_watchChangeFocusedElement ks k i f g el w :
  links w !! k = Some (i, f) -> globalTrackers w !! i = Some g -> k ∈ ks ->
  flag k (fire _watchChangeFocusedElement ks el w)
  = Some (truthy el && negb (isMouseMoved g) && isKeyPressed g).
Proof.
  intros Hl Hg.
  refine (fire_member _
      (fun w => links w !! k = Some (i, f) /\ globalTrackers w !! i = Some g)
      el k _ _ _ _ ks w (conj Hl Hg)); auto with trackers.
  - intros w0 w' [] [? ?]. split; congruence.
  - intros w0 [? ?]. by eapply watchChangeFocusedElement_flag.
Qed.

(** ** Signals *)

Lemma signals_set_isMouseMoved i v j w :
  signals j (set_isMouseMoved i v w)
  = if decide (i = j) then (fun s => (s.1, v)) <$> signals j w
    else signals j w.
Proof.
  unfold signals. rewrite set_isMouseMoved_global, list_lookup_alter.
  case_decide; [subst|done]. by destruct (globalTrackers w !! j).
Qed.

Lemma signals_set_isKeyPressed i v j w :
  signals j (set_isKeyPressed i v w)
  = if decide (i = j) then (fun s => (v, s.2)) <$> signals j w
    else signals j w.
Proof.
  unfold signals. rewrite set_isKeyPressed_global, list_lookup_alter.
  case_decide; [subst|done]. by destruct (globalTrackers w !! j).
Qed.

Lemma signals_run_callback i c j w :
  signals j (run_callback i c w)
  = if decide (i = j) then
      (fun s => match c with
                | handleMouseMoved => (s.1, true)
                | handleKeyDown => (true, false)
                | handleResetKeyPress => (false, false)
                end) <$> signals j w
    else signals j w.
Proof.
  destruct c; simpl;
    repeat (rewrite signals_set_isKeyPressed
            || rewrite signals_set_isMouseMoved);
    repeat case_decide; try done; by destruct (signals j w).
Qed.

Lemma callback_for_transition type s :
  transition type s
  = match callback_for type with
    | Some handleMouseMoved => (s.1, true)
    | Some handleKeyDown => (true, false)
    | Some handleResetKeyPress => (false, false)
    | None => s
    end.
Proof.
  unfold transition, callback_for.
  rewrite !(String.eqb_sym type).
  repeat match goal with
         | |- context [String.eqb ?a type] =>
             destruct (String.eqb_spec a type); subst; try done
         end.
Qed.

Lemma dispatch_mounted type m w :
  documentListeners w = mounted_listeners m ->
  document_dispatchEvent type w
  = match callback_for type with
    | Some c => run_callback m c w
    | None => w
    end.
Proof.
  intros Hd. unfold document_dispatchEvent, callback_for. rewrite Hd.
  unfold mounted_listeners. cbn [fold_left dl_type dl_owner dl_callback].
  repeat match goal with
         | |- context [String.eqb ?a type] =>
             destruct (String.eqb_spec a type); subst; try done
         end.
Qed.

Lemma dispatch_unmounted type w :
  documentListeners w = [] -> document_dispatchEvent type w = w.
Proof. intros Hd. unfold document_dispatchEvent. by rewrite Hd. Qed.

(** ** The three derivation rules, at the notification *)

Lemma mouseMoved_signals i w : mouseMoved i w = snd <$> signals i w.
Proof.
  unfold mouseMoved, signals. by destruct (globalTrackers w !! i).
Qed.

Lemma keyPressed_signals i w : keyPressed i w = fst <$> signals i w.
Proof.
  unfold keyPressed, signals. by destruct (globalTrackers w !! i).
Qed.

Lemma mouse_moved_notification i g k w :
  globalTrackers w !! i = Some g -> isMouseMoved g = false ->
  k ∈ change_isMouseMoved g -> is_Some (flag k w) ->
  flag k (set_isMouseMoved i true w) = Some false.
Proof.
  intros Hg Hv Hk Hf. unfold set_isMouseMoved. rewrite Hg, Hv. simpl.
  apply fire_watchMouseMoved; [|done]. by apply flag_links.
Qed.

Lemma key_pressed_notification i g k t ft w :
  globalTrackers w !! i = Some g -> isKeyPressed g = false ->
  k ∈ change_isKeyPressed g ->
  keyboardFocusTrackers w !! k = Some t ->
  focusTrackers w !! focusTracker t = Some ft ->
  flag k (set_isKeyPressed i true w) = Some (isFocused ft).
Proof.
  intros Hg Hv Hk Ht Hft. unfold set_isKeyPressed. rewrite Hg, Hv. simpl.
  eapply fire_watchIsKeyPressed; [|done..].
  by apply (links_lookup w).
Qed.

Lemma focused_element_notification f v ft k t g w :
  focusTrackers w !! f = Some ft -> focusedElement ft <> v ->
  k ∈ change_focusedElement ft ->
  keyboardFocusTrackers w !! k = Some t ->
  globalTrackers w !! _globalInteractionTracker t = Some g ->
  flag k (set_focusedElement f v w)
  = Some (truthy v && negb (isMouseMoved g) && isKeyPressed g).
Proof.
  intros Hft Hv Hk Ht Hg. unfold set_focusedElement. rewrite Hft.
  rewrite bool_decide_eq_false_2 by done.
  eapply fire_watchChangeFocusedElement; [|done..].
  by apply (links_lookup w).
Qed.

(** C1. A focused-element change notification delivered to a keyboard focus
    tracker sets its flag to: the new element is not null, and the mouse has
    not moved, and a key is pressed, both signals being read from the global
    tracker when the notification fires. The first part is the callback
    itself, the second the assignment to the focus tracker's property that
    notifies the subscribed tracker. *)
Theorem C1_focused_element_change f v ft k t g w :
  focusTrackers w !! f = Some ft ->
  focusedElement ft <> v ->
  k ∈ change_focusedElement ft ->
  keyboardFocusTrackers w !! k = Some t ->
  globalTrackers w !! _globalInteractionTracker t = Some g ->
  flag k (_watchChangeFocusedElement k v w)
  = Some (truthy v && negb (isMouseMoved g) && isKeyPressed g) /\
  flag k (set_focusedElement f v w)
  = Some (truthy v && negb (isMouseMoved g) && isKeyPressed g).
Proof.
  intros Hft Hv Hk Ht Hg. split.
  - eapply watchChangeFocusedElement_flag; [by apply (links_lookup w)|done].
  - by eapply focused_element_notification.
Qed.

Lemma C1_focused_element_change_witness :
  flag 0 (_watchChangeFocusedElement 0 (Some 7) key_held) = Some true /\
  flag 0 (set_focusedElement 0 (Some 7) key_held) = Some true.
Proof.
  apply (C1_focused_element_change 0 (Some 7)
           {| focusedElement := None; isFocused := false;
              _nextEventLoopTimeout := false; change_focusedElement := [0] |}
           0
           {| isFocusedUsingKeyboard := false; _globalInteractionTracker := 0;
              focusTracker := 0 |}
           {| isKeyPressed := true; isMouseMoved := false;
              change_isMouseMoved := [0]; change_isKeyPressed := [0] |}
           key_held).
  - reflexivity.
  - discriminate.
  - apply list_elem_of_singleton. reflexivity.
  - reflexivity.
  - reflexivity.
Defined.

(** C6. With the listeners of [_mountDocumentListeners] on the document, the
    two signals of the global tracker follow the table: keydown gives
    (pressed, not moved), keyup gives (not pressed, not moved), each of the
    four enter and leave events sets moved and keeps pressed, and any other
    event type leaves both as they were. No other global tracker changes.
    The first part says that mounting registers exactly these listeners. *)
Theorem C6_document_event_transitions type m g w :
  documentListeners w = mounted_listeners m ->
  globalTrackers w !! m = Some g ->
  (forall w0,
     documentListeners (_mountDocumentListeners m w0)
     = documentListeners w0 ++ mounted_listeners m) /\
  signals m (document_dispatchEvent type w)
  = Some (transition type (isKeyPressed g, isMouseMoved g)) /\
  forall j, j <> m ->
    signals j (document_dispatchEvent type w) = signals j w.
Proof.
  intros Hd Hg. split; [|split].
  - intros w0. unfold _mountDocumentListeners, _domEmitter_listenTo. fields.
    unfold mounted_listeners. by rewrite <- !app_assoc.
  - rewrite (dispatch_mounted _ m) by done. rewrite callback_for_transition.
    destruct (callback_for type) as [c|].
    + rewrite signals_run_callback, decide_True by done.
      unfold signals. rewrite Hg. by destruct c.
    + unfold signals. by rewrite Hg.
  - intros j Hj. rewrite (dispatch_mounted _ m) by done.
    destruct (callback_for type) as [c|]; [|done].
    by rewrite signals_run_callback, decide_False.
Qed.

Lemma C6_document_event_transitions_witness :
  (forall w0,
     documentListeners (_mountDocumentListeners 0 w0)
     = documentListeners w0 ++ mounted_listeners 0) /\
  signals 0 (document_dispatchEvent "mouseleave" key_held)
  = Some (true, true) /\
  forall j, j <> 0 ->
    signals j (document_dispatchEvent "mouseleave" key_held)
    = signals j key_held.
Proof.
  apply (C6_document_event_transitions "mouseleave" 0
           {| isKeyPressed := true; isMouseMoved := false;
              change_isMouseMoved := [0]; change_isKeyPressed := [0] |}
           key_held); reflexivity.
Defined.

(** ** The rules, from any reachable store *)

Lemma consumer_subscribed m k t w :
  consumers_subscribed m w ->
  keyboardFocusTrackers w !! k = Some t ->
  _globalInteractionTracker t = m ->
  exists g ft,
    globalTrackers w !! m = Some g /\
    k ∈ change_isMouseMoved g /\ k ∈ change_isKeyPressed g /\
    focusTrackers w !! focusTracker t = Some ft /\
    k ∈ change_focusedElement ft.
Proof.
  intros (mm & kp & Hg & Hc) Ht Hm.
  apply links_lookup in Ht. rewrite Hm in Ht.
  destruct (Hc _ _ Ht) as (? & ? & fe & Hfe & ?).
  apply globalSubscribers_lookup_inv in Hg as (g & ? & <- & <-).
  apply focusSubscribers_lookup_inv in Hfe as (ft & ? & <-).
  exists g, ft. eauto 10.
Qed.

(** C4. From any reachable store, whenever a document event makes the
    isMouseMoved signal of a tracker's global tracker go from false to true,
    the tracker's flag is false afterwards, whatever is focused and whether
    or not a key is pressed. *)
Theorem C4_mouse_moved_forces_false type k t w :
  reachable w ->
  keyboardFocusTrackers w !! k = Some t ->
  mouseMoved (_globalInteractionTracker t) w = Some false ->
  mouseMoved (_globalInteractionTracker t) (document_dispatchEvent type w)
  = Some true ->
  flag k (document_dispatchEvent type w) = Some false.
Proof.
  intros Hr Ht Hbefore Hafter. pose proof (reachable_Inv _ Hr) as HI.
  destruct (inv_mounted _ HI) as [Hd|(m & Hd & _ & Hc)].
  { rewrite dispatch_unmounted in Hafter by done. congruence. }
  rewrite (dispatch_mounted _ m) in * by done.
  rewrite !mouseMoved_signals in *.
  destruct (callback_for type) as [c|]; [|congruence].
  rewrite signals_run_callback in Hafter.
  case_decide as Hm; [|congruence]. subst m.
  destruct (consumer_subscribed _ _ _ _ Hc Ht eq_refl)
    as (g & ft & Hg & Hmm & _).
  unfold signals in *. rewrite Hg in *. simpl in *.
  destruct c; try discriminate. simpl.
  eapply mouse_moved_notification; [done|congruence|done|].
  unfold flag. rewrite Ht. eauto.
Qed.

Lemma C4_mouse_moved_forces_false_witness :
  flag 0 (document_dispatchEvent "pointerenter" key_held_focused)
  = Some false.
Proof.
  apply (C4_mouse_moved_forces_false "pointerenter" 0
           {| isFocusedUsingKeyboard := true; _globalInteractionTracker := 0;
              focusTracker := 0 |} key_held_focused).
  - exists [NewFocusTracker; NewKeyboardFocusTracker 0;
            DocumentEvent "keydown"; ElementFocus 0 7].
    reflexivity.
  - reflexivity.
  - reflexivity.
  - reflexivity.
Defined.

(** C5. From any reachable store, whenever a document event makes the
    isKeyPressed signal of a tracker's global tracker go from false to true,
    the tracker's flag becomes the isFocused of its focus tracker; so a
    keydown with an element already focused makes the flag true even if no
    key was involved in that focus. *)
Theorem C5_key_pressed_takes_isFocused type k t ft w :
  reachable w ->
  keyboardFocusTrackers w !! k = Some t ->
  focusTrackers w !! focusTracker t = Some ft ->
  keyPressed (_globalInteractionTracker t) w = Some false ->
  keyPressed (_globalInteractionTracker t) (document_dispatchEvent type w)
  = Some true ->
  flag k (document_dispatchEvent type w) = Some (isFocused ft) /\
  (isFocused ft = true ->
   flag k (document_dispatchEvent type w) = Some true).
Proof.
  intros Hr Ht Hft Hbefore Hafter. pose proof (reachable_Inv _ Hr) as HI.
  assert (flag k (document_dispatchEvent type w) = Some (isFocused ft))
    as Hflag; [|split; [done|congruence]].
  destruct (inv_mounted _ HI) as [Hd|(m & Hd & _ & Hc)].
  { rewrite dispatch_unmounted in Hafter by done. congruence. }
  rewrite (dispatch_mounted _ m) in * by done.
  rewrite !keyPressed_signals in *.
  destruct (callback_for type) as [c|]; [|congruence].
  rewrite signals_run_callback in Hafter.
  case_decide as Hm; [|congruence]. subst m.
  destruct (consumer_subscribed _ _ _ _ Hc Ht eq_refl)
    as (g & ft' & Hg & _ & Hkp & Hft' & _).
  assert (ft' = ft) as -> by congruence.
  unfold signals in *. rewrite Hg in *. simpl in *.
  destruct c; simpl in *; try congruence.
  set (w1 := set_isMouseMoved (_globalInteractionTracker t) false w).
  assert (Hg1 : globalTrackers w1 !! _globalInteractionTracker t
                = Some (put_isMouseMoved false g)).
  { unfold w1. rewrite set_isMouseMoved_global, list_lookup_alter_eq.
    by rewrite Hg. }
  eapply key_pressed_notification.
  - exact Hg1.
  - simpl. congruence.
  - done.
  - unfold w1. by rewrite set_isMouseMoved_false.
  - unfold w1. by rewrite set_isMouseMoved_focus.
Qed.

Lemma C5_key_pressed_takes_isFocused_witness :
  flag 0 (document_dispatchEvent "keydown" focused_without_key) = Some true /\
  (true = true ->
   flag 0 (document_dispatchEvent "keydown" focused_without_key) = Some true).
Proof.
  apply (C5_key_pressed_takes_isFocused "keydown" 0
           {| isFocusedUsingKeyboard := false; _globalInteractionTracker := 0;
              focusTracker := 0 |}
           {| focusedElement := Some 7; isFocused := true;
              _nextEventLoopTimeout := false;
              change_focusedElement := [0] |}
           focused_without_key).
  - exists [NewFocusTracker; NewKeyboardFocusTracker 0; ElementFocus 0 7].
    reflexivity.
  - reflexivity.
  - reflexivity.
  - reflexivity.
  - reflexivity.
Defined.

(** C10. Falling edges leave the flag alone: the two callbacks do nothing
    when the new value is false, so an assignment of false to either signal
    changes no keyboard focus tracker, and from any reachable store a keyup
    (which assigns false to both) leaves every flag as it was. *)
Theorem C10_falling_edges_keep_flag i k w :
  _watchMouseMoved k false w = w /\
  _watchIsKeyPressed k false w = w /\
  keyboardFocusTrackers (set_isMouseMoved i false w)
  = keyboardFocusTrackers w /\
  keyboardFocusTrackers (set_isKeyPressed i false w)
  = keyboardFocusTrackers w /\
  (reachable w ->
   flag k (document_dispatchEvent "keyup" w) = flag k w).
Proof.
  split_and!; try done.
  - apply set_isMouseMoved_false.
  - apply set_isKeyPressed_false.
  - intros Hr. pose proof (reachable_Inv _ Hr) as HI.
    destruct (inv_mounted _ HI) as [Hd|(m & Hd & _)].
    + by rewrite dispatch_unmounted.
    + rewrite (dispatch_mounted _ m) by done. simpl. unfold flag.
      by rewrite set_isMouseMoved_false, set_isKeyPressed_false.
Qed.

Lemma C10_falling_edges_keep_flag_witness :
  flag 0 (document_dispatchEvent "keyup" key_held_focused) = Some true.
Proof.
  apply (C10_falling_edges_keep_flag 0 0 key_held_focused).
  exists [NewFocusTracker; NewKeyboardFocusTracker 0;
          DocumentEvent "keydown"; ElementFocus 0 7].
  reflexivity.
Defined.

(** ** A detached tracker stays as it is *)

Lemma detached_global k i g w :
  detached k w -> globalTrackers w !! i = Some g ->
  (k ∉ change_isMouseMoved g) /\ (k ∉ change_isKeyPressed g).
Proof.
  intros [Hg _] Hi. apply (Hg i). by apply globalSubscribers_lookup.
Qed.

Lemma detached_focus k f t w :
  detached k w -> focusTrackers w !! f = Some t ->
  k ∉ change_focusedElement t.
Proof.
  intros [_ Hf] Ht. apply (Hf f). by apply focusSubscribers_lookup.
Qed.

Lemma run_callback_flag_detached k i c w :
  detached k w -> flag k (run_callback i c w) = flag k w.
Proof.
  intros Hd. destruct c; simpl.
  - apply set_isMouseMoved_flag_other. intros g Hg.
    by destruct (detached_global _ _ _ _ Hd Hg).
  - rewrite set_isKeyPressed_flag_other.
    + apply set_isMouseMoved_flag_other. intros g Hg.
      by destruct (detached_global _ _ _ _ Hd Hg).
    + intros g Hg.
      eapply detached_wiring in Hd; [|apply set_isMouseMoved_wiring].
      by destruct (detached_global _ _ _ _ Hd Hg).
  - rewrite set_isMouseMoved_flag_other.
    + apply set_isKeyPressed_flag_other. intros g Hg.
      by destruct (detached_global _ _ _ _ Hd Hg).
    + intros g Hg.
      eapply detached_wiring in Hd; [|apply set_isKeyPressed_wiring].
      by destruct (detached_global _ _ _ _ Hd Hg).
Qed.

Lemma dispatch_flag_detached k type w :
  detached k w -> flag k (document_dispatchEvent type w) = flag k w.
Proof.
  unfold document_dispatchEvent. generalize (documentListeners w) as ls.
  intros ls. revert w. induction ls as [|l ls IH]; intros w Hd; [done|].
  simpl. destruct (String.eqb _ _); [|by apply IH].
  rewrite IH.
  - by apply run_callback_flag_detached.
  - eapply detached_wiring; [apply run_callback_wiring|done].
Qed.

Lemma update_focus_flag k f h w : flag k (update_focus f h w) = flag k w.
Proof. done. Qed.

Lemma FocusTracker_focus_flag_detached k f el w :
  detached k w -> flag k (FocusTracker_focus f el w) = flag k w.
Proof.
  intros Hd. unfold FocusTracker_focus, set_isFocused.
  rewrite update_focus_flag, set_focusedElement_flag_other; [done|].
  intros t Ht.
  eapply detached_wiring in Hd; [|apply set_nextEventLoopTimeout_wiring].
  by eapply detached_focus.
Qed.

Lemma FocusTracker_timeout_flag_other k f w :
  (forall t, focusTrackers w !! f = Some t -> k ∉ change_focusedElement t) ->
  flag k (FocusTracker_timeout f w) = flag k w.
Proof.
  intros Hk. unfold FocusTracker_timeout.
  destruct (focusTrackers w !! f) as [t|] eqn:Ht; [|done].
  destruct (_nextEventLoopTimeout t); [|done].
  unfold set_isFocused.
  rewrite update_focus_flag, set_focusedElement_flag_other; [done|].
  intros t'. unfold set_nextEventLoopTimeout, update_focus. fields.
  rewrite list_lookup_alter_eq, Ht. intros [= <-]. simpl. by apply Hk.
Qed.

Lemma new_KeyboardFocusTracker_keyboard f w :
  exists i,
    keyboardFocusTrackers (new_KeyboardFocusTracker f w).2
    = keyboardFocusTrackers w ++
      [{| isFocusedUsingKeyboard := false; _globalInteractionTracker := i;
          focusTracker := f |}].
Proof.
  unfold new_KeyboardFocusTracker, new_GlobalKeyboardMouseInteractionTracker.
  fields. destruct (_instance w); eexists; reflexivity.
Qed.

Lemma new_KeyboardFocusTracker_flag k f w :
  k < length (keyboardFocusTrackers w) ->
  flag k (new_KeyboardFocusTracker f w).2 = flag k w.
Proof.
  intros Hk. destruct (new_KeyboardFocusTracker_keyboard f w) as [i E].
  unfold flag. rewrite E. by rewrite lookup_app_l.
Qed.

Lemma detached_new_KeyboardFocusTracker k f w :
  k < length (keyboardFocusTrackers w) -> detached k w ->
  detached k (new_KeyboardFocusTracker f w).2.
Proof.
  intros Hk [Hg Hf].
  destruct (new_KeyboardFocusTracker_views f w) as (_ & EG & EF & _).
  assert (k <> length (links w)).
  { unfold links. rewrite length_fmap. lia. }
  split.
  - intros j mm kp. rewrite EG. intros Hj.
    apply lookup_alter_Some in Hj as ([mm0 kp0] & Hj & E).
    assert ((k ∉ mm0) /\ (k ∉ kp0)) as [? ?].
    { apply lookup_app_Some in Hj as [Hj|[_ Hj]]; [by eapply Hg|].
      destruct (_instance w); [by destruct (j - _)|].
      destruct (j - _) as [|n]; [|by destruct n].
      injection Hj as <- <-. split; apply not_elem_of_nil. }
    case_decide; injection E as -> ->; [|done].
    rewrite !elem_of_app, !list_elem_of_singleton. tauto.
  - intros f' fe. rewrite EF. intros Hf'.
    apply lookup_alter_Some in Hf' as (fe0 & Hfe0 & ->).
    specialize (Hf _ _ Hfe0). case_decide; [|done].
    rewrite elem_of_app, list_elem_of_singleton. tauto.
Qed.

Lemma detached_step k e w w' :
  Inv w -> k < length (keyboardFocusTrackers w) -> detached k w ->
  step e w = Returns w' ->
  detached k w' /\ k < length (keyboardFocusTrackers w') /\
  (flag k w = Some false -> flag k w' = Some false).
Proof.
  intros HI Hk Hd Hs.
  assert (Hlen : forall w0, same_wiring w w0 ->
                   k < length (keyboardFocusTrackers w0)).
  { intros w0 [E _ _ _ _ _]. apply (f_equal length) in E.
    unfold links in E. rewrite !length_fmap in E. lia. }
  destruct e as [type|f el|f|f| |f|k']; cbn [step] in Hs.
  - injection Hs as <-. split_and!.
    + eapply detached_wiring; [apply document_dispatchEvent_wiring|done].
    + apply Hlen, document_dispatchEvent_wiring.
    + by rewrite dispatch_flag_detached.
  - injection Hs as <-. split_and!.
    + eapply detached_wiring; [apply FocusTracker_focus_wiring|done].
    + apply Hlen, FocusTracker_focus_wiring.
    + by rewrite FocusTracker_focus_flag_detached.
  - injection Hs as <-. split_and!; try done.
    eapply detached_wiring; [apply FocusTracker_blur_wiring|done].
  - injection Hs as <-. split_and!.
    + eapply detached_wiring; [apply FocusTracker_timeout_wiring|done].
    + apply Hlen, FocusTracker_timeout_wiring.
    + rewrite FocusTracker_timeout_flag_other; [done|].
      intros t Ht. by eapply detached_focus.
  - assert (w' = (new_FocusTracker w).2) as -> by congruence.
    split_and!; try done.
    destruct (new_FocusTracker_views w) as (_ & EG & EF & _).
    destruct Hd as [Hg Hf]. split; rewrite ?EG, ?EF; [done|].
    intros f fe Hfe. apply lookup_snoc_inv in Hfe as [?|[_ ->]]; [eauto|].
    apply not_elem_of_nil.
  - case_bool_decide; injection Hs as <-; [|done]. split_and!.
    + by apply detached_new_KeyboardFocusTracker.
    + destruct (new_KeyboardFocusTracker_keyboard f w) as [i ->].
      rewrite length_app. lia.
    + by rewrite new_KeyboardFocusTracker_flag.
  - destruct (keyboardFocusTrackers w !! k') as [t|] eqn:Ht.
    + destruct (KeyboardFocusTracker_destroy_spec k' t w HI Ht)
        as (w2 & E & _ & Hd2 & Hf2 & _ & EF & _ & Hother & EL & _ & HG).
      assert (w2 = w') as -> by congruence. split_and!.
      * destruct Hd as [Hg Hf]. split.
        -- intros j mm kp Hj.
           destruct (HG _ _ _ Hj) as (mm0 & kp0 & Hj0 & Hmm & Hkp).
           destruct (Hg _ _ _ Hj0). split; intros Hin; eauto.
        -- intros f fe. rewrite EF. intros Hfe.
           apply lookup_alter_Some in Hfe as (fe0 & Hfe0 & ->).
           specialize (Hf _ _ Hfe0). case_decide; [|done].
           intros Hin. by apply list_elem_of_filter in Hin as [_ ?].
      * apply (f_equal length) in EL. unfold links in EL.
        rewrite !length_fmap in EL. lia.
      * destruct (decide (k' = k)) as [->|Hne]; [done|].
        by rewrite Hother.
    + unfold KeyboardFocusTracker_destroy in Hs. rewrite Ht in Hs.
      by injection Hs as <-.
Qed.

Lemma detached_run k es w :
  Inv w -> k < length (keyboardFocusTrackers w) -> detached k w ->
  flag k w = Some false ->
  exists w', run es w = Returns w' /\ flag k w' = Some false.
Proof.
  revert w. induction es as [|e es IH]; intros w HI Hk Hd Hf; simpl; [eauto|].
  destruct (step_Inv e w HI) as (w1 & Hs & HI1). rewrite Hs.
  destruct (detached_step k e w w1 HI Hk Hd Hs) as (? & ? & ?). eauto.
Qed.

(** C3. Destroying a keyboard focus tracker returns, leaves the tracker
    subscribed to nothing (neither change event of any global tracker, nor
    the change of any focus tracker), releases the global tracker (the count
    goes down), and leaves the flag false. The focus trackers keep their
    state; the only thing they lose is this tracker's callback. After that,
    whatever happens (document events, focus changes, timers, trackers made
    or destroyed), the run returns and the flag is still false. *)
Theorem C3_destroy_detaches_and_resets k t w :
  reachable w ->
  keyboardFocusTrackers w !! k = Some t ->
  exists w',
    KeyboardFocusTracker_destroy k w = Returns w' /\
    detached k w' /\
    flag k w' = Some false /\
    (_totalInstances w' < _totalInstances w)%Z /\
    focus_state <$> focusTrackers w' = focus_state <$> focusTrackers w /\
    focusSubscribers w'
    = alter (filter (fun k' => k' <> k)) (focusTracker t)
        (focusSubscribers w) /\
    forall es, exists w'', run es w' = Returns w'' /\ flag k w'' = Some false.
Proof.
  intros Hr Ht. pose proof (reachable_Inv _ Hr) as HI.
  destruct (KeyboardFocusTracker_destroy_spec k t w HI Ht)
    as (w' & E & HI' & Hd & Hf & ES & EF & ET & _ & EL & _).
  exists w'. split_and!; try done.
  intros es. apply detached_run; try done.
  apply lookup_lt_Some in Ht. apply (f_equal length) in EL.
  unfold links in EL. rewrite !length_fmap in EL. lia.
Qed.

Lemma C3_destroy_detaches_and_resets_witness :
  exists w',
    KeyboardFocusTracker_destroy 0 key_held_focused = Returns w' /\
    detached 0 w' /\
    flag 0 w' = Some false /\
    (_totalInstances w' < _totalInstances key_held_focused)%Z /\
    focus_state <$> focusTrackers w'
    = focus_state <$> focusTrackers key_held_focused /\
    focusSubscribers w'
    = alter (filter (fun k' => k' <> 0)) 0
        (focusSubscribers key_held_focused) /\
    forall es, exists w'', run es w' = Returns w'' /\ flag 0 w'' = Some false.
Proof.
  apply (C3_destroy_detaches_and_resets 0
           {| isFocusedUsingKeyboard := true; _globalInteractionTracker := 0;
              focusTracker := 0 |} key_held_focused).
  - exists [NewFocusTracker; NewKeyboardFocusTracker 0;
            DocumentEvent "keydown"; ElementFocus 0 7].
    reflexivity.
  - reflexivity.
Defined.

(** ** A key hold *)

Lemma holding_callback type :
  keyup_or_mouse type = false ->
  callback_for type = None \/ callback_for type = Some handleKeyDown.
Proof.
  intros H. unfold callback_for.
  repeat match goal with
         | |- context [String.eqb ?a type] =>
             destruct (String.eqb_spec a type) as [<-|];
             [try (vm_compute in H; discriminate)|]
         end; auto.
Qed.

Lemma signals_same_global w w' :
  globalTrackers w' = globalTrackers w -> forall i, signals i w' = signals i w.
Proof. intros E i. unfold signals. by rewrite E. Qed.

Lemma FocusTracker_focus_global f el w :
  globalTrackers (FocusTracker_focus f el w) = globalTrackers w.
Proof.
  unfold FocusTracker_focus, set_isFocused, set_nextEventLoopTimeout.
  fields. by rewrite set_focusedElement_global.
Qed.

Lemma FocusTracker_timeout_global f w :
  globalTrackers (FocusTracker_timeout f w) = globalTrackers w.
Proof.
  unfold FocusTracker_timeout.
  destruct (focusTrackers w !! f) as [t|]; [|done].
  destruct (_nextEventLoopTimeout t); [|done].
  unfold set_isFocused, set_nextEventLoopTimeout.
  fields. by rewrite set_focusedElement_global.
Qed.

Lemma new_KeyboardFocusTracker_signals f j w :
  is_Some (_instance w) ->
  signals j (new_KeyboardFocusTracker f w).2 = signals j w.
Proof.
  intros [i Hi].
  unfold new_KeyboardFocusTracker, new_GlobalKeyboardMouseInteractionTracker.
  fields. rewrite Hi.
  unfold on_change_focusedElement, on_change_isKeyPressed,
    on_change_isMouseMoved, signals.
  fields. rewrite !list_lookup_alter.
  repeat case_decide; subst; try done.
  by destruct (globalTrackers w !! j).
Qed.

Lemma key_hold_wiring k w w' :
  same_wiring w w' -> (forall i, signals i w' = signals i w) ->
  key_hold k w -> key_hold k w'.
Proof.
  intros [EL _ _ _ _ ED] ES (i & f & ? & ? & ?).
  exists i, f. by rewrite EL, ED, ES.
Qed.

Lemma keydown_key_hold k t w :
  keyboardFocusTrackers w !! k = Some t ->
  documentListeners w = mounted_listeners (_globalInteractionTracker t) ->
  is_Some (globalTrackers w !! _globalInteractionTracker t) ->
  key_hold k (document_dispatchEvent "keydown" w).
Proof.
  intros Ht Hd [g Hg].
  pose proof (document_dispatchEvent_wiring "keydown" w) as [EL _ _ _ _ ED].
  exists (_globalInteractionTracker t), (focusTracker t).
  rewrite EL, ED. split_and!; [by apply links_lookup|done|].
  rewrite (dispatch_mounted _ _ _ Hd).
  change (callback_for "keydown") with (Some handleKeyDown). cbv iota.
  rewrite signals_run_callback, decide_True by done.
  unfold signals. by rewrite Hg.
Qed.

Lemma set_isMouseMoved_same i v w :
  (snd <$> signals i w) = Some v -> set_isMouseMoved i v w = w.
Proof.
  unfold signals, set_isMouseMoved.
  destruct (globalTrackers w !! i) as [g|]; [|done]. simpl.
  intros [= ->]. by rewrite Bool.eqb_reflx.
Qed.

Lemma set_isKeyPressed_same i v w :
  (fst <$> signals i w) = Some v -> set_isKeyPressed i v w = w.
Proof.
  unfold signals, set_isKeyPressed.
  destruct (globalTrackers w !! i) as [g|]; [|done]. simpl.
  intros [= ->]. by rewrite Bool.eqb_reflx.
Qed.

(** During a key hold a further keydown, or an event the listeners do not
    know, changes nothing at all. *)
Lemma key_hold_dispatch k type w :
  key_hold k w -> keyup_or_mouse type = false ->
  document_dispatchEvent type w = w.
Proof.
  intros (i & f & _ & Hd & Hs) Htype.
  rewrite (dispatch_mounted _ _ _ Hd).
  destruct (holding_callback _ Htype) as [-> | ->]; [done|]. simpl.
  rewrite (set_isMouseMoved_same i false w) by (by rewrite Hs).
  apply set_isKeyPressed_same. by rewrite Hs.
Qed.

Lemma holds_key_links k e p w w' :
  holds_key e = true -> step e w = Returns w' ->
  links w !! k = Some p -> links w' !! k = Some p.
Proof.
  intros He Hs Hl.
  destruct e as [type|f' el|f'|f'| |f'|k']; cbn [step] in Hs;
    try discriminate.
  - injection Hs as <-.
    by rewrite (sw_links _ _ (document_dispatchEvent_wiring _ _)).
  - injection Hs as <-.
    by rewrite (sw_links _ _ (FocusTracker_focus_wiring _ _ _)).
  - by injection Hs as <-.
  - injection Hs as <-.
    by rewrite (sw_links _ _ (FocusTracker_timeout_wiring _ _)).
  - by injection Hs as <-.
  - case_bool_decide; [|congruence].
    assert (w' = (new_KeyboardFocusTracker f' w).2) as -> by congruence.
    destruct (new_KeyboardFocusTracker_views f' w) as (-> & _).
    by apply lookup_app_l_Some.
Qed.

Lemma key_hold_step k e w :
  Inv w -> key_hold k w -> holds_key e = true ->
  exists w', step e w = Returns w' /\ Inv w' /\ key_hold k w'.
Proof.
  intros HI Hk He. destruct (step_Inv e w HI) as (w' & Hs & HI').
  exists w'. split_and!; try done.
  destruct e as [type|f el|f|f| |f|k']; cbn [step] in Hs; simpl in He;
    try discriminate.
  - apply negb_true_iff in He.
    rewrite (key_hold_dispatch k) in Hs by done. congruence.
  - injection Hs as <-.
    eapply key_hold_wiring; [apply FocusTracker_focus_wiring| |done].
    apply signals_same_global, FocusTracker_focus_global.
  - injection Hs as <-.
    eapply key_hold_wiring; [apply FocusTracker_blur_wiring| |done]. done.
  - injection Hs as <-.
    eapply key_hold_wiring; [apply FocusTracker_timeout_wiring| |done].
    apply signals_same_global, FocusTracker_timeout_global.
  - assert (w' = (new_FocusTracker w).2) as -> by congruence.
    destruct Hk as (i & f & ? & ? & ?). by exists i, f.
  - case_bool_decide; [|congruence].
    assert (w' = (new_KeyboardFocusTracker f w).2) as -> by congruence.
    destruct Hk as (i & f0 & Hl & Hd & Hsig).
    destruct (new_KeyboardFocusTracker_views f w) as (EL & _ & _ & _ & _ & ED).
    assert (_instance w = Some i) as Hi.
    { destruct (inv_mounted _ HI) as [E|(m & E & ? & _)].
      - rewrite E in Hd. discriminate.
      - rewrite E in Hd. injection Hd as ->. done. }
    rewrite Hi in ED. rewrite app_nil_r in ED.
    exists i, f0. rewrite EL, ED. split_and!; [|done|].
    + by apply lookup_app_l_Some.
    + by rewrite new_KeyboardFocusTracker_signals by (rewrite Hi; eauto).
Qed.

Lemma key_hold_run k p es w :
  Inv w -> key_hold k w -> links w !! k = Some p ->
  Forall (fun e => holds_key e = true) es ->
  exists w', run es w = Returns w' /\ Inv w' /\ key_hold k w' /\
             links w' !! k = Some p.
Proof.
  intros HI Hk Hl Hes. revert w HI Hk Hl.
  induction Hes as [|e es He _ IH]; intros w HI Hk Hl; simpl; [eauto|].
  destruct (key_hold_step k e w HI Hk He) as (w1 & Hs & HI1 & Hk1).
  rewrite Hs. apply IH; try done. by eapply holds_key_links.
Qed.

(** In a key hold, a focus event on the tracker's own focus tracker that
    changes the focused element makes the flag true. *)
Lemma key_hold_focus_change k t ft el w :
  Inv w -> key_hold k w ->
  keyboardFocusTrackers w !! k = Some t ->
  focusTrackers w !! focusTracker t = Some ft ->
  focusedElement ft <> Some el ->
  flag k (FocusTracker_focus (focusTracker t) el w) = Some true.
Proof.
  intros HI (i & f & Hl & Hd & Hs) Ht Hft Hne.
  rewrite (links_lookup _ _ _ Ht) in Hl. injection Hl as <- <-.
  destruct (inv_mounted _ HI) as [E|(m & E & _ & Hc)];
    [rewrite E in Hd; discriminate|].
  rewrite E in Hd. injection Hd as ->.
  destruct (consumer_subscribed _ _ _ _ Hc Ht eq_refl)
    as (g & ft' & Hg & _ & _ & Hft' & Hin).
  assert (ft' = ft) as -> by congruence.
  unfold signals in Hs. rewrite Hg in Hs. injection Hs as Hkp Hmm.
  unfold FocusTracker_focus, set_isFocused. rewrite update_focus_flag.
  set (w0 := set_nextEventLoopTimeout (focusTracker t) false w).
  rewrite (focused_element_notification (focusTracker t) (Some el)
             {| focusedElement := focusedElement ft; isFocused := isFocused ft;
                _nextEventLoopTimeout := false;
                change_focusedElement := change_focusedElement ft |}
             k t g w0); try done.
  - by rewrite Hkp, Hmm.
  - unfold w0, set_nextEventLoopTimeout, update_focus. fields.
    by rewrite list_lookup_alter_eq, Hft.
Qed.

(** In a key hold, no focus event takes a true flag away. *)
Lemma key_hold_focus_keeps k f el w :
  key_hold k w -> flag k w = Some true ->
  flag k (FocusTracker_focus f el w) = Some true.
Proof.
  intros (i & f0 & Hl & _ & Hs) Hflag.
  unfold FocusTracker_focus, set_isFocused. rewrite update_focus_flag.
  set (w0 := set_nextEventLoopTimeout f false w).
  assert (flag k w0 = Some true) as Hflag0 by done.
  assert (links w0 !! k = Some (i, f0)) as Hl0 by done.
  assert (signals i w0 = Some (true, false)) as Hs0 by done.
  clearbody w0. unfold set_focusedElement.
  destruct (focusTrackers w0 !! f) as [ft|]; [|done].
  case_bool_decide; [done|].
  set (w1 := update_focus f (put_focusedElement (Some el)) w0).
  destruct (decide (k ∈ change_focusedElement ft)) as [Hin|Hin].
  - unfold signals in Hs0.
    destruct (globalTrackers w0 !! i) as [g|] eqn:Hg; [|done].
    injection Hs0 as Hkp Hmm.
    rewrite (fire_watchChangeFocusedElement _ k i f0 g (Some el) w1);
      try done.
    by rewrite Hkp, Hmm.
  - rewrite fire_flag_other; auto with trackers.
Qed.

Lemma calm_step k i f e w :
  Inv w -> key_hold k w -> links w !! k = Some (i, f) ->
  flag k w = Some true -> calm f e = true ->
  exists w', step e w = Returns w' /\ Inv w' /\ key_hold k w' /\
             links w' !! k = Some (i, f) /\ flag k w' = Some true.
Proof.
  intros HI Hk Hl Hflag He. apply andb_true_iff in He as [He Hf].
  destruct (key_hold_step k e w HI Hk He) as (w' & Hs & HI' & Hk').
  exists w'. split_and!; try done.
  - by eapply holds_key_links.
  - destruct e as [type|f' el|f'|f'| |f'|k']; cbn [step] in Hs;
      simpl in He; try discriminate.
    + apply negb_true_iff in He.
      rewrite (key_hold_dispatch k) in Hs by done. congruence.
    + injection Hs as <-. by apply key_hold_focus_keeps.
    + by injection Hs as <-.
    + injection Hs as <-. rewrite FocusTracker_timeout_flag_other; [done|].
      intros t Ht Hin.
      destruct (inv_focus _ HI f' _ k (focusSubscribers_lookup _ _ _ Ht) Hin)
        as [i' Hi'].
      assert (f' = f) as -> by congruence.
      by rewrite Nat.eqb_refl in Hf.
    + by injection Hs as <-.
    + case_bool_decide; [|congruence].
      assert (w' = (new_KeyboardFocusTracker f' w).2) as -> by congruence.
      rewrite new_KeyboardFocusTracker_flag; [done|].
      apply lookup_lt_Some in Hl. unfold links in Hl.
      by rewrite length_fmap in Hl.
Qed.

Lemma calm_run k i f es w :
  Inv w -> key_hold k w -> links w !! k = Some (i, f) ->
  flag k w = Some true -> Forall (fun e => calm f e = true) es ->
  exists w', run es w = Returns w' /\ flag k w' = Some true.
Proof.
  intros HI Hk Hl Hflag Hes. revert w HI Hk Hl Hflag.
  induction Hes as [|e es He _ IH]; intros w HI Hk Hl Hflag; simpl; [eauto|].
  destruct (calm_step k i f e w HI Hk Hl Hflag He)
    as (w1 & -> & HI1 & Hk1 & Hl1 & Hflag1).
  by apply IH.
Qed.

(** C8, as stated, fails: a mouse or pointer enter or leave between the
    keydown and the focus event taints the key hold. Here the key is still
    down when element 7 gets the focus, and the flag is false. *)
Lemma C8_counterexample :
  exists w,
    run [NewFocusTracker; NewKeyboardFocusTracker 0; DocumentEvent "keydown";
         DocumentEvent "mouseenter"; ElementFocus 0 7] initial = Returns w /\
    keyPressed 0 w = Some true /\
    focusedElement <$> focusTrackers w !! 0 = Some (Some 7) /\
    flag 0 w = Some false.
Proof. eexists. split; [reflexivity|]. by vm_compute. Qed.

(** C8, amended. From a reachable store in which the listeners of the
    tracker's global tracker are on the document: a keydown, then any events
    other than a keyup, a mouse or pointer enter or leave, or the destruction
    of a tracker, then a focus event on an element of the tracker's focus
    tracker that changes the focused element; the flag is true once the
    focus event is processed. *)
Theorem C8_focus_during_key_hold k t mid el w w1 :
  reachable w ->
  keyboardFocusTrackers w !! k = Some t ->
  documentListeners w = mounted_listeners (_globalInteractionTracker t) ->
  Forall (fun e => holds_key e = true) mid ->
  run (DocumentEvent "keydown" :: mid) w = Returns w1 ->
  (forall ft, focusTrackers w1 !! focusTracker t = Some ft ->
              focusedElement ft <> Some el) ->
  exists w2,
    run (DocumentEvent "keydown" :: mid ++ [ElementFocus (focusTracker t) el])
      w = Returns w2 /\
    flag k w2 = Some true.
Proof.
  intros Hr Ht Hd Hmid Hrun Hne. pose proof (reachable_Inv _ Hr) as HI.
  pose proof (links_lookup _ _ _ Ht) as Hl.
  destruct (inv_links _ HI _ _ _ Hl) as [[[mm kp] Hp] _].
  apply globalSubscribers_lookup_inv in Hp as (g & Hg & _).
  pose proof (keydown_key_hold k t w Ht Hd (ex_intro _ g Hg)) as Hk.
  destruct (step_Inv (DocumentEvent "keydown") w HI) as (w0 & Hs & HI0).
  cbn [step] in Hs. injection Hs as <-.
  assert (links (document_dispatchEvent "keydown" w) !! k
          = Some (_globalInteractionTracker t, focusTracker t)) as Hl0.
  { by rewrite (sw_links _ _ (document_dispatchEvent_wiring _ _)). }
  destruct (key_hold_run k _ mid _ HI0 Hk Hl0 Hmid)
    as (w1' & Hrun' & HI1 & Hk1 & Hl1).
  cbn [run step] in Hrun. rewrite Hrun' in Hrun. injection Hrun as ->.
  change (DocumentEvent "keydown" :: mid ++ [ElementFocus (focusTracker t) el])
    with ((DocumentEvent "keydown" :: mid) ++
          [ElementFocus (focusTracker t) el]).
  rewrite run_app. cbn [run step]. rewrite Hrun'.
  eexists. split; [done|].
  apply links_lookup_inv in Hl1 as (t1 & Ht1 & _ & Hf1).
  destruct (inv_links _ HI1 _ _ _ (links_lookup _ _ _ Ht1)) as [_ [fe Hfe]].
  apply focusSubscribers_lookup_inv in Hfe as (ft & Hft & _).
  rewrite <- Hf1. eapply key_hold_focus_change; try done.
  apply Hne. by rewrite <- Hf1.
Qed.

Lemma C8_focus_during_key_hold_witness :
  exists w2,
    run (DocumentEvent "keydown" ::
         [DocumentEvent "click"; NewFocusTracker] ++ [ElementFocus 0 7])
      one_tracker = Returns w2 /\
    flag 0 w2 = Some true.
Proof.
  apply (C8_focus_during_key_hold 0
           {| isFocusedUsingKeyboard := false; _globalInteractionTracker := 0;
              focusTracker := 0 |}
           [DocumentEvent "click"; NewFocusTracker] 7 one_tracker
           (world_after [NewFocusTracker; NewKeyboardFocusTracker 0;
                         DocumentEvent "keydown"; DocumentEvent "click";
                         NewFocusTracker])).
  - exists [NewFocusTracker; NewKeyboardFocusTracker 0]. reflexivity.
  - reflexivity.
  - reflexivity.
  - repeat constructor.
  - reflexivity.
  - intros ft Hft. vm_compute in Hft. injection Hft as <-. discriminate.
Defined.

(** C9, as stated, fails: the blur of A only schedules the reset of the focus
    tracker, and when that reset runs before B gets the focus, the focused
    element becomes null and the rule gives false. Here the key is down all
    the time and no mouse or pointer event occurs: the flag is true after the
    focus on element 1 and after its blur, false once the reset has run, and
    true again after the focus on element 2. *)
Lemma C9_counterexample :
  exists w,
    run [NewFocusTracker; NewKeyboardFocusTracker 0; DocumentEvent "keydown";
         ElementFocus 0 1; ElementBlur 0; RunTimeout 0] initial = Returns w /\
    keyPressed 0 w = Some true /\
    mouseMoved 0 w = Some false /\
    flag 0 w = Some false /\
    flag_after [NewFocusTracker; NewKeyboardFocusTracker 0;
                DocumentEvent "keydown"; ElementFocus 0 1; ElementBlur 0] 0
      = Some true /\
    flag_after [NewFocusTracker; NewKeyboardFocusTracker 0;
                DocumentEvent "keydown"; ElementFocus 0 1; ElementBlur 0;
                RunTimeout 0; ElementFocus 0 2] 0
      = Some true.
Proof. eexists. split; [reflexivity|]. by vm_compute. Qed.

(** The first focus has to change the focused element: while A is still the
    focused element of the focus tracker (blurred, the reset not yet run), a
    focus on A notifies nobody, and a flag that a mouse event cleared before
    the keydown stays false. *)
Example refocus_of_focused_element_notifies_nobody :
  flag_after [NewFocusTracker; NewKeyboardFocusTracker 0;
              DocumentEvent "keydown"; DocumentEvent "mouseenter";
              ElementFocus 0 1; ElementBlur 0;
              DocumentEvent "keydown"; ElementFocus 0 1] 0
    = Some false /\
  flag_after [NewFocusTracker; NewKeyboardFocusTracker 0;
              DocumentEvent "keydown"; DocumentEvent "mouseenter";
              ElementFocus 0 1; ElementBlur 0;
              DocumentEvent "keydown"; ElementFocus 0 1;
              ElementBlur 0; ElementFocus 0 2] 0
    = Some true.
Proof. by vm_compute. Qed.

(** C9, amended. From a reachable store in which the listeners of the
    tracker's global tracker are on the document: keydown, then a focus on
    element A that changes the focused element, then the blur of A, then a
    focus on element B, with events in between that are no keyup, no mouse or
    pointer enter or leave, no destruction of a tracker and (after the first
    focus) not the run of the focus tracker's pending reset. The flag is true
    after the first focus and after every later event of the sequence,
    between the blur and the second focus included. *)
Theorem C9_switching_focus_keeps_flag k t mid1 mid2 mid3 a b w w1 p :
  reachable w ->
  keyboardFocusTrackers w !! k = Some t ->
  documentListeners w = mounted_listeners (_globalInteractionTracker t) ->
  Forall (fun e => holds_key e = true) mid1 ->
  Forall (fun e => calm (focusTracker t) e = true) mid2 ->
  Forall (fun e => calm (focusTracker t) e = true) mid3 ->
  run (DocumentEvent "keydown" :: mid1) w = Returns w1 ->
  (forall ft, focusTrackers w1 !! focusTracker t = Some ft ->
              focusedElement ft <> Some a) ->
  p `prefix_of` mid2 ++ [ElementBlur (focusTracker t)] ++ mid3 ++
                [ElementFocus (focusTracker t) b] ->
  exists w2,
    run (ElementFocus (focusTracker t) a :: p) w1 = Returns w2 /\
    flag k w2 = Some true.
Proof.
  intros Hr Ht Hd Hmid1 Hmid2 Hmid3 Hrun Hne Hp.
  pose proof (reachable_Inv _ Hr) as HI.
  pose proof (links_lookup _ _ _ Ht) as Hl.
  destruct (inv_links _ HI _ _ _ Hl) as [[[mm kp] Hq] _].
  apply globalSubscribers_lookup_inv in Hq as (g & Hg & _).
  pose proof (keydown_key_hold k t w Ht Hd (ex_intro _ g Hg)) as Hk.
  destruct (step_Inv (DocumentEvent "keydown") w HI) as (w0 & Hs & HI0).
  cbn [step] in Hs. injection Hs as <-.
  assert (links (document_dispatchEvent "keydown" w) !! k
          = Some (_globalInteractionTracker t, focusTracker t)) as Hl0.
  { by rewrite (sw_links _ _ (document_dispatchEvent_wiring _ _)). }
  destruct (key_hold_run k _ mid1 _ HI0 Hk Hl0 Hmid1)
    as (w1' & Hrun' & HI1 & Hk1 & Hl1).
  cbn [run step] in Hrun. rewrite Hrun' in Hrun. injection Hrun as ->.
  set (f := focusTracker t) in *.
  destruct (key_hold_step k (ElementFocus f a) w1 HI1 Hk1 eq_refl)
    as (w2 & Hs2 & HI2 & Hk2).
  pose proof (holds_key_links k (ElementFocus f a) _ _ _ eq_refl Hs2 Hl1)
    as Hl2.
  cbn [run]. rewrite Hs2. cbn [step] in Hs2. injection Hs2 as <-.
  assert (flag k (FocusTracker_focus f a w1) = Some true) as Hflag.
  { pose proof Hl1 as Hl1'.
    apply links_lookup_inv in Hl1' as (t1 & Ht1 & _ & Hf1).
    destruct (inv_links _ HI1 _ _ _ Hl1) as [_ [fe Hfe]].
    apply focusSubscribers_lookup_inv in Hfe as (ft & Hft & _).
    rewrite <- Hf1. eapply key_hold_focus_change; try done.
    - by rewrite Hf1.
    - by apply Hne. }
  eapply calm_run; try done.
  destruct Hp as [rest Hp].
  assert (Forall (fun e => calm f e = true) (p ++ rest)) as Hall.
  { rewrite <- Hp. rewrite !Forall_app. split_and!; try done.
    - repeat constructor.
    - repeat constructor. }
  by apply Forall_app in Hall as [? _].
Qed.

Lemma C9_switching_focus_keeps_flag_witness :
  exists w2,
    run (ElementFocus 0 1 :: [ElementBlur 0]) key_held = Returns w2 /\
    flag 0 w2 = Some true.
Proof.
  apply (C9_switching_focus_keeps_flag 0
           {| isFocusedUsingKeyboard := false; _globalInteractionTracker := 0;
              focusTracker := 0 |}
           [] [] [] 1 2 one_tracker key_held [ElementBlur 0]).
  - exists [NewFocusTracker; NewKeyboardFocusTracker 0]. reflexivity.
  - reflexivity.
  - reflexivity.
  - constructor.
  - constructor.
  - constructor.
  - reflexivity.
  - intros ft Hft. vm_compute in Hft. injection Hft as <-. discriminate.
  - exists [ElementFocus 0 2]. reflexivity.
Defined.

(** ** The life cycle of the shared tracker *)

Lemma consumers_constructed n :
  1 <= n ->
  exists w,
    run (consumers n) initial = Returns w /\
    _instance w = Some 0 /\
    documentListeners w = mounted_listeners 0 /\
    _totalInstances w = Z.of_nat n /\
    length (links w) = n /\
    length (focusTrackers w) = 1 /\
    forall k, k < n -> links w !! k = Some (0, 0).
Proof.
  induction 1 as [|n Hn IH].
  - eexists. split; [reflexivity|]. split_and!; try reflexivity.
    intros k Hk. by assert (k = 0) as -> by lia.
  - destruct IH as (w & Hrun & Hi & Hd & Ht & Hlen & Hf & Hl).
    unfold consumers in *. rewrite <- Nat.add_1_r, repeat_app.
    change (NewFocusTracker ::
            repeat (NewKeyboardFocusTracker 0) n ++
            repeat (NewKeyboardFocusTracker 0) 1)
      with ((NewFocusTracker :: repeat (NewKeyboardFocusTracker 0) n) ++
            [NewKeyboardFocusTracker 0]).
    rewrite run_app, Hrun. cbn [run step].
    rewrite bool_decide_eq_true_2 by lia.
    eexists. split; [done|].
    destruct (new_KeyboardFocusTracker_views 0 w)
      as (EL & _ & _ & EI & ET & ED).
    rewrite Hi in *. rewrite EL, EI, ET, ED, Hd, Ht, app_nil_r.
    split_and!; try done.
    + lia.
    + rewrite length_app. simpl. lia.
    + unfold new_KeyboardFocusTracker,
        new_GlobalKeyboardMouseInteractionTracker, on_change_focusedElement.
      fields. rewrite Hi. fields. by rewrite length_alter.
    + intros k Hk. destruct (decide (k = n)) as [->|].
      * rewrite list_lookup_middle; [done|lia].
      * apply lookup_app_l_Some, Hl. lia.
Qed.

(** C2. What the code does with n consumers: they share one global tracker,
    whose six listeners are on the document once and whose count is n; but
    destroying any one of them removes the listeners from the document, also
    when other consumers remain, and from then on no document event is heard
    by anybody. *)
Theorem C2_any_destroy_unmounts n k :
  1 <= n -> k < n ->
  exists w w',
    run (consumers n) initial = Returns w /\
    documentListeners w = mounted_listeners 0 /\
    _totalInstances w = Z.of_nat n /\
    (forall k', k' < n -> links w !! k' = Some (0, 0)) /\
    step (Destroy k) w = Returns w' /\
    documentListeners w' = [] /\
    forall type, document_dispatchEvent type w' = w'.
Proof.
  intros Hn Hk.
  destruct (consumers_constructed n Hn)
    as (w & Hrun & Hi & Hd & Ht & Hlen & Hf & Hl).
  assert (Inv w) as HI by (apply reachable_Inv; by eexists).
  destruct (links_lookup_inv _ _ _ _ (Hl k Hk)) as (t & Hkt & Hg & _).
  destruct (KeyboardFocusTracker_destroy_spec k t w HI Hkt)
    as (w' & E & _ & _ & _ & _ & _ & _ & _ & _ & Hdoc & _).
  assert (documentListeners w' = []) as Hd'.
  { apply elem_of_nil_inv. intros l Hin. apply Hdoc in Hin as [Hin Hne].
    rewrite Hd in Hin. rewrite Hg in Hne. apply Hne.
    unfold mounted_listeners in Hin.
    repeat (apply elem_of_cons in Hin as [->|Hin]; [done|]).
    by apply elem_of_nil in Hin. }
  exists w, w'. split_and!; try done.
  intros type. by apply dispatch_unmounted.
Qed.

Lemma C2_any_destroy_unmounts_witness :
  exists w w',
    run (consumers 2) initial = Returns w /\
    documentListeners w = mounted_listeners 0 /\
    _totalInstances w = Z.of_nat 2 /\
    (forall k', k' < 2 -> links w !! k' = Some (0, 0)) /\
    step (Destroy 0) w = Returns w' /\
    documentListeners w' = [] /\
    forall type, document_dispatchEvent type w' = w'.
Proof. apply (C2_any_destroy_unmounts 2 0); repeat constructor. Defined.

(** When the destruction of a consumer finds the count at one, the slot is
    cleared, and the nested call on the instance leaves the count at -1. *)
Lemma with_instance_document o w :
  documentListeners (with_instance o w) = documentListeners w.
Proof. reflexivity. Qed.

Lemma with_instance_total o w :
  _totalInstances (with_instance o w) = _totalInstances w.
Proof. reflexivity. Qed.

Lemma with_instance_instance o w : _instance (with_instance o w) = o.
Proof. reflexivity. Qed.

Lemma destroy_last_consumer k t w :
  reachable w -> keyboardFocusTrackers w !! k = Some t ->
  _totalInstances w = 1%Z ->
  exists w', KeyboardFocusTracker_destroy k w = Returns w' /\
             _instance w' = None /\ documentListeners w' = [] /\
             _totalInstances w' = (-1)%Z.
Proof.
  intros Hr Ht Hone. pose proof (reachable_Inv _ Hr) as HI.
  unfold KeyboardFocusTracker_destroy, call_depth.
  rewrite Ht, destroy_outcome.
  set (i := _globalInteractionTracker t).
  destruct (off_views k i (focusTracker t) w)
    as (_ & _ & _ & EI & ET & ED & _).
  set (w1 := off_change_isMouseMoved i k
               (off_change_focusedElement (focusTracker t) k w)) in *.
  rewrite ET, EI, Hone, Z.eqb_refl.
  pose proof (inv_slot _ HI) as Hslot.
  destruct (_instance w) as [j|] eqn:Hj; [|lia].
  eexists. split; [reflexivity|].
  destruct (teardown_views i w1) as (_ & _ & _ & _ & ET1 & ED1).
  destruct (teardown_views j (teardown i w1)) as (_ & _ & _ & _ & ET2 & ED2).
  set (w2 := teardown j (teardown i w1)) in *.
  destruct (set_flag_flags_only k false (with_instance None w2))
    as [_ -> -> _ -> _].
  rewrite with_instance_instance, with_instance_document, with_instance_total.
  split_and!; [done| |lia].
  rewrite ED2, ED1, ED.
  destruct (inv_mounted _ HI) as [->|(m & -> & Hm & _)]; [done|].
  assert (m = j) as -> by congruence.
  rewrite filter_mounted_listeners. case_decide; [done|].
  by rewrite filter_mounted_listeners, decide_True.
Qed.

(** C7. What the code does over three cycles of one consumer: the first
    release clears the slot but leaves the count at -1, so the second release
    takes it from 0 to -1 without passing the test for zero and the slot
    keeps the destroyed instance; the third consumer is handed that instance,
    no listener is mounted, and a keydown changes nothing. *)
Theorem C7_third_acquire_gets_destroyed_instance :
  run [NewFocusTracker; NewKeyboardFocusTracker 0; Destroy 0] initial
  = Returns first_cycle /\
  _instance first_cycle = None /\
  documentListeners first_cycle = [] /\
  _totalInstances first_cycle = (-1)%Z /\
  run [NewKeyboardFocusTracker 0; Destroy 1] first_cycle
  = Returns second_cycle /\
  _instance second_cycle = Some 1 /\
  _totalInstances second_cycle = (-1)%Z /\
  documentListeners second_cycle = [] /\
  run [NewKeyboardFocusTracker 0] second_cycle = Returns third_acquire /\
  links third_acquire !! 2 = Some (1, 0) /\
  documentListeners third_acquire = [] /\
  document_dispatchEvent "keydown" third_acquire = third_acquire /\
  signals 1 (document_dispatchEvent "keydown" third_acquire)
  = Some (false, false).
Proof. split_and!; by vm_compute. Qed.
(** ** Values through the events *)

Lemma set_focusedElement_flag_cases f v k i f0 g w :
  links w !! k = Some (i, f0) -> globalTrackers w !! i = Some g ->
  flag k (set_focusedElement f v w) = flag k w \/
  flag k (set_focusedElement f v w)
  = Some (truthy v && negb (isMouseMoved g) && isKeyPressed g).
Proof.
  intros Hl Hg. unfold set_focusedElement.
  destruct (focusTrackers w !! f) as [t|]; [|by left].
  case_bool_decide; [by left|].
  destruct (decide (k ∈ change_focusedElement t)) as [Hin|Hin].
  - right. by eapply fire_watchChangeFocusedElement.
  - left. rewrite fire_flag_other; auto with trackers.
Qed.

Lemma FocusTracker_focus_flag_cases f el k i f0 g w :
  links w !! k = Some (i, f0) -> globalTrackers w !! i = Some g ->
  flag k (FocusTracker_focus f el w) = flag k w \/
  flag k (FocusTracker_focus f el w)
  = Some (negb (isMouseMoved g) && isKeyPressed g).
Proof.
  intros Hl Hg. unfold FocusTracker_focus, set_isFocused.
  rewrite update_focus_flag.
  apply (set_focusedElement_flag_cases f (Some el) k i f0 g
           (set_nextEventLoopTimeout f false w)); done.
Qed.

Lemma FocusTracker_timeout_flag_cases f k i f0 g w :
  links w !! k = Some (i, f0) -> globalTrackers w !! i = Some g ->
  flag k (FocusTracker_timeout f w) = flag k w \/
  flag k (FocusTracker_timeout f w) = Some false.
Proof.
  intros Hl Hg. unfold FocusTracker_timeout.
  destruct (focusTrackers w !! f) as [t|]; [|by left].
  destruct (_nextEventLoopTimeout t); [|by left].
  unfold set_isFocused. rewrite update_focus_flag.
  apply (set_focusedElement_flag_cases f None k i f0 g
           (set_nextEventLoopTimeout f false w)); done.
Qed.

Lemma signals_update_global i h j w :
  (forall g, isKeyPressed (h g) = isKeyPressed g /\
             isMouseMoved (h g) = isMouseMoved g) ->
  signals j (update_global i h w) = signals j w.
Proof.
  intros Hh. unfold signals, update_global. fields.
  rewrite list_lookup_alter. case_decide; [subst|done].
  destruct (globalTrackers w !! j) as [g|]; [|done]. simpl.
  destruct (Hh g) as [-> ->]. done.
Qed.

Lemma signals_teardown i j w :
  signals j (teardown i w)
  = if decide (i = j) then (fun _ => (false, false)) <$> signals j w
    else signals j w.
Proof.
  unfold teardown.
  assert (forall w0, signals j (with_totalInstances
                                  (_totalInstances w0 - 1)%Z w0)
                     = signals j w0) as -> by done.
  rewrite signals_set_isMouseMoved, signals_set_isKeyPressed.
  assert (signals j (_domEmitter_stopListening i (stopListening i w))
          = signals j w) as ->.
  { unfold _domEmitter_stopListening.
    assert (forall l w0, signals j (with_documentListeners l w0)
                         = signals j w0) as -> by done.
    unfold stopListening. apply signals_update_global. by intros g. }
  case_decide; [|done]. by destruct (signals j w).
Qed.

Lemma signals_off k i f j w :
  signals j (off_change_isMouseMoved i k (off_change_focusedElement f k w))
  = signals j w.
Proof.
  unfold off_change_isMouseMoved.
  rewrite signals_update_global by (by intros g). done.
Qed.

Lemma new_KeyboardFocusTracker_values f j w :
  signals j (new_KeyboardFocusTracker f w).2
  = match _instance w with
    | Some _ => signals j w
    | None =>
        if decide (j = length (globalTrackers w)) then Some (false, false)
        else signals j w
    end.
Proof.
  destruct (_instance w) as [i|] eqn:Hi.
  { apply new_KeyboardFocusTracker_signals. rewrite Hi. eauto. }
  unfold new_KeyboardFocusTracker, new_GlobalKeyboardMouseInteractionTracker.
  fields. rewrite Hi.
  unfold on_change_focusedElement, on_change_isKeyPressed,
    on_change_isMouseMoved, _mountDocumentListeners, _domEmitter_listenTo,
    signals.
  fields. rewrite !list_lookup_alter.
  destruct (decide (j = length (globalTrackers w))) as [->|Hne].
  - rewrite !decide_True by done. by rewrite list_lookup_middle.
  - rewrite !decide_False by done.
    destruct (decide (j < length (globalTrackers w))) as [Hlt|Hge].
    + by rewrite lookup_app_l.
    + rewrite !lookup_ge_None_2; [done|lia|].
      rewrite length_app. simpl. lia.
Qed.

(** What [destroy] of a consumer comes to: some global trackers are torn
    down (that of the consumer, and the instance in the slot when the count
    reaches zero); their listeners leave the document and their signals are
    reset; the consumer's flag is reset and nothing else changes a flag. *)
Lemma KeyboardFocusTracker_destroy_values k t w w' :
  Inv w -> keyboardFocusTrackers w !! k = Some t ->
  KeyboardFocusTracker_destroy k w = Returns w' ->
  exists torn : nat -> bool,
    torn (_globalInteractionTracker t) = true /\
    (forall l, l ∈ documentListeners w' <->
               l ∈ documentListeners w /\ torn (dl_owner l) = false) /\
    (forall j, signals j w'
               = if torn j then (fun _ => (false, false)) <$> signals j w
                 else signals j w) /\
    links w' = links w /\
    flag k w' = Some false /\
    forall k', k' <> k -> flag k' w' = flag k' w.
Proof.
  intros HI Ht Hd.
  destruct (KeyboardFocusTracker_destroy_spec k t w HI Ht)
    as (w2 & E & _ & _ & Hf & _ & _ & _ & Hother & EL & _).
  assert (w2 = w') as -> by congruence. clear E.
  unfold KeyboardFocusTracker_destroy, call_depth in Hd.
  rewrite Ht, destroy_outcome in Hd.
  set (i := _globalInteractionTracker t) in *.
  destruct (off_views k i (focusTracker t) w)
    as (_ & _ & _ & EI & ET & ED & _).
  pose proof (fun j => signals_off k i (focusTracker t) j w) as ES.
  set (w1 := off_change_isMouseMoved i k
               (off_change_focusedElement (focusTracker t) k w)) in *.
  destruct (teardown_views i w1) as (_ & _ & _ & _ & _ & ED1).
  destruct (_totalInstances w1 =? 1)%Z.
  - destruct (_instance w1) as [j|]; [|done]. injection Hd as <-.
    destruct (teardown_views j (teardown i w1)) as (_ & _ & _ & _ & _ & ED2).
    exists (fun x => Nat.eqb x i || Nat.eqb x j).
    split_and!; try done.
    + by rewrite Nat.eqb_refl.
    + intros l.
      rewrite (fo_document _ _ (set_flag_flags_only k false _)).
      rewrite with_instance_document, ED2, ED1, ED.
      rewrite !list_elem_of_filter, orb_false_iff, !Nat.eqb_neq. tauto.
    + intros x.
      rewrite (signals_same_global _ _
                 (fo_global _ _ (set_flag_flags_only k false _))).
      assert (forall w0, signals x (with_instance None w0) = signals x w0)
        as -> by done.
      rewrite !signals_teardown, ES.
      destruct (Nat.eqb_spec x i), (Nat.eqb_spec x j);
        repeat case_decide; subst; simpl; try done;
        by destruct (signals _ w).
  - injection Hd as <-.
    exists (fun x => Nat.eqb x i). split_and!; try done.
    + by rewrite Nat.eqb_refl.
    + intros l.
      rewrite (fo_document _ _ (set_flag_flags_only k false _)).
      rewrite ED1, ED.
      rewrite !list_elem_of_filter, !Nat.eqb_neq. tauto.
    + intros x.
      rewrite (signals_same_global _ _
                 (fo_global _ _ (set_flag_flags_only k false _))).
      rewrite !signals_teardown, ES.
      destruct (Nat.eqb_spec x i); repeat case_decide; subst; done.
Qed.

(** ** The invariant on signals and flags *)

Lemma mounted_listeners_owner m l :
  l ∈ mounted_listeners m -> dl_owner l = m.
Proof.
  unfold mounted_listeners. intros Hin.
  repeat (apply elem_of_cons in Hin as [->|Hin]; [done|]).
  by apply elem_of_nil in Hin.
Qed.

Lemma mounted_listeners_first m :
  {| dl_type := "mouseleave"; dl_owner := m;
     dl_callback := handleMouseMoved |} ∈ mounted_listeners m.
Proof. apply list_elem_of_here. Qed.

Lemma unmounted_mounted m i w :
  documentListeners w = mounted_listeners m -> unmounted i w <-> i <> m.
Proof.
  intros Hd. unfold unmounted. rewrite Hd. split.
  - intros H ->. by apply (H _ (mounted_listeners_first m)).
  - intros Hne l Hl. apply mounted_listeners_owner in Hl. congruence.
Qed.

Lemma signals_lookup_inv i s w :
  signals i w = Some s ->
  exists g, globalTrackers w !! i = Some g /\
            s = (isKeyPressed g, isMouseMoved g).
Proof.
  unfold signals. destruct (globalTrackers w !! i) as [g|]; [|done].
  intros [= <-]. eauto.
Qed.

Lemma new_KeyboardFocusTracker_flag_new f w :
  flag (length (keyboardFocusTrackers w)) (new_KeyboardFocusTracker f w).2
  = Some false.
Proof.
  destruct (new_KeyboardFocusTracker_keyboard f w) as [i E].
  unfold flag. rewrite E. by rewrite list_lookup_middle.
Qed.

Lemma Inv_values_initial : Inv_values initial.
Proof. constructor; intros; done. Qed.

Lemma Inv_values_same w w' :
  documentListeners w' = documentListeners w ->
  (forall i, signals i w' = signals i w) ->
  links w' = links w ->
  (forall k, flag k w' = flag k w) ->
  Inv_values w -> Inv_values w'.
Proof.
  intros Hd Hs Hl Hf [H1 H2]. constructor.
  - intros i s. rewrite Hs. unfold unmounted. rewrite Hd. apply H1.
  - intros m k f kp. rewrite Hd, Hs, Hl, Hf. apply H2.
Qed.

Lemma Inv_values_dispatch type w :
  Inv w -> Inv_values w -> Inv_values (document_dispatchEvent type w).
Proof.
  intros HI HV.
  destruct (inv_mounted _ HI) as [Hd|(m & Hd & _ & Hc)].
  { by rewrite dispatch_unmounted. }
  rewrite (dispatch_mounted _ m) by done.
  destruct (callback_for type) as [c|]; [|done].
  pose proof (run_callback_wiring m c w) as [EL _ _ _ _ ED].
  destruct HV as [H1 H2]. constructor.
  - intros i s Hs Hu. unfold unmounted in Hu. rewrite ED in Hu.
    rewrite signals_run_callback in Hs.
    pose proof (proj1 (unmounted_mounted m i w Hd) Hu).
    rewrite decide_False in Hs by done. eauto.
  - intros m' k f kp. rewrite ED, EL, Hd. intros Hm Hs Hl.
    assert (m' = m) as ->.
    { pose proof (mounted_listeners_first m') as Hin. rewrite <- Hm in Hin.
      by apply mounted_listeners_owner in Hin. }
    rewrite signals_run_callback, decide_True in Hs by done.
    destruct (signals m w) as [[kp0 mm0]|] eqn:Hs0; [|done].
    destruct c; simpl in Hs; try discriminate. injection Hs as <-.
    destruct mm0.
    + simpl. rewrite set_isMouseMoved_same by (by rewrite Hs0). eauto.
    + simpl. apply links_lookup_inv in Hl as (t & Ht & Hg & _).
      destruct (consumer_subscribed _ _ _ _ Hc Ht Hg)
        as (g & ft & Hgl & Hin & _).
      unfold signals in Hs0. rewrite Hgl in Hs0. injection Hs0 as _ Hmm.
      eapply mouse_moved_notification; [done..|].
      unfold flag. rewrite Ht. eauto.
Qed.

Lemma Inv_values_focus f el w :
  Inv_values w -> Inv_values (FocusTracker_focus f el w).
Proof.
  intros [H1 H2].
  pose proof (FocusTracker_focus_wiring f el w) as [EL _ _ _ _ ED].
  pose proof (signals_same_global _ _ (FocusTracker_focus_global f el w))
    as ES.
  constructor.
  - intros i s. rewrite ES. unfold unmounted. rewrite ED. apply H1.
  - intros m k f0 kp. rewrite ED, ES, EL. intros Hd Hs Hl.
    pose proof (H2 _ _ _ _ Hd Hs Hl) as Hflag.
    destruct (signals_lookup_inv _ _ _ Hs) as (g & Hg & [= -> Hmm]).
    destruct (FocusTracker_focus_flag_cases f el k m f0 g w Hl Hg)
      as [-> | ->]; [done|].
    by rewrite <- Hmm.
Qed.

Lemma Inv_values_timeout f w :
  Inv_values w -> Inv_values (FocusTracker_timeout f w).
Proof.
  intros [H1 H2].
  pose proof (FocusTracker_timeout_wiring f w) as [EL _ _ _ _ ED].
  pose proof (signals_same_global _ _ (FocusTracker_timeout_global f w))
    as ES.
  constructor.
  - intros i s. rewrite ES. unfold unmounted. rewrite ED. apply H1.
  - intros m k f0 kp. rewrite ED, ES, EL. intros Hd Hs Hl.
    pose proof (H2 _ _ _ _ Hd Hs Hl) as Hflag.
    destruct (signals_lookup_inv _ _ _ Hs) as (g & Hg & _).
    destruct (FocusTracker_timeout_flag_cases f k m f0 g w Hl Hg)
      as [-> | ->]; done.
Qed.

Lemma Inv_values_new_KeyboardFocusTracker f w :
  Inv w -> Inv_values w -> Inv_values (new_KeyboardFocusTracker f w).2.
Proof.
  intros HI [H1 H2].
  destruct (new_KeyboardFocusTracker_views f w)
    as (EL & _ & _ & _ & _ & ED).
  pose proof (fun j => new_KeyboardFocusTracker_values f j w) as ES.
  assert (length (links w) = length (keyboardFocusTrackers w)) as Hlen.
  { unfold links. by rewrite length_fmap. }
  destruct (_instance w) as [i0|] eqn:Hi.
  - rewrite app_nil_r in ED. constructor.
    + intros i s. rewrite ES. unfold unmounted. rewrite ED. apply H1.
    + intros m k f0 kp. rewrite ED, ES, EL. intros Hd Hs Hl.
      apply lookup_snoc_inv in Hl as [Hl|[-> _]].
      * rewrite new_KeyboardFocusTracker_flag; [eauto|].
        apply lookup_lt_Some in Hl. lia.
      * rewrite Hlen. apply new_KeyboardFocusTracker_flag_new.
  - assert (documentListeners w = []) as Hnil.
    { destruct (inv_mounted _ HI) as [?|(m & _ & ? & _)]; [done|congruence]. }
    rewrite Hnil in ED. simpl in ED. constructor.
    + intros i s. rewrite ES. case_decide; [by intros [= <-]|].
      intros Hs _. apply (H1 i s Hs). unfold unmounted. rewrite Hnil.
      intros l Hl. by apply elem_of_nil in Hl.
    + intros m k f0 kp. rewrite ED, ES. intros Hd Hs _.
      assert (m = length (globalSubscribers w)) as ->.
      { pose proof (mounted_listeners_first m) as Hin. rewrite <- Hd in Hin.
        by apply mounted_listeners_owner in Hin. }
      unfold globalSubscribers in Hs. rewrite length_fmap in Hs.
      by rewrite decide_True in Hs.
Qed.

Lemma Inv_values_destroy k w w' :
  Inv w -> Inv_values w -> KeyboardFocusTracker_destroy k w = Returns w' ->
  Inv_values w'.
Proof.
  intros HI [H1 H2] Hd.
  destruct (keyboardFocusTrackers w !! k) as [t|] eqn:Ht.
  2:{ unfold KeyboardFocusTracker_destroy in Hd. rewrite Ht in Hd.
      injection Hd as <-. by constructor. }
  destruct (KeyboardFocusTracker_destroy_values k t w w' HI Ht Hd)
    as (torn & _ & Hdoc & Hsig & EL & Hk & Hother).
  constructor.
  - intros i s. rewrite Hsig. destruct (torn i) eqn:Hti.
    + destruct (signals i w); simpl; [|done]. by intros [= <-].
    + intros Hs Hu. apply (H1 i s Hs). intros l Hl Hown.
      apply (Hu l); [|done]. apply Hdoc. by rewrite Hown.
  - intros m k0 f kp Hm Hs Hl.
    pose proof (mounted_listeners_first m) as Hin. rewrite <- Hm in Hin.
    apply Hdoc in Hin as [Hin Htm]. simpl in Htm.
    rewrite Hsig, Htm in Hs. rewrite EL in Hl.
    assert (documentListeners w = mounted_listeners m) as Hdw.
    { destruct (inv_mounted _ HI) as [E|(m0 & E & _)]; rewrite E in Hin.
      - by apply elem_of_nil in Hin.
      - apply mounted_listeners_owner in Hin. simpl in Hin. by subst. }
    destruct (decide (k0 = k)) as [->|Hne]; [done|].
    rewrite Hother by done. eauto.
Qed.

Lemma step_Inv_values e w w' :
  Inv w -> Inv_values w -> step e w = Returns w' -> Inv_values w'.
Proof.
  intros HI HV Hs.
  destruct e as [type|f el|f|f| |f|k]; cbn [step] in Hs.
  - injection Hs as <-. by apply Inv_values_dispatch.
  - injection Hs as <-. by apply Inv_values_focus.
  - injection Hs as <-. by apply (Inv_values_same w).
  - injection Hs as <-. by apply Inv_values_timeout.
  - assert (w' = (new_FocusTracker w).2) as -> by congruence.
    by apply (Inv_values_same w).
  - case_bool_decide.
    + assert (w' = (new_KeyboardFocusTracker f w).2) as -> by congruence.
      by apply Inv_values_new_KeyboardFocusTracker.
    + by injection Hs as <-.
  - by eapply Inv_values_destroy.
Qed.

Lemma run_Inv_values es w w' :
  Inv w -> Inv_values w -> run es w = Returns w' -> Inv_values w'.
Proof.
  revert w. induction es as [|e es IH]; intros w HI HV Hr; simpl in Hr.
  - by injection Hr as <-.
  - destruct (step_Inv e w HI) as (w1 & Hs & HI1). rewrite Hs in Hr.
    eapply IH; [done| |done]. exact (step_Inv_values e w w1 HI HV Hs).
Qed.

Lemma reachable_Inv_values w : reachable w -> Inv_values w.
Proof.
  intros [es Hes].
  eapply run_Inv_values; [apply Inv_initial|apply Inv_values_initial|done].
Qed.

(** ** A global tracker without listeners *)

Lemma run_callback_flag_other k m c w :
  (forall mm kp, globalSubscribers w !! m = Some (mm, kp) ->
                 (k ∉ mm) /\ (k ∉ kp)) ->
  flag k (run_callback m c w) = flag k w.
Proof.
  intros Hk.
  assert (forall w0, same_wiring w w0 ->
            forall g, globalTrackers w0 !! m = Some g ->
                      (k ∉ change_isMouseMoved g) /\
                      (k ∉ change_isKeyPressed g))
    as Hlists.
  { intros w0 [_ EG _ _ _ _] g Hg. apply (Hk _ _).
    rewrite <- EG. by apply globalSubscribers_lookup. }
  destruct c; simpl.
  - apply set_isMouseMoved_flag_other. intros g Hg.
    by destruct (Hlists w (same_wiring_refl w) g Hg).
  - rewrite set_isKeyPressed_flag_other.
    + apply set_isMouseMoved_flag_other. intros g Hg.
      by destruct (Hlists w (same_wiring_refl w) g Hg).
    + intros g Hg.
      by destruct (Hlists _ (set_isMouseMoved_wiring m false w) g Hg).
  - rewrite set_isMouseMoved_flag_other.
    + apply set_isKeyPressed_flag_other. intros g Hg.
      by destruct (Hlists w (same_wiring_refl w) g Hg).
    + intros g Hg.
      by destruct (Hlists _ (set_isKeyPressed_wiring m false w) g Hg).
Qed.

Lemma unmounted_step i e w w' :
  Inv w -> is_Some (signals i w) -> unmounted i w ->
  step e w = Returns w' ->
  unmounted i w' /\ is_Some (signals i w').
Proof.
  intros HI Hex Hu Hs.
  destruct e as [type|f el|f|f| |f|k]; cbn [step] in Hs.
  - injection Hs as <-. split.
    + unfold unmounted.
      by rewrite (sw_document _ _ (document_dispatchEvent_wiring type w)).
    + destruct (inv_mounted _ HI) as [Hd|(m & Hd & _)].
      * by rewrite dispatch_unmounted.
      * rewrite (dispatch_mounted _ m) by done.
        destruct (callback_for type) as [c|]; [|done].
        rewrite signals_run_callback. case_decide; [|done].
        destruct Hex as [s ->]. simpl. eauto.
  - injection Hs as <-. split.
    + unfold unmounted.
      by rewrite (sw_document _ _ (FocusTracker_focus_wiring f el w)).
    + by rewrite (signals_same_global _ _ (FocusTracker_focus_global f el w)).
  - by injection Hs as <-.
  - injection Hs as <-. split.
    + unfold unmounted.
      by rewrite (sw_document _ _ (FocusTracker_timeout_wiring f w)).
    + by rewrite (signals_same_global _ _ (FocusTracker_timeout_global f w)).
  - assert (w' = (new_FocusTracker w).2) as -> by congruence. done.
  - case_bool_decide; [|by injection Hs as <-].
    assert (w' = (new_KeyboardFocusTracker f w).2) as -> by congruence.
    destruct (new_KeyboardFocusTracker_views f w)
      as (_ & _ & _ & _ & _ & ED).
    assert (i < length (globalTrackers w)) as Hlt.
    { destruct Hex as [s Hs']. apply signals_lookup_inv in Hs' as (g & Hg & _).
      by apply lookup_lt_Some in Hg. }
    split.
    + intros l. rewrite ED, elem_of_app. intros [Hl|Hl]; [by apply Hu|].
      destruct (_instance w); [by apply elem_of_nil in Hl|].
      apply mounted_listeners_owner in Hl.
      unfold globalSubscribers in Hl. rewrite length_fmap in Hl. lia.
    + rewrite new_KeyboardFocusTracker_values.
      destruct (_instance w); [done|]. case_decide; [eauto|done].
  - destruct (keyboardFocusTrackers w !! k) as [t|] eqn:Ht.
    + destruct (KeyboardFocusTracker_destroy_values k t w w' HI Ht Hs)
        as (torn & _ & Hdoc & Hsig & _).
      split.
      * intros l Hl. apply Hdoc in Hl as [Hl _]. by apply Hu.
      * rewrite Hsig. destruct Hex as [s ->]. destruct (torn i); simpl; eauto.
    + unfold KeyboardFocusTracker_destroy in Hs. rewrite Ht in Hs.
      by injection Hs as <-.
Qed.

Lemma unmounted_flag_step i e k f w w' :
  Inv w -> Inv_values w -> is_Some (signals i w) -> unmounted i w ->
  step e w = Returns w' ->
  links w' !! k = Some (i, f) -> flag k w' = Some true ->
  links w !! k = Some (i, f) /\ flag k w = Some true.
Proof.
  intros HI HV [s Hsig] Hu Hs Hl Hflag.
  pose proof (inv_silent _ HV i s Hsig Hu) as ->.
  destruct (signals_lookup_inv _ _ _ Hsig) as (g & Hg & [= Hkp Hmm]).
  destruct e as [type|f0 el|f0|f0| |f0|k0]; cbn [step] in Hs.
  - injection Hs as <-.
    rewrite (sw_links _ _ (document_dispatchEvent_wiring type w)) in Hl.
    split; [done|].
    destruct (inv_mounted _ HI) as [Hd|(m & Hd & _)].
    { by rewrite dispatch_unmounted in Hflag. }
    rewrite (dispatch_mounted _ m) in Hflag by done.
    destruct (callback_for type) as [c|]; [|done].
    rewrite run_callback_flag_other in Hflag; [done|].
    intros mm kp Hm.
    assert (i <> m) by (by apply (unmounted_mounted m i w)).
    split; intros Hin;
      (destruct (inv_global _ HI m mm kp k Hm) as [f' Hf']; [tauto|]);
      congruence.
  - injection Hs as <-.
    rewrite (sw_links _ _ (FocusTracker_focus_wiring f0 el w)) in Hl.
    split; [done|].
    destruct (FocusTracker_focus_flag_cases f0 el k i f g w Hl Hg)
      as [E|E]; rewrite E in Hflag; [done|].
    rewrite <- Hkp, <- Hmm in Hflag. discriminate.
  - by injection Hs as <-.
  - injection Hs as <-.
    rewrite (sw_links _ _ (FocusTracker_timeout_wiring f0 w)) in Hl.
    split; [done|].
    destruct (FocusTracker_timeout_flag_cases f0 k i f g w Hl Hg)
      as [E|E]; rewrite E in Hflag; [done|discriminate].
  - assert (w' = (new_FocusTracker w).2) as -> by congruence. done.
  - case_bool_decide; [|by injection Hs as <-].
    assert (w' = (new_KeyboardFocusTracker f0 w).2) as -> by congruence.
    destruct (new_KeyboardFocusTracker_views f0 w) as (EL & _).
    rewrite EL in Hl.
    assert (length (links w) = length (keyboardFocusTrackers w)) as Hlen.
    { unfold links. by rewrite length_fmap. }
    apply lookup_snoc_inv in Hl as [Hl|[-> _]].
    + split; [done|]. rewrite new_KeyboardFocusTracker_flag in Hflag; [done|].
      apply lookup_lt_Some in Hl. lia.
    + rewrite Hlen, new_KeyboardFocusTracker_flag_new in Hflag. discriminate.
  - destruct (keyboardFocusTrackers w !! k0) as [t|] eqn:Ht.
    + destruct (KeyboardFocusTracker_destroy_values k0 t w w' HI Ht Hs)
        as (torn & _ & _ & _ & EL & Hk0 & Hother).
      rewrite EL in Hl. split; [done|].
      destruct (decide (k = k0)) as [->|Hne]; [congruence|].
      by rewrite <- Hother.
    + unfold KeyboardFocusTracker_destroy in Hs. rewrite Ht in Hs.
      by injection Hs as <-.
Qed.

Lemma unmounted_run i es w w' :
  Inv w -> Inv_values w -> is_Some (signals i w) -> unmounted i w ->
  run es w = Returns w' ->
  unmounted i w' /\ is_Some (signals i w') /\
  forall k f, links w' !! k = Some (i, f) -> flag k w' = Some true ->
              links w !! k = Some (i, f) /\ flag k w = Some true.
Proof.
  revert w. induction es as [|e es IH]; intros w HI HV Hex Hu Hr;
    simpl in Hr.
  - injection Hr as <-. eauto.
  - destruct (step_Inv e w HI) as (w1 & Hs & HI1). rewrite Hs in Hr.
    pose proof (step_Inv_values e w w1 HI HV Hs) as HV1.
    destruct (unmounted_step i e w w1 HI Hex Hu Hs) as [Hu1 Hex1].
    destruct (IH w1 HI1 HV1 Hex1 Hu1 Hr) as (Hu' & Hex' & Hflags).
    split_and!; try done. intros k f Hl Hflag.
    destruct (Hflags k f Hl Hflag) as [Hl1 Hflag1].
    by eapply unmounted_flag_step.
Qed.

(** ** Further properties of the shared tracker *)

(** X1. Whatever the environment does from the start, every call returns:
    events on the document, focus changes, timers, trackers made, trackers
    destroyed, also the same tracker destroyed more than once. In particular
    the non-null assertion on [_instance] in [destroy] never meets null, and
    two levels of call depth are enough. *)
Theorem X1_no_run_throws es : exists w, run es initial = Returns w.
Proof. destruct (run_Inv es initial Inv_initial) as (w & ? & _). eauto. Qed.

(** X2. [destroy] of the global tracker nests at most once, on any store.
    With the count at 1 it tears down the receiver, then the instance in the
    slot, clears the slot and leaves the count at -1, or throws if the slot is
    null. Otherwise it tears down the receiver only: the count goes down by
    one and the slot is kept. More call depth than two changes nothing. *)
Theorem X2_destroy_nests_once depth i w :
  2 <= depth ->
  match GlobalKeyboardMouseInteractionTracker_destroy depth i w with
  | Returns w' =>
      (_totalInstances w = 1%Z ->
       exists j, _instance w = Some j /\
                 w' = with_instance None (teardown j (teardown i w)) /\
                 _instance w' = None /\ _totalInstances w' = (-1)%Z) /\
      (_totalInstances w <> 1%Z ->
       w' = teardown i w /\ _instance w' = _instance w /\
       _totalInstances w' = (_totalInstances w - 1)%Z)
  | TypeError => _totalInstances w = 1%Z /\ _instance w = None
  | OutOfFuel => False
  end.
Proof.
  intros Hd. rewrite destroy_depth by done. unfold call_depth.
  rewrite destroy_outcome.
  destruct (teardown_views i w) as (_ & _ & _ & EI & ET & _).
  destruct (Z.eqb_spec (_totalInstances w) 1) as [E|E].
  - destruct (_instance w) as [j|] eqn:Hj; [|done].
    split; [|done]. intros _. exists j. split_and!; try done.
    destruct (teardown_views j (teardown i w)) as (_ & _ & _ & _ & ET' & _).
    rewrite with_instance_total, ET', ET. lia.
  - split; [done|]. intros _. by split_and!.
Qed.

Lemma X2_destroy_nests_once_witness :
  match GlobalKeyboardMouseInteractionTracker_destroy 3 0 key_held with
  | Returns w' =>
      (_totalInstances key_held = 1%Z ->
       exists j, _instance key_held = Some j /\
                 w' = with_instance None (teardown j (teardown 0 key_held)) /\
                 _instance w' = None /\ _totalInstances w' = (-1)%Z) /\
      (_totalInstances key_held <> 1%Z ->
       w' = teardown 0 key_held /\ _instance w' = _instance key_held /\
       _totalInstances w' = (_totalInstances key_held - 1)%Z)
  | TypeError => _totalInstances key_held = 1%Z /\ _instance key_held = None
  | OutOfFuel => False
  end.
Proof. apply (X2_destroy_nests_once 3 0 key_held). repeat constructor. Defined.

(** X3. In every store reached from the start the document carries either no
    listener of the trackers, or exactly the six listeners of one global
    tracker; that tracker is then the instance in the slot, and each of its
    consumers is subscribed to its two change events and to the change of its
    own focus tracker. *)
Theorem X3_one_set_of_listeners w :
  reachable w ->
  documentListeners w = [] \/
  exists m, documentListeners w = mounted_listeners m /\
            _instance w = Some m /\ consumers_subscribed m w.
Proof. intros Hr. apply inv_mounted. by apply reachable_Inv. Qed.

Lemma X3_one_set_of_listeners_witness :
  documentListeners key_held = [] \/
  exists m, documentListeners key_held = mounted_listeners m /\
            _instance key_held = Some m /\ consumers_subscribed m key_held.
Proof.
  apply (X3_one_set_of_listeners key_held).
  exists [NewFocusTracker; NewKeyboardFocusTracker 0;
          DocumentEvent "keydown"].
  reflexivity.
Defined.

(** X4. While the listening global tracker has isMouseMoved true, none of its
    consumers has isFocusedUsingKeyboard true: a true flag implies that the
    mouse has not moved since the last key event. *)
Theorem X4_moved_mouse_excludes_attribution k t w :
  reachable w ->
  keyboardFocusTrackers w !! k = Some t ->
  documentListeners w = mounted_listeners (_globalInteractionTracker t) ->
  mouseMoved (_globalInteractionTracker t) w = Some true ->
  flag k w = Some false.
Proof.
  intros Hr Ht Hd Hm. pose proof (reachable_Inv_values _ Hr) as HV.
  rewrite mouseMoved_signals in Hm.
  destruct (signals (_globalInteractionTracker t) w) as [[kp mm]|] eqn:Hs;
    [|done].
  injection Hm as ->.
  eapply (inv_moved _ HV); [done..|]. by apply links_lookup.
Qed.

Lemma X4_moved_mouse_excludes_attribution_witness :
  flag 0 mouse_moved_after_focus = Some false.
Proof.
  apply (X4_moved_mouse_excludes_attribution 0
           {| isFocusedUsingKeyboard := false; _globalInteractionTracker := 0;
              focusTracker := 0 |} mouse_moved_after_focus).
  - exists [NewFocusTracker; NewKeyboardFocusTracker 0;
            DocumentEvent "keydown"; ElementFocus 0 7;
            DocumentEvent "mouseenter"].
    reflexivity.
  - reflexivity.
  - reflexivity.
  - reflexivity.
Defined.

(** X5. For a tracker whose global tracker is listening, each of mouseleave,
    pointerleave, mouseenter and pointerenter leaves the flag false, whether
    or not the signal changes with the event. *)
Theorem X5_mouse_event_leaves_flag_false type k t w :
  reachable w ->
  keyboardFocusTrackers w !! k = Some t ->
  documentListeners w = mounted_listeners (_globalInteractionTracker t) ->
  type ∈ mouse_events ->
  flag k (document_dispatchEvent type w) = Some false.
Proof.
  intros Hr Ht Hd Htype.
  assert (reachable (document_dispatchEvent type w)) as Hr'.
  { by apply (reachable_run [DocumentEvent type] w). }
  pose proof (reachable_Inv_values _ Hr') as HV.
  pose proof (reachable_Inv _ Hr) as HI.
  pose proof (document_dispatchEvent_wiring type w) as [EL _ _ _ _ ED].
  destruct (inv_links _ HI _ _ _ (links_lookup _ _ _ Ht))
    as [[[mm kp] Hg] _].
  apply globalSubscribers_lookup_inv in Hg as (g & Hg & _).
  set (m := _globalInteractionTracker t) in *.
  assert (callback_for type = Some handleMouseMoved) as Hc.
  { unfold mouse_events in Htype.
    repeat (apply elem_of_cons in Htype as [->|Htype]; [done|]).
    by apply elem_of_nil in Htype. }
  eapply (inv_moved _ HV m k (focusTracker t) (isKeyPressed g)).
  - by rewrite ED.
  - rewrite (dispatch_mounted _ m), Hc by done.
    rewrite signals_run_callback, decide_True by done.
    unfold signals. by rewrite Hg.
  - rewrite EL. by apply links_lookup.
Qed.

Lemma X5_mouse_event_leaves_flag_false_witness :
  flag 0 (document_dispatchEvent "mouseleave" mouse_moved_after_focus)
  = Some false.
Proof.
  apply (X5_mouse_event_leaves_flag_false "mouseleave" 0
           {| isFocusedUsingKeyboard := false; _globalInteractionTracker := 0;
              focusTracker := 0 |} mouse_moved_after_focus).
  - exists [NewFocusTracker; NewKeyboardFocusTracker 0;
            DocumentEvent "keydown"; ElementFocus 0 7;
            DocumentEvent "mouseenter"].
    reflexivity.
  - reflexivity.
  - reflexivity.
  - apply list_elem_of_here.
Defined.

Lemma run_callback_twice m c w :
  run_callback m c (run_callback m c w) = run_callback m c w.
Proof.
  pose proof (signals_run_callback m c m w) as Hs.
  rewrite decide_True in Hs by done.
  destruct (signals m w) as [[kp mm]|] eqn:Hs0.
  - set (w1 := run_callback m c w) in *. simpl in Hs.
    destruct c; simpl.
    + apply set_isMouseMoved_same. by rewrite Hs.
    + rewrite (set_isMouseMoved_same m false w1) by (by rewrite Hs).
      apply set_isKeyPressed_same. by rewrite Hs.
    + rewrite (set_isKeyPressed_same m false w1) by (by rewrite Hs).
      apply set_isMouseMoved_same. by rewrite Hs.
  - assert (globalTrackers w !! m = None) as Hn.
    { unfold signals in Hs0. by destruct (globalTrackers w !! m). }
    assert (forall v, set_isMouseMoved m v w = w) as Hmm.
    { intros v. unfold set_isMouseMoved. by rewrite Hn. }
    assert (forall v, set_isKeyPressed m v w = w) as Hkp.
    { intros v. unfold set_isKeyPressed. by rewrite Hn. }
    destruct c; simpl; by rewrite ?Hmm, ?Hkp, ?Hmm, ?Hkp.
Qed.

(** X6. A document event delivered twice in a row does what it does once:
    the second delivery assigns the values the signals already have, nobody
    is notified, and the store is the same. So the repeated keydown of a held
    key changes nothing. *)
Theorem X6_document_event_idempotent type w :
  reachable w ->
  document_dispatchEvent type (document_dispatchEvent type w)
  = document_dispatchEvent type w.
Proof.
  intros Hr. pose proof (reachable_Inv _ Hr) as HI.
  destruct (inv_mounted _ HI) as [Hd|(m & Hd & _)].
  { by rewrite !dispatch_unmounted by (by rewrite ?dispatch_unmounted). }
  pose proof (document_dispatchEvent_wiring type w) as [_ _ _ _ _ ED].
  rewrite (dispatch_mounted type m (document_dispatchEvent type w))
    by congruence.
  rewrite (dispatch_mounted type m w) by done.
  destruct (callback_for type) as [c|]; [|done].
  apply run_callback_twice.
Qed.

Lemma X6_document_event_idempotent_witness :
  document_dispatchEvent "keydown"
    (document_dispatchEvent "keydown" focused_without_key)
  = document_dispatchEvent "keydown" focused_without_key.
Proof.
  apply (X6_document_event_idempotent "keydown" focused_without_key).
  exists [NewFocusTracker; NewKeyboardFocusTracker 0; ElementFocus 0 7].
  reflexivity.
Defined.

(** X7. A global tracker that has no listener on the document never gets one
    again, whatever happens later: its signals stay false, and the only
    consumers of it that can have a true flag are those that had it already
    (no flag of a consumer of it ever turns true, and a consumer made on it
    later never gets a true flag). Listeners are mounted by the constructor
    only, and only for a new instance. *)
Theorem X7_unmounted_tracker_stays_silent i es w w' :
  reachable w ->
  is_Some (globalTrackers w !! i) ->
  unmounted i w ->
  run es w = Returns w' ->
  unmounted i w' /\
  signals i w' = Some (false, false) /\
  forall k f, links w' !! k = Some (i, f) -> flag k w' = Some true ->
              flag k w = Some true.
Proof.
  intros Hr [g Hg] Hu Hrun.
  pose proof (reachable_Inv _ Hr) as HI.
  pose proof (reachable_Inv_values _ Hr) as HV.
  assert (is_Some (signals i w)) as Hex.
  { unfold signals. rewrite Hg. eauto. }
  destruct (unmounted_run i es w w' HI HV Hex Hu Hrun)
    as (Hu' & [s Hs] & Hflags).
  split_and!; [done| |].
  - pose proof (reachable_Inv_values _ (reachable_run _ _ _ Hr Hrun)) as HV'.
    by rewrite (inv_silent _ HV' i s Hs Hu') in Hs.
  - intros k f Hl Hflag. by destruct (Hflags k f Hl Hflag).
Qed.

Lemma X7_unmounted_tracker_stays_silent_witness :
  unmounted 1 after_deaf_keydown /\
  signals 1 after_deaf_keydown = Some (false, false) /\
  forall k f, links after_deaf_keydown !! k = Some (1, f) ->
              flag k after_deaf_keydown = Some true ->
              flag k second_cycle = Some true.
Proof.
  apply (X7_unmounted_tracker_stays_silent 1
           [NewKeyboardFocusTracker 0; DocumentEvent "keydown";
            ElementFocus 0 7] second_cycle after_deaf_keydown).
  - exists [NewFocusTracker; NewKeyboardFocusTracker 0; Destroy 0;
            NewKeyboardFocusTracker 0; Destroy 1].
    reflexivity.
  - vm_compute. eauto.
  - intros l Hl. vm_compute in Hl. by apply elem_of_nil in Hl.
  - reflexivity.
Defined.

(** X8. Destroying a consumer tears down its global tracker, whether or not
    other consumers are attached to it: no listener of that tracker is left
    on the document and both its signals are false. The flags of the other
    trackers are not touched by the call. *)
Theorem X8_destroy_tears_down_shared_tracker k t w :
  reachable w ->
  keyboardFocusTrackers w !! k = Some t ->
  exists w',
    KeyboardFocusTracker_destroy k w = Returns w' /\
    unmounted (_globalInteractionTracker t) w' /\
    signals (_globalInteractionTracker t) w' = Some (false, false) /\
    links w' = links w /\
    forall k', k' <> k -> flag k' w' = flag k' w.
Proof.
  intros Hr Ht. pose proof (reachable_Inv _ Hr) as HI.
  destruct (KeyboardFocusTracker_destroy_spec k t w HI Ht)
    as (w' & E & _).
  destruct (KeyboardFocusTracker_destroy_values k t w w' HI Ht E)
    as (torn & Htorn & Hdoc & Hsig & EL & _ & Hother).
  exists w'. split_and!; try done.
  - intros l Hl Hown. apply Hdoc in Hl as [_ Hl]. congruence.
  - rewrite Hsig, Htorn.
    destruct (inv_links _ HI _ _ _ (links_lookup _ _ _ Ht))
      as [[[mm kp] Hg] _].
    apply globalSubscribers_lookup_inv in Hg as (g & Hg & _).
    unfold signals. by rewrite Hg.
Qed.

Lemma X8_destroy_tears_down_shared_tracker_witness :
  exists w',
    KeyboardFocusTracker_destroy 0 two_consumers_focused = Returns w' /\
    unmounted 0 w' /\ signals 0 w' = Some (false, false) /\
    links w' = links two_consumers_focused /\
    forall k', k' <> 0 -> flag k' w' = flag k' two_consumers_focused.
Proof.
  apply (X8_destroy_tears_down_shared_tracker 0
           {| isFocusedUsingKeyboard := true; _globalInteractionTracker := 0;
              focusTracker := 0 |} two_consumers_focused).
  - exists [NewFocusTracker; NewKeyboardFocusTracker 0;
            NewKeyboardFocusTracker 0; DocumentEvent "keydown";
            ElementFocus 0 7].
    reflexivity.
  - reflexivity.
Defined.

(** X9. Constructing a consumer notifies nobody: the new tracker starts with
    its flag false (also when a key is held and its focus tracker is
    focused), no existing flag, signal or focus tracker state changes, and
    the count goes up by one. With an instance in the slot the new tracker is
    attached to it and the document is left alone, whether or not that
    instance still has its listeners; with an empty slot a new global tracker
    is made, with both signals false, and its six listeners are added to the
    document. *)
Theorem X9_construction_frame f w :
  let k := length (keyboardFocusTrackers w) in
  let w' := (new_KeyboardFocusTracker f w).2 in
  (new_KeyboardFocusTracker f w).1 = k /\
  flag k w' = Some false /\
  (forall k', k' < k -> flag k' w' = flag k' w) /\
  (forall j, j < length (globalTrackers w) -> signals j w' = signals j w) /\
  focus_state <$> focusTrackers w' = focus_state <$> focusTrackers w /\
  _totalInstances w' = (_totalInstances w + 1)%Z /\
  match _instance w with
  | Some i =>
      links w' !! k = Some (i, f) /\ _instance w' = Some i /\
      documentListeners w' = documentListeners w
  | None =>
      let i := length (globalTrackers w) in
      links w' !! k = Some (i, f) /\ _instance w' = Some i /\
      documentListeners w' = documentListeners w ++ mounted_listeners i /\
      signals i w' = Some (false, false)
  end.
Proof.
  intros k w'.
  destruct (new_KeyboardFocusTracker_views f w)
    as (EL & _ & _ & EI & ET & ED).
  pose proof (fun j => new_KeyboardFocusTracker_values f j w) as ES.
  assert (length (links w) = k) as Hlen.
  { unfold links. by rewrite length_fmap. }
  assert (length (globalSubscribers w) = length (globalTrackers w)) as HlenG.
  { unfold globalSubscribers. by rewrite length_fmap. }
  fold w' in EL, EI, ET, ED, ES. split_and!.
  - unfold new_KeyboardFocusTracker.
    by destruct (new_GlobalKeyboardMouseInteractionTracker w).
  - apply new_KeyboardFocusTracker_flag_new.
  - intros k' Hk'. by apply new_KeyboardFocusTracker_flag.
  - intros j Hj. rewrite ES. destruct (_instance w); [done|].
    rewrite decide_False; [done|lia].
  - unfold w', new_KeyboardFocusTracker,
      new_GlobalKeyboardMouseInteractionTracker, on_change_focusedElement.
    fields. destruct (_instance w); fields; by apply alter_fmap_fixed.
  - done.
  - destruct (_instance w) as [i|].
    + rewrite app_nil_r in ED. split_and!; try done.
      rewrite EL, <- Hlen. by apply list_lookup_middle.
    + rewrite HlenG in *. split_and!; try done.
      * rewrite EL, <- Hlen. by apply list_lookup_middle.
      * rewrite ES. by rewrite decide_True.
Qed.

(** * Proofs for the per-instance generation *)

Section PerInstanceFacts.
Import PerInstance.

Lemma pi_update_keyboard_lookup k h j w :
  keyboardFocusTrackers (update_keyboard k h w) !! j =
  (if decide (j = k) then h else fun t => t) <$> keyboardFocusTrackers w !! j.
Proof.
  unfold update_keyboard. cbn.
  destruct (decide (j = k)) as [->|Hne].
  - by rewrite list_lookup_alter_eq.
  - rewrite list_lookup_alter_ne by done. by destruct (_ !! j).
Qed.

Lemma pi_update_focus_lookup f h j w :
  focusTrackers (update_focus f h w) !! j =
  (if decide (j = f) then h else fun t => t) <$> focusTrackers w !! j.
Proof.
  unfold update_focus. cbn.
  destruct (decide (j = f)) as [->|Hne].
  - by rewrite list_lookup_alter_eq.
  - rewrite list_lookup_alter_ne by done. by destruct (_ !! j).
Qed.

(** The focus callback writes the flag of its own tracker, from the
    tracker's own [isKeyPressed]. *)
Lemma pi_watchFocusTracker_lookup k el j w :
  keyboardFocusTrackers (_watchFocusTracker k el w) !! j =
  (fun t => if decide (j = k)
            then {| isFocusedUsingKeyboard := truthy el && isKeyPressed t;
                    isKeyPressed := isKeyPressed t;
                    focusTracker := focusTracker t |}
            else t) <$> keyboardFocusTrackers w !! j.
Proof.
  unfold _watchFocusTracker.
  destruct (keyboardFocusTrackers w !! k) as [t|] eqn:E.
  - unfold set_isFocusedUsingKeyboard. rewrite pi_update_keyboard_lookup.
    destruct (decide (j = k)) as [->|]; [|by destruct (_ !! j)].
    by rewrite E.
  - destruct (decide (j = k)) as [->|].
    + by rewrite E.
    + by destruct (_ !! j).
Qed.

Lemma pi_watchFocusTracker_rest k el w :
  focusTrackers (_watchFocusTracker k el w) = focusTrackers w /\
  documentListeners (_watchFocusTracker k el w) = documentListeners w /\
  timeouts (_watchFocusTracker k el w) = timeouts w.
Proof. unfold _watchFocusTracker. by destruct (_ !! k). Qed.

Lemma pi_fire_cons k att el w :
  fire (k :: att) el w = fire att el (_watchFocusTracker k el w).
Proof. done. Qed.

Lemma pi_fire_rest att el w :
  focusTrackers (fire att el w) = focusTrackers w /\
  documentListeners (fire att el w) = documentListeners w /\
  timeouts (fire att el w) = timeouts w.
Proof.
  revert w. induction att as [|k att IH]; intros w; [done|].
  rewrite pi_fire_cons.
  destruct (IH (_watchFocusTracker k el w)) as (-> & -> & ->).
  apply pi_watchFocusTracker_rest.
Qed.

(** A notification writes the flag of every attached tracker by the rule,
    each from its own [isKeyPressed], and of no other. *)
Lemma pi_fire_lookup att el j w :
  keyboardFocusTrackers (fire att el w) !! j =
  (fun t => if decide (j ∈ att)
            then {| isFocusedUsingKeyboard := truthy el && isKeyPressed t;
                    isKeyPressed := isKeyPressed t;
                    focusTracker := focusTracker t |}
            else t) <$> keyboardFocusTrackers w !! j.
Proof.
  revert w. induction att as [|k att IH]; intros w.
  - cbn. destruct (_ !! j); cbn; [|done]. by rewrite decide_False by apply not_elem_of_nil.
  - rewrite pi_fire_cons, IH, pi_watchFocusTracker_lookup.
    destruct (keyboardFocusTrackers w !! j) as [t|]; cbn; [|done]. f_equal.
    destruct (decide (j = k)) as [->|Hne].
    + rewrite (decide_True (P := k ∈ k :: att)) by apply list_elem_of_here.
      by destruct (decide (k ∈ att)).
    + destruct (decide (j ∈ att)) as [Hin|Hout].
      * by rewrite decide_True by by apply list_elem_of_further.
      * rewrite decide_False; [done|].
        intros [?|?]%elem_of_cons; done.
Qed.

Lemma pi_set_focusedElement_changed f ft v w :
  focusTrackers w !! f = Some ft -> focusedElement ft <> v ->
  set_focusedElement f v w =
  fire (change_focusedElement ft) v (update_focus f (put_focusedElement v) w).
Proof.
  intros E Hne. unfold set_focusedElement. rewrite E.
  by rewrite bool_decide_false.
Qed.

Lemma pi_set_focusedElement_same f ft w :
  focusTrackers w !! f = Some ft ->
  set_focusedElement f (focusedElement ft) w = w.
Proof.
  intros E. unfold set_focusedElement. rewrite E.
  by rewrite bool_decide_true.
Qed.

Lemma pi_run_callback_lookup k c j w :
  keyboardFocusTrackers (run_callback k c w) !! j =
  (fun t => if decide (j = k)
            then {| isFocusedUsingKeyboard := isFocusedUsingKeyboard t;
                    isKeyPressed :=
                      match c with onKeyDown => true | onKeyUp => false end;
                    focusTracker := focusTracker t |}
            else t) <$> keyboardFocusTrackers w !! j.
Proof.
  destruct c; cbn [run_callback setTimeout with_timeouts keyboardFocusTrackers];
    unfold set_isKeyPressed; rewrite pi_update_keyboard_lookup;
    by destruct (decide (j = k)).
Qed.

Lemma pi_run_callback_rest k c w :
  focusTrackers (run_callback k c w) = focusTrackers w /\
  documentListeners (run_callback k c w) = documentListeners w /\
  timeouts (run_callback k c w) =
    timeouts w ++ match c with onKeyDown => [k] | onKeyUp => [] end.
Proof. destruct c; cbn; by rewrite ?app_nil_r. Qed.

Lemma pi_keyPressed_after_cons l ls type k b :
  keyPressed_after (l :: ls) type k b =
  keyPressed_after ls type k
    (if String.eqb (dl_type l) type && bool_decide (dl_owner l = k)
     then match dl_callback l with onKeyDown => true | onKeyUp => false end
     else b).
Proof. done. Qed.

(** A dispatch over any list of listeners, tracker by tracker. *)
Lemma pi_dispatch_fold type ls w :
  let w' :=
    fold_left
      (fun w l =>
         if String.eqb (dl_type l) type
         then run_callback (dl_owner l) (dl_callback l) w
         else w) ls w in
  (forall j, keyboardFocusTrackers w' !! j =
     (fun t => {| isFocusedUsingKeyboard := isFocusedUsingKeyboard t;
                  isKeyPressed := keyPressed_after ls type j (isKeyPressed t);
                  focusTracker := focusTracker t |})
       <$> keyboardFocusTrackers w !! j) /\
  focusTrackers w' = focusTrackers w /\
  documentListeners w' = documentListeners w /\
  timeouts w' = timeouts w ++ scheduled ls type.
Proof.
  revert w. induction ls as [|l ls IH]; intros w; cbn zeta.
  - split_and!; try done; [|by rewrite app_nil_r].
    intros j. cbn. by destruct (_ !! j) as [[]|].
  - cbn [fold_left scheduled].
    destruct (String.eqb (dl_type l) type) eqn:Et.
    + destruct (IH (run_callback (dl_owner l) (dl_callback l) w))
        as (Hk & -> & -> & ->).
      destruct (pi_run_callback_rest (dl_owner l) (dl_callback l) w)
        as (-> & -> & ->).
      split_and!; try done.
      * intros j. rewrite Hk, pi_run_callback_lookup.
        destruct (keyboardFocusTrackers w !! j) as [t|]; [|done].
        cbn [fmap option_fmap option_map]. f_equal.
        rewrite pi_keyPressed_after_cons, Et. cbn [andb].
        destruct (decide (j = dl_owner l)) as [->|Hne].
        -- by rewrite bool_decide_true.
        -- by rewrite bool_decide_false.
      * rewrite <- (assoc_L (++)). by destruct (dl_callback l).
    + destruct (IH w) as (Hk & -> & -> & ->).
      split_and!; try done.
      intros j. rewrite Hk.
      destruct (keyboardFocusTrackers w !! j) as [t|]; [|done].
      cbn [fmap option_fmap option_map].
      by rewrite pi_keyPressed_after_cons, Et.
Qed.

Lemma pi_keyPressed_after_silent ls type k b :
  (forall l, l ∈ ls -> dl_owner l = k -> dl_type l <> type) ->
  keyPressed_after ls type k b = b.
Proof.
  revert b. induction ls as [|l ls IH]; intros b H; [done|].
  rewrite pi_keyPressed_after_cons.
  rewrite IH by (intros l' Hl'; apply H; by apply list_elem_of_further).
  destruct (String.eqb_spec (dl_type l) type) as [Et|]; [|done].
  rewrite bool_decide_false; [done|].
  intros Ho. by apply (H l (list_elem_of_here _ _)).
Qed.

Lemma pi_keyPressed_after_fixed ls type k v :
  (forall l, l ∈ ls -> dl_type l = type ->
     match dl_callback l with onKeyDown => true | onKeyUp => false end = v) ->
  keyPressed_after ls type k v = v.
Proof.
  induction ls as [|l ls IH]; intros Hv; [done|].
  rewrite pi_keyPressed_after_cons.
  assert (Hv' : forall l, l ∈ ls -> dl_type l = type ->
     match dl_callback l with onKeyDown => true | onKeyUp => false end = v).
  { intros l' Hl'. apply Hv. by apply list_elem_of_further. }
  destruct (String.eqb_spec (dl_type l) type) as [Et|]; [|by apply IH].
  destruct (bool_decide (dl_owner l = k)); cbn [andb]; [|by apply IH].
  rewrite (Hv l (list_elem_of_here _ _) Et). by apply IH.
Qed.

Lemma pi_keyPressed_after_heard ls type k b v :
  (forall l, l ∈ ls -> dl_type l = type ->
     match dl_callback l with onKeyDown => true | onKeyUp => false end = v) ->
  (exists l, l ∈ ls /\ dl_owner l = k /\ dl_type l = type) ->
  keyPressed_after ls type k b = v.
Proof.
  revert b. induction ls as [|l ls IH]; intros b Hv (l0 & Hin & Ho & Ht).
  { by apply elem_of_nil in Hin. }
  rewrite pi_keyPressed_after_cons.
  assert (Hv' : forall l, l ∈ ls -> dl_type l = type ->
     match dl_callback l with onKeyDown => true | onKeyUp => false end = v).
  { intros l' Hl'. apply Hv. by apply list_elem_of_further. }
  apply elem_of_cons in Hin as [->|Hin]; [|apply IH; eauto].
  rewrite Ht, String.eqb_refl, bool_decide_true by done. cbn [andb].
  rewrite (Hv l (list_elem_of_here _ _) Ht).
  by apply pi_keyPressed_after_fixed.
Qed.

Lemma pi_scheduled_elem ls type k :
  k ∈ scheduled ls type <->
  exists l, l ∈ ls /\ dl_owner l = k /\ dl_type l = type /\
            dl_callback l = onKeyDown.
Proof.
  induction ls as [|l ls IH]; cbn [scheduled].
  - split; [by intros ?%elem_of_nil|]. by intros (? & ?%elem_of_nil & _).
  - assert (Hup : (exists l', l' ∈ ls /\ dl_owner l' = k /\ dl_type l' = type /\
                      dl_callback l' = onKeyDown) ->
              exists l', l' ∈ l :: ls /\ dl_owner l' = k /\ dl_type l' = type /\
                      dl_callback l' = onKeyDown).
    { intros (l' & ? & ?). exists l'. split; [by apply list_elem_of_further|done]. }
    destruct (String.eqb_spec (dl_type l) type) as [Et|Et];
      [destruct (dl_callback l) eqn:Ec|].
    + rewrite elem_of_cons, IH. split.
      * intros [->|H]; [|by apply Hup].
        exists l. split_and!; try done. apply list_elem_of_here.
      * intros (l' & [->|Hin]%elem_of_cons & Ho & Hr); [by left|].
        right. by exists l'.
    + rewrite IH. split; [done|].
      intros (l' & [->|Hin]%elem_of_cons & Ho & Ht & Hc); [congruence|].
      by exists l'.
    + rewrite IH. split; [done|].
      intros (l' & [->|Hin]%elem_of_cons & Ho & Ht & Hc); [congruence|].
      by exists l'.
Qed.

Lemma pi_deferred_update_lookup k j w :
  keyboardFocusTrackers (deferred_update k w) !! j =
  (fun t => if decide (j = k)
            then match focusTrackers w !! focusTracker t with
                 | Some f =>
                     {| isFocusedUsingKeyboard := isFocused f;
                        isKeyPressed := isKeyPressed t;
                        focusTracker := focusTracker t |}
                 | None => t
                 end
            else t) <$> keyboardFocusTrackers w !! j.
Proof.
  unfold deferred_update.
  destruct (keyboardFocusTrackers w !! k) as [t|] eqn:E.
  - destruct (focusTrackers w !! focusTracker t) as [f|] eqn:Ef.
    + unfold set_isFocusedUsingKeyboard. rewrite pi_update_keyboard_lookup.
      destruct (decide (j = k)) as [->|]; [|by destruct (_ !! j)].
      rewrite E. cbn. by rewrite Ef.
    + destruct (decide (j = k)) as [->|]; [|by destruct (_ !! j)].
      rewrite E. cbn. by rewrite Ef.
  - destruct (decide (j = k)) as [->|]; [|by destruct (_ !! j)].
    by rewrite E.
Qed.

Lemma pi_deferred_update_rest k w :
  focusTrackers (deferred_update k w) = focusTrackers w /\
  documentListeners (deferred_update k w) = documentListeners w /\
  timeouts (deferred_update k w) = timeouts w.
Proof.
  unfold deferred_update. destruct (_ !! k) as [t|]; [|done].
  by destruct (_ !! focusTracker t).
Qed.

(** Running all the callbacks held by [setTimeout]: the queue is empty
    afterwards, and every tracker that had a callback in it mirrors
    [isFocused] of its focus tracker. *)
Lemma pi_run_timeouts ts w :
  timeouts w = ts ->
  let w' := run_timeouts (length ts) w in
  timeouts w' = [] /\
  focusTrackers w' = focusTrackers w /\
  documentListeners w' = documentListeners w /\
  forall j, keyboardFocusTrackers w' !! j =
    (fun t => if decide (j ∈ ts)
              then match focusTrackers w !! focusTracker t with
                   | Some f =>
                       {| isFocusedUsingKeyboard := isFocused f;
                          isKeyPressed := isKeyPressed t;
                          focusTracker := focusTracker t |}
                   | None => t
                   end
              else t) <$> keyboardFocusTrackers w !! j.
Proof.
  revert w. induction ts as [|k ts IH]; intros w Ets; cbn zeta.
  - split_and!; try done. intros j. cbn. by destruct (_ !! j).
  - cbn [length run_timeouts].
    assert (E1 : run_timeout w = deferred_update k (with_timeouts ts w))
      by (unfold run_timeout; by rewrite Ets).
    rewrite E1. set (w1 := deferred_update k (with_timeouts ts w)).
    destruct (pi_deferred_update_rest k (with_timeouts ts w))
      as (Hf & Hd & Ht). fold w1 in Hf, Hd, Ht. cbn in Hf, Hd, Ht.
    destruct (IH w1 Ht) as (-> & -> & -> & Hk).
    split_and!; try done.
    intros j. rewrite Hk.
    pose proof (pi_deferred_update_lookup k j (with_timeouts ts w)) as Ek.
    fold w1 in Ek. rewrite Ek.
    cbn [with_timeouts keyboardFocusTrackers focusTrackers].
    destruct (keyboardFocusTrackers w !! j) as [t|]; [|done].
    cbn [fmap option_fmap option_map]. f_equal. rewrite Hf.
    destruct (decide (j = k)) as [->|Hne].
    + rewrite (decide_True (P := k ∈ k :: ts)) by apply list_elem_of_here.
      destruct (focusTrackers w !! focusTracker t) as [f|] eqn:Ef;
        cbn [focusTracker]; rewrite ?Ef; by destruct (decide (k ∈ ts)).
    + destruct (decide (j ∈ ts)) as [Hin|Hout].
      * by rewrite decide_True by by apply list_elem_of_further.
      * rewrite decide_False; [done|]. by intros [?|?]%elem_of_cons.
Qed.

Lemma pi_destroy_spec k t w :
  keyboardFocusTrackers w !! k = Some t ->
  (forall j, keyboardFocusTrackers (destroy k w) !! j =
     if decide (j = k)
     then Some {| isFocusedUsingKeyboard := false; isKeyPressed := false;
                  focusTracker := focusTracker t |}
     else keyboardFocusTrackers w !! j) /\
  documentListeners (destroy k w) =
    filter (fun l => dl_owner l <> k) (documentListeners w) /\
  timeouts (destroy k w) = timeouts w /\
  forall f, focusTrackers (destroy k w) !! f =
    (fun ft => if decide (f = focusTracker t)
       then {| focusedElement := focusedElement ft; isFocused := isFocused ft;
               _nextEventLoopTimeout := _nextEventLoopTimeout ft;
               change_focusedElement :=
                 filter (fun k' => k' <> k) (change_focusedElement ft) |}
       else ft) <$> focusTrackers w !! f.
Proof.
  intros E. unfold destroy. rewrite E. split_and!; try done.
  - intros j.
    cbn [_domEmitter_stopListening with_documentListeners
         keyboardFocusTrackers off_change_focusedElement update_focus
         with_focusTrackers].
    unfold set_isKeyPressed, set_isFocusedUsingKeyboard.
    rewrite !pi_update_keyboard_lookup.
    destruct (decide (j = k)) as [->|]; [by rewrite E|].
    by destruct (_ !! j).
  - intros f.
    cbn [_domEmitter_stopListening with_documentListeners focusTrackers].
    unfold off_change_focusedElement. rewrite pi_update_focus_lookup.
    cbn. by destruct (decide (f = focusTracker t)).
Qed.

Lemma pi_destroy_missing k w :
  keyboardFocusTrackers w !! k = None -> destroy k w = w.
Proof. intros E. unfold destroy. by rewrite E. Qed.

Lemma pi_new_KeyboardFocusTracker_spec f w :
  let k := length (keyboardFocusTrackers w) in
  (new_KeyboardFocusTracker f w).1 = k /\
  keyboardFocusTrackers (new_KeyboardFocusTracker f w).2 =
    keyboardFocusTrackers w ++
    [{| isFocusedUsingKeyboard := false; isKeyPressed := false;
        focusTracker := f |}] /\
  documentListeners (new_KeyboardFocusTracker f w).2 =
    documentListeners w ++
    [{| dl_type := "keydown"; dl_owner := k; dl_callback := onKeyDown |};
     {| dl_type := "keyup"; dl_owner := k; dl_callback := onKeyUp |}] /\
  timeouts (new_KeyboardFocusTracker f w).2 = timeouts w /\
  forall j, focusTrackers (new_KeyboardFocusTracker f w).2 !! j =
    (fun ft => if decide (j = f)
       then {| focusedElement := focusedElement ft; isFocused := isFocused ft;
               _nextEventLoopTimeout := _nextEventLoopTimeout ft;
               change_focusedElement := change_focusedElement ft ++ [k] |}
       else ft) <$> focusTrackers w !! j.
Proof.
  cbn zeta. split_and!; try done.
  - cbn. by rewrite <- (assoc_L (++)).
  - intros j. cbn [new_KeyboardFocusTracker snd _watchWindowKeyPress
      _domEmitter_listenTo with_documentListeners focusTrackers].
    unfold on_change_focusedElement. rewrite pi_update_focus_lookup.
    cbn. by destruct (decide (j = f)).
Qed.

Lemma pi_keeps_refl w : keeps_objects w w.
Proof. split_and!; eauto. Qed.

Lemma pi_keeps_trans w1 w2 w3 :
  keeps_objects w1 w2 -> keeps_objects w2 w3 -> keeps_objects w1 w3.
Proof.
  intros (A1 & B1 & C1 & D1) (A2 & B2 & C2 & D2). split_and!; eauto.
  - intros j t3 H3. destruct (A2 _ _ H3) as (t2 & H2 & E2).
    destruct (A1 _ _ H2) as (t1 & H1 & E1). exists t1. split; congruence.
  - intros f ft3 k H3 Hk. destruct (C2 _ _ _ H3 Hk) as (ft2 & H2 & Hk2).
    eauto.
Qed.

Lemma pi_keeps_same w w' :
  keyboardFocusTrackers w' = keyboardFocusTrackers w ->
  focusTrackers w' = focusTrackers w -> keeps_objects w w'.
Proof.
  intros Ek Ef. unfold keeps_objects. rewrite Ek, Ef. apply pi_keeps_refl.
Qed.

Lemma pi_keeps_update_keyboard k h w :
  (forall t, focusTracker (h t) = focusTracker t) ->
  keeps_objects w (update_keyboard k h w).
Proof.
  intros Hh. split_and!; try (cbn; by eauto).
  - intros j t'. rewrite pi_update_keyboard_lookup.
    destruct (keyboardFocusTrackers w !! j) as [t|]; [|done].
    intros [= <-]. exists t. split; [done|]. by destruct (decide (j = k)).
  - intros j Hj. rewrite pi_update_keyboard_lookup. by apply fmap_is_Some.
Qed.

Lemma pi_keeps_update_focus f h w :
  (forall t, change_focusedElement (h t) = change_focusedElement t \/
             exists k, change_focusedElement (h t) =
                       filter (fun k' => k' <> k) (change_focusedElement t)) ->
  keeps_objects w (update_focus f h w).
Proof.
  intros Hh. split_and!; try (cbn; by eauto).
  - intros j ft' k. rewrite pi_update_focus_lookup.
    destruct (focusTrackers w !! j) as [ft|]; [|done].
    intros [= <-] Hk. exists ft. split; [done|].
    destruct (decide (j = f)); [|done].
    destruct (Hh ft) as [E|(k0 & E)]; rewrite E in Hk; [done|].
    by apply list_elem_of_filter in Hk as [_ ?].
  - intros j Hj. rewrite pi_update_focus_lookup. by apply fmap_is_Some.
Qed.

Lemma pi_keeps_watchFocusTracker k el w :
  keeps_objects w (_watchFocusTracker k el w).
Proof.
  unfold _watchFocusTracker. destruct (_ !! k); [|apply pi_keeps_refl].
  by apply pi_keeps_update_keyboard.
Qed.

Lemma pi_keeps_fire att el w : keeps_objects w (fire att el w).
Proof.
  revert w. induction att as [|k att IH]; intros w; [apply pi_keeps_refl|].
  rewrite pi_fire_cons.
  eapply pi_keeps_trans; [apply pi_keeps_watchFocusTracker|apply IH].
Qed.

Lemma pi_keeps_set_focusedElement f v w :
  keeps_objects w (set_focusedElement f v w).
Proof.
  unfold set_focusedElement. destruct (_ !! f); [|apply pi_keeps_refl].
  case_bool_decide; [apply pi_keeps_refl|].
  eapply pi_keeps_trans; [|apply pi_keeps_fire].
  apply pi_keeps_update_focus. intros t. by left.
Qed.

Lemma pi_set_focusedElement_rest f v w :
  documentListeners (set_focusedElement f v w) = documentListeners w /\
  timeouts (set_focusedElement f v w) = timeouts w.
Proof.
  unfold set_focusedElement. destruct (_ !! f) as [ft|]; [|done].
  case_bool_decide; [done|].
  by destruct (pi_fire_rest (change_focusedElement ft) v
                 (update_focus f (put_focusedElement v) w)) as (_ & -> & ->).
Qed.

Lemma pi_keeps_focus f el w : keeps_objects w (FocusTracker_focus f el w).
Proof.
  unfold FocusTracker_focus.
  eapply pi_keeps_trans; [|apply pi_keeps_update_focus; intros t; by left].
  eapply pi_keeps_trans; [|apply pi_keeps_set_focusedElement].
  apply pi_keeps_update_focus. intros t. by left.
Qed.

Lemma pi_focus_rest f el w :
  documentListeners (FocusTracker_focus f el w) = documentListeners w /\
  timeouts (FocusTracker_focus f el w) = timeouts w.
Proof.
  unfold FocusTracker_focus. cbn [set_isFocused update_focus
    with_focusTrackers documentListeners timeouts].
  by destruct (pi_set_focusedElement_rest f (Some el)
                 (set_nextEventLoopTimeout f false w)) as (-> & ->).
Qed.

Lemma pi_keeps_focus_timeout f w : keeps_objects w (FocusTracker_timeout f w).
Proof.
  unfold FocusTracker_timeout. destruct (_ !! f) as [t|]; [|apply pi_keeps_refl].
  destruct (_nextEventLoopTimeout t); [|apply pi_keeps_refl].
  eapply pi_keeps_trans; [|apply pi_keeps_update_focus; intros ?; by left].
  eapply pi_keeps_trans; [|apply pi_keeps_set_focusedElement].
  apply pi_keeps_update_focus. intros ?. by left.
Qed.

Lemma pi_focus_timeout_rest f w :
  documentListeners (FocusTracker_timeout f w) = documentListeners w /\
  timeouts (FocusTracker_timeout f w) = timeouts w.
Proof.
  unfold FocusTracker_timeout. destruct (_ !! f) as [t|]; [|done].
  destruct (_nextEventLoopTimeout t); [|done].
  cbn [set_isFocused update_focus with_focusTrackers documentListeners
       timeouts].
  by destruct (pi_set_focusedElement_rest f None
                 (set_nextEventLoopTimeout f false w)) as (-> & ->).
Qed.

Lemma pi_keeps_dispatch type w :
  keeps_objects w (document_dispatchEvent type w).
Proof.
  destruct (pi_dispatch_fold type (documentListeners w) w)
    as (Hk & Hf & _ & _).
  fold (document_dispatchEvent type w) in Hk, Hf.
  split_and!.
  - intros j t'. rewrite Hk.
    destruct (keyboardFocusTrackers w !! j) as [t|]; [|done].
    intros [= <-]. by exists t.
  - intros j Hj. rewrite Hk. by apply fmap_is_Some.
  - rewrite Hf. eauto.
  - by rewrite Hf.
Qed.

Lemma pi_keeps_deferred_update k w : keeps_objects w (deferred_update k w).
Proof.
  unfold deferred_update. destruct (_ !! k) as [t|]; [|apply pi_keeps_refl].
  destruct (_ !! focusTracker t); [|apply pi_keeps_refl].
  by apply pi_keeps_update_keyboard.
Qed.

Lemma pi_keeps_run_timeout w : keeps_objects w (run_timeout w).
Proof.
  unfold run_timeout. destruct (timeouts w) as [|k rest]; [apply pi_keeps_refl|].
  eapply pi_keeps_trans; [|apply pi_keeps_deferred_update].
  by apply pi_keeps_same.
Qed.

Lemma pi_keeps_destroy k w : keeps_objects w (destroy k w).
Proof.
  unfold destroy. destruct (_ !! k) as [t|]; [|apply pi_keeps_refl].
  eapply pi_keeps_trans; [|by apply pi_keeps_same].
  eapply pi_keeps_trans;
    [|apply pi_keeps_update_focus; intros ?; right; by eexists].
  eapply pi_keeps_trans; by apply pi_keeps_update_keyboard.
Qed.

Lemma pi_keeps_new_FocusTracker w :
  keeps_objects w (new_FocusTracker w).2.
Proof.
  split_and!; try (cbn; by eauto).
  - intros f ft' k. cbn. intros H Hk.
    apply lookup_app_Some in H as [H|[_ H]]; [by eauto|].
    apply list_lookup_singleton_Some in H as [_ <-].
    by apply elem_of_nil in Hk.
  - intros f [ft H]. cbn. exists ft. by apply lookup_app_l_Some.
Qed.

(** The frame of the invariant: objects kept, listeners only removed and
    then for a whole tracker, callbacks only scheduled for listening
    trackers. *)
Lemma pi_Inv_frame w w' :
  Inv w -> keeps_objects w w' ->
  (forall l, l ∈ documentListeners w' -> l ∈ documentListeners w) ->
  (forall l, l ∈ documentListeners w ->
     listening (dl_owner l) w' -> l ∈ documentListeners w') ->
  (forall k, k ∈ timeouts w' -> k ∈ timeouts w \/ listening k w) ->
  Inv w'.
Proof.
  intros [IL IK IS IT IF] (A & B & C & D) Hsub Hkeep Ht. split.
  - intros l Hl. destruct (IL l (Hsub l Hl)) as [Hs Hwf]. split; [by apply B|done].
  - intros k Hk. assert (Hk0 : listening k w).
    { destruct Hk as (l & Hl & Ho). exists l. split; [by apply Hsub|done]. }
    destruct (IK k Hk0) as [H1 H2]. split; by apply Hkeep.
  - intros f ft' k Hf Hk. destruct (C _ _ _ Hf Hk) as (ft & Hf0 & Hk0).
    destruct (IS _ _ _ Hf0 Hk0) as (kt & Hkt & Hft).
    destruct (B k) as [kt' Hkt']; [by eexists|].
    exists kt'. split; [done|]. destruct (A _ _ Hkt') as (kt0 & Hkt0 & E).
    congruence.
  - intros k Hk. apply B. destruct (Ht k Hk) as [H|(l & Hl & <-)]; [by apply IT|].
    by apply IL.
  - intros k kt' Hk. destruct (A _ _ Hk) as (kt & Hkt & ->).
    apply D. by eapply IF.
Qed.

Lemma pi_run_timeout_rest w :
  documentListeners (run_timeout w) = documentListeners w /\
  timeouts (run_timeout w) = tail (timeouts w) /\
  focusTrackers (run_timeout w) = focusTrackers w.
Proof.
  unfold run_timeout. destruct (timeouts w) as [|k rest] eqn:E; [by rewrite E|].
  by destruct (pi_deferred_update_rest k (with_timeouts rest w))
    as (-> & -> & ->).
Qed.

Lemma pi_Inv_initial : Inv initial.
Proof.
  split; cbn.
  - by intros l ?%elem_of_nil.
  - by intros k (l & ?%elem_of_nil & _).
  - by intros f t k [=].
  - by intros k ?%elem_of_nil.
  - by intros k kt [=].
Qed.

Lemma pi_Inv_dispatch type w : Inv w -> Inv (document_dispatchEvent type w).
Proof.
  intros HI.
  destruct (pi_dispatch_fold type (documentListeners w) w) as (_ & _ & Hd & Ht).
  fold (document_dispatchEvent type w) in Hd, Ht.
  apply (pi_Inv_frame w); [done|apply pi_keeps_dispatch|..].
  - by rewrite Hd.
  - by rewrite Hd.
  - intros k. rewrite Ht, elem_of_app, pi_scheduled_elem.
    intros [?|(l & Hl & Ho & _)]; [by left|]. right. by exists l.
Qed.

Lemma pi_Inv_destroy k w : Inv w -> Inv (destroy k w).
Proof.
  intros HI. destruct (keyboardFocusTrackers w !! k) as [t|] eqn:E;
    [|by rewrite pi_destroy_missing].
  destruct (pi_destroy_spec k t w E) as (_ & Hd & Ht & _).
  apply (pi_Inv_frame w); [done|apply pi_keeps_destroy|..].
  - intros l. rewrite Hd. by intros [_ ?]%list_elem_of_filter.
  - intros l Hl (l' & Hl' & Ho). rewrite Hd in Hl' |- *.
    apply list_elem_of_filter in Hl' as [Hne _].
    apply list_elem_of_filter. split; [congruence|done].
  - intros k'. rewrite Ht. by left.
Qed.

Lemma pi_Inv_new_KeyboardFocusTracker f w :
  Inv w -> is_Some (focusTrackers w !! f) ->
  Inv (new_KeyboardFocusTracker f w).2.
Proof.
  intros [IL IK IS IT IF] Hf.
  destruct (pi_new_KeyboardFocusTracker_spec f w) as (_ & Hk & Hd & Ht & Hft).
  set (w' := (new_KeyboardFocusTracker f w).2) in *.
  set (k0 := length (keyboardFocusTrackers w)) in *.
  assert (Hold : forall j, is_Some (keyboardFocusTrackers w !! j) ->
                           is_Some (keyboardFocusTrackers w' !! j)).
  { intros j [t H]. exists t. rewrite Hk. by apply lookup_app_l_Some. }
  assert (Hnew : keyboardFocusTrackers w' !! k0 =
                 Some {| isFocusedUsingKeyboard := false;
                         isKeyPressed := false; focusTracker := f |}).
  { rewrite Hk. by apply list_lookup_middle. }
  split.
  - intros l. rewrite Hd, elem_of_app. intros [Hl|Hl].
    + destruct (IL l Hl). split; [by apply Hold|done].
    + apply elem_of_cons in Hl as [->|Hl];
        [|apply list_elem_of_singleton in Hl as ->]; cbn [dl_owner dl_type
          dl_callback]; (split; [by rewrite Hnew|auto]).
  - intros k (l & Hl & Ho). rewrite Hd in Hl |- *. rewrite !elem_of_app.
    apply elem_of_app in Hl as [Hl|Hl].
    + destruct (IK k) as [H1 H2]; [by exists l|]. split; by left.
    + assert (k = k0) as ->.
      { apply elem_of_cons in Hl as [->|Hl];
          [|apply list_elem_of_singleton in Hl as ->]; by rewrite <- Ho. }
      split; right; [apply list_elem_of_here|].
      apply list_elem_of_further, list_elem_of_here.
  - intros f' ft' k. rewrite Hft.
    destruct (focusTrackers w !! f') as [ft|] eqn:E; [|done].
    intros [= <-] Hin.
    assert (Hcase : k ∈ change_focusedElement ft \/ (f' = f /\ k = k0)).
    { destruct (decide (f' = f)) as [->|]; [|by left].
      cbn in Hin. apply elem_of_app in Hin as [?|Hin]; [by left|].
      apply list_elem_of_singleton in Hin. by right. }
    destruct Hcase as [Hin0|[-> ->]].
    + destruct (IS _ _ _ E Hin0) as (kt & Hkt & Hkf). exists kt.
      split; [|done]. rewrite Hk. by apply lookup_app_l_Some.
    + by eexists.
  - intros k. rewrite Ht. intros Hin. by apply Hold, IT.
  - intros k kt. rewrite Hk. intros H.
    assert (Hs : is_Some (focusTrackers w !! focusTracker kt)).
    { apply lookup_app_Some in H as [H|[_ H]]; [by eapply IF|].
      apply list_lookup_singleton_Some in H as [_ <-]. done. }
    rewrite Hft. by apply fmap_is_Some.
Qed.

Lemma pi_step_Inv e w : Inv w -> Inv (step e w).
Proof.
  intros HI. destruct e as [type|f el|f|f| | |f|k]; cbn [step].
  - by apply pi_Inv_dispatch.
  - destruct (pi_focus_rest f el w) as (Hd & Ht).
    apply (pi_Inv_frame w); [done|apply pi_keeps_focus|..];
      rewrite ?Hd, ?Ht; auto.
  - apply (pi_Inv_frame w); [done| |cbn; auto..].
    apply pi_keeps_update_focus. intros ?. by left.
  - destruct (pi_focus_timeout_rest f w) as (Hd & Ht).
    apply (pi_Inv_frame w); [done|apply pi_keeps_focus_timeout|..];
      rewrite ?Hd, ?Ht; auto.
  - destruct (pi_run_timeout_rest w) as (Hd & Ht & _).
    apply (pi_Inv_frame w); [done|apply pi_keeps_run_timeout|..];
      rewrite ?Hd, ?Ht; auto.
    intros k Hk. left. destruct (timeouts w); [done|].
    by apply list_elem_of_further.
  - apply (pi_Inv_frame w); [done|apply pi_keeps_new_FocusTracker|cbn; auto..].
  - case_bool_decide as Hf; [|done].
    apply pi_Inv_new_KeyboardFocusTracker; [done|].
    by apply lookup_lt_is_Some.
  - by apply pi_Inv_destroy.
Qed.

Lemma pi_run_snoc es e w : run (es ++ [e]) w = step e (run es w).
Proof. unfold run. by rewrite fold_left_app. Qed.

Lemma pi_run_app es1 es2 w : run (es1 ++ es2) w = run es2 (run es1 w).
Proof. unfold run. by rewrite fold_left_app. Qed.

Lemma pi_run_Inv es w : Inv w -> Inv (run es w).
Proof.
  revert w. induction es as [|e es IH]; intros w HI; [done|].
  cbn. apply IH. by apply pi_step_Inv.
Qed.

Lemma pi_reachable_Inv w : reachable w -> Inv w.
Proof. intros (es & <-). apply pi_run_Inv, pi_Inv_initial. Qed.

Lemma pi_reachable_run es w : reachable w -> reachable (run es w).
Proof. intros (es0 & <-). exists (es0 ++ es). apply pi_run_app. Qed.

(** The tests of the repository for this generation, replayed. *)
Example pi_test_keydown_sets_flag_after_timeout :
  let w := run [NewFocusTracker; NewKeyboardFocusTracker 0; ElementFocus 0 7;
                DocumentEvent "keydown"] initial in
  flag 0 w = Some false /\ flag 0 (run [RunTimeout] w) = Some true.
Proof. by vm_compute. Qed.

Example pi_test_focus_between_keydown_and_keyup :
  let w := run [NewFocusTracker; NewKeyboardFocusTracker 0;
                DocumentEvent "keydown"; ElementFocus 0 7] initial in
  flag 0 w = Some true /\ flag 0 (run [DocumentEvent "keyup"] w) = Some true.
Proof. by vm_compute. Qed.

Example pi_test_blur_between_keydown_and_keyup :
  let w := run [NewFocusTracker; NewKeyboardFocusTracker 0; ElementFocus 0 7;
                DocumentEvent "keydown"; ElementBlur 0] initial in
  flag 0 w = Some false /\ flag 0 (run [DocumentEvent "keyup"] w) = Some false.
Proof. by vm_compute. Qed.

Example pi_test_switching_focus :
  let w1 := run [NewFocusTracker; NewKeyboardFocusTracker 0;
                 DocumentEvent "keydown"; ElementFocus 0 7] initial in
  let w2 := run [ElementBlur 0] w1 in
  let w3 := run [ElementFocus 0 8] w2 in
  flag 0 w1 = Some true /\ flag 0 w2 = Some true /\ flag 0 w3 = Some true.
Proof. by vm_compute. Qed.

Example pi_test_destroy_removes_listeners :
  keyPressed 0 (run [NewFocusTracker; NewKeyboardFocusTracker 0; Destroy 0;
                     DocumentEvent "keydown"] initial) = Some false.
Proof. by vm_compute. Qed.

(** X10. Per-instance generation: when the focused element of a focus
    tracker changes to [v], every attached keyboard focus tracker gets
    [!!v && isKeyPressed] with its own [isKeyPressed], which the
    notification leaves as it was; a tracker that is not attached is left
    untouched. *)
Theorem X10_focus_change_uses_own_key_state f ft v w :
  focusTrackers w !! f = Some ft -> focusedElement ft <> v ->
  forall k t, keyboardFocusTrackers w !! k = Some t ->
    (k ∈ change_focusedElement ft ->
       flag k (set_focusedElement f v w) = Some (truthy v && isKeyPressed t) /\
       keyPressed k (set_focusedElement f v w) = Some (isKeyPressed t)) /\
    (k ∉ change_focusedElement ft ->
       keyboardFocusTrackers (set_focusedElement f v w) !! k = Some t).
Proof.
  intros Ef Hne k t Ek.
  rewrite (pi_set_focusedElement_changed f ft v w Ef Hne).
  unfold flag, keyPressed. rewrite pi_fire_lookup.
  cbn [update_focus with_focusTrackers keyboardFocusTrackers]. rewrite Ek.
  cbn [fmap option_fmap option_map].
  split; intros Hk.
  - by rewrite decide_True.
  - by rewrite decide_False.
Qed.

Lemma X10_focus_change_uses_own_key_state_witness :
  flag 0 (set_focusedElement 0 (Some 7) key_held) = Some true.
Proof.
  refine (proj1 (proj1 (X10_focus_change_uses_own_key_state 0
    {| focusedElement := None; isFocused := false;
       _nextEventLoopTimeout := false; change_focusedElement := [0] |}
    (Some 7) key_held _ _ 0
    {| isFocusedUsingKeyboard := false; isKeyPressed := true;
       focusTracker := 0 |} _) _)).
  - reflexivity.
  - discriminate.
  - reflexivity.
  - apply list_elem_of_here.
Defined.

Lemma pi_listeners_typed w l :
  Inv w -> l ∈ documentListeners w ->
  (dl_type l = "keydown" /\ dl_callback l = onKeyDown) \/
  (dl_type l = "keyup" /\ dl_callback l = onKeyUp).
Proof. intros HI Hl. by destruct (inv_listeners w HI l Hl). Qed.

(** What a dispatch does for a tracker that listens. *)
Lemma pi_dispatch_listening type k t w :
  Inv w -> listening k w -> keyboardFocusTrackers w !! k = Some t ->
  keyboardFocusTrackers (document_dispatchEvent type w) !! k =
    Some {| isFocusedUsingKeyboard := isFocusedUsingKeyboard t;
            isKeyPressed :=
              if String.eqb type "keydown" then true
              else if String.eqb type "keyup" then false
              else isKeyPressed t;
            focusTracker := focusTracker t |} /\
  (k ∈ timeouts (document_dispatchEvent type w) <->
   k ∈ timeouts w \/ type = "keydown").
Proof.
  intros HI Hl Ek.
  destruct (pi_dispatch_fold type (documentListeners w) w) as (Hk & _ & _ & Ht).
  fold (document_dispatchEvent type w) in Hk, Ht.
  destruct (inv_keydown w HI k Hl) as [Hkd Hku].
  split.
  - rewrite Hk, Ek. cbn [fmap option_fmap option_map]. do 2 f_equal.
    destruct (String.eqb_spec type "keydown") as [->|Hnd];
      [|destruct (String.eqb_spec type "keyup") as [->|Hnu]].
    + apply pi_keyPressed_after_heard;
        [|eexists; split; [exact Hkd|done]].
      intros l Hin Htype.
      by destruct (pi_listeners_typed w l HI Hin) as [[_ ->]|[? _]];
        [|congruence].
    + apply pi_keyPressed_after_heard;
        [|eexists; split; [exact Hku|done]].
      intros l Hin Htype.
      by destruct (pi_listeners_typed w l HI Hin) as [[? _]|[_ ->]];
        [congruence|].
    + apply pi_keyPressed_after_silent. intros l Hin _.
      destruct (pi_listeners_typed w l HI Hin) as [[-> _]|[-> _]]; congruence.
  - rewrite Ht, elem_of_app, pi_scheduled_elem. split.
    + intros [?|(l & Hin & _ & Htype & Hc)]; [by left|]. right.
      destruct (pi_listeners_typed w l HI Hin) as [[? _]|[_ ?]]; congruence.
    + intros [?| ->]; [by left|]. right. eexists. split; [exact Hkd|done].
Qed.

(** What a dispatch does for a tracker that does not listen: nothing. *)
Lemma pi_dispatch_deaf type k w :
  ~ listening k w ->
  keyboardFocusTrackers (document_dispatchEvent type w) !! k =
    keyboardFocusTrackers w !! k /\
  (k ∈ timeouts (document_dispatchEvent type w) -> k ∈ timeouts w).
Proof.
  intros Hl.
  destruct (pi_dispatch_fold type (documentListeners w) w) as (Hk & _ & _ & Ht).
  fold (document_dispatchEvent type w) in Hk, Ht. split.
  - rewrite Hk. destruct (keyboardFocusTrackers w !! k) as [t|]; [|done].
    cbn [fmap option_fmap option_map].
    rewrite pi_keyPressed_after_silent; [by destruct t|].
    intros l Hin Ho. destruct Hl. by exists l.
  - rewrite Ht, elem_of_app, pi_scheduled_elem.
    intros [?|(l & Hin & Ho & _)]; [done|]. destruct Hl. by exists l.
Qed.

(** X11. Per-instance generation: for a tracker whose listeners are on the
    document, a keydown sets its [isKeyPressed] and schedules its deferred
    update, a keyup clears [isKeyPressed], any other event type leaves it;
    none of them changes the flag during the dispatch, nor any focus
    tracker. *)
Theorem X11_key_events_per_tracker type k t w :
  reachable w -> listening k w -> keyboardFocusTrackers w !! k = Some t ->
  flag k (document_dispatchEvent type w) = Some (isFocusedUsingKeyboard t) /\
  keyPressed k (document_dispatchEvent type w) =
    Some (if String.eqb type "keydown" then true
          else if String.eqb type "keyup" then false
          else isKeyPressed t) /\
  (k ∈ timeouts (document_dispatchEvent type w) <->
   k ∈ timeouts w \/ type = "keydown") /\
  focusTrackers (document_dispatchEvent type w) = focusTrackers w.
Proof.
  intros Hr Hl Ek. apply pi_reachable_Inv in Hr.
  destruct (pi_dispatch_listening type k t w Hr Hl Ek) as [E Ht].
  unfold flag, keyPressed. rewrite E. split_and!; try done.
  by destruct (pi_dispatch_fold type (documentListeners w) w) as (_ & ? & _).
Qed.

Lemma pi_reachable_key_held : reachable key_held.
Proof.
  by exists [NewFocusTracker; NewKeyboardFocusTracker 0;
             DocumentEvent "keydown"; RunTimeout].
Qed.

Lemma pi_reachable_focused_then_keydown : reachable focused_then_keydown.
Proof.
  by exists [NewFocusTracker; NewKeyboardFocusTracker 0; ElementFocus 0 7;
             DocumentEvent "keydown"].
Qed.

Lemma pi_listening_key_held : listening 0 key_held.
Proof. eexists. split; [apply list_elem_of_here|done]. Qed.

Lemma X11_key_events_per_tracker_witness :
  keyPressed 0 (document_dispatchEvent "keyup" key_held) = Some false.
Proof.
  exact (proj1 (proj2 (X11_key_events_per_tracker "keyup" 0
    {| isFocusedUsingKeyboard := false; isKeyPressed := true;
       focusTracker := 0 |} key_held
    pi_reachable_key_held pi_listening_key_held eq_refl))).
Defined.

(** X12. Per-instance generation: after a keydown, once the callbacks
    given to [setTimeout] have run (nothing else happening in between), the
    flag of every listening tracker equals [isFocused] of its focus tracker,
    whatever it was and however the focus came; no callback is left. *)
Theorem X12_keydown_settles_to_isFocused k t ft w :
  reachable w -> listening k w -> keyboardFocusTrackers w !! k = Some t ->
  focusTrackers w !! focusTracker t = Some ft ->
  flag k (drain (document_dispatchEvent "keydown" w)) = Some (isFocused ft) /\
  keyPressed k (drain (document_dispatchEvent "keydown" w)) = Some true /\
  timeouts (drain (document_dispatchEvent "keydown" w)) = [].
Proof.
  intros Hr Hl Ek Ef. apply pi_reachable_Inv in Hr.
  destruct (pi_dispatch_listening "keydown" k t w Hr Hl Ek) as [E Ht].
  destruct (pi_dispatch_fold "keydown" (documentListeners w) w)
    as (_ & Hf & _ & _).
  fold (document_dispatchEvent "keydown" w) in Hf.
  set (w1 := document_dispatchEvent "keydown" w) in *.
  destruct (pi_run_timeouts (timeouts w1) w1 eq_refl) as (H0 & _ & _ & Hk).
  fold (drain w1) in H0, Hk.
  unfold flag, keyPressed. rewrite Hk, E. cbn [fmap option_fmap option_map].
  rewrite decide_True by (apply Ht; by right).
  cbn [focusTracker]. by rewrite Hf, Ef.
Qed.

Lemma X12_keydown_settles_to_isFocused_witness :
  flag 0 (drain (document_dispatchEvent "keydown"
            (run [NewFocusTracker; NewKeyboardFocusTracker 0;
                  ElementFocus 0 7] initial))) = Some true.
Proof.
  refine (proj1 (X12_keydown_settles_to_isFocused 0
    {| isFocusedUsingKeyboard := false; isKeyPressed := false;
       focusTracker := 0 |}
    {| focusedElement := Some 7; isFocused := true;
       _nextEventLoopTimeout := false; change_focusedElement := [0] |}
    (run [NewFocusTracker; NewKeyboardFocusTracker 0; ElementFocus 0 7]
       initial) _ _ _ _)).
  - by eexists.
  - eexists. split; [apply list_elem_of_here|done].
  - reflexivity.
  - reflexivity.
Defined.

Lemma pi_keeps_unsubscribed k w w' :
  keeps_objects w w' -> unsubscribed k w -> unsubscribed k w'.
Proof.
  intros (_ & _ & C & _) Hu f ft' Hf Hk.
  destruct (C _ _ _ Hf Hk) as (ft & Hf0 & Hk0). by apply (Hu f ft).
Qed.

Lemma pi_set_focusedElement_unsubscribed k f v w :
  unsubscribed k w ->
  keyboardFocusTrackers (set_focusedElement f v w) !! k =
  keyboardFocusTrackers w !! k.
Proof.
  intros Hu. unfold set_focusedElement.
  destruct (focusTrackers w !! f) as [ft|] eqn:E; [|done].
  case_bool_decide; [done|]. rewrite pi_fire_lookup.
  cbn [update_focus with_focusTrackers keyboardFocusTrackers].
  destruct (keyboardFocusTrackers w !! k) as [t|]; [|done].
  cbn [fmap option_fmap option_map].
  by rewrite decide_False by by apply (Hu f ft).
Qed.

(** X13. Per-instance generation: [destroy] clears the flag and
    [isKeyPressed] of its own tracker, takes its listeners off the document
    and its callback off the focus tracker, and touches nothing else: the
    other trackers keep their state, their listeners and their
    subscriptions, the focus trackers their focus state, and the callbacks
    given to [setTimeout] stay where they are. *)
Theorem X13_destroy_is_local k t w :
  reachable w -> keyboardFocusTrackers w !! k = Some t ->
  destroyed k (destroy k w) /\
  timeouts (destroy k w) = timeouts w /\
  (forall j, j <> k ->
     keyboardFocusTrackers (destroy k w) !! j =
     keyboardFocusTrackers w !! j) /\
  (forall l, dl_owner l <> k ->
     l ∈ documentListeners (destroy k w) <-> l ∈ documentListeners w) /\
  (forall f ft, focusTrackers w !! f = Some ft ->
     exists ft', focusTrackers (destroy k w) !! f = Some ft' /\
       focusedElement ft' = focusedElement ft /\
       isFocused ft' = isFocused ft /\
       _nextEventLoopTimeout ft' = _nextEventLoopTimeout ft /\
       forall j, j <> k ->
         j ∈ change_focusedElement ft' <-> j ∈ change_focusedElement ft).
Proof.
  intros Hr Ek. apply pi_reachable_Inv in Hr.
  destruct (pi_destroy_spec k t w Ek) as (Hk & Hd & Ht & Hf).
  split_and!.
  - unfold destroyed, flag, keyPressed. rewrite Hk, decide_True by done.
    split_and!; try done.
    + intros (l & Hl & Ho). rewrite Hd in Hl.
      by apply list_elem_of_filter in Hl as [? _].
    + intros f ft'. rewrite Hf.
      destruct (focusTrackers w !! f) as [ft|] eqn:E; [|done].
      intros [= <-]. destruct (decide (f = focusTracker t)) as [->|Hne].
      * cbn. by intros [? _]%list_elem_of_filter.
      * intros Hin. destruct (inv_subscribers w Hr _ _ _ E Hin)
          as (kt & Hkt & Hkf). congruence.
  - done.
  - intros j Hne. by rewrite Hk, decide_False.
  - intros l Hne. rewrite Hd, list_elem_of_filter. tauto.
  - intros f ft E. rewrite Hf, E. eexists. split; [done|].
    destruct (decide (f = focusTracker t)); split_and!; try done.
    intros j Hne. cbn. rewrite list_elem_of_filter. tauto.
Qed.

Lemma X13_destroy_is_local_witness :
  destroyed 0 (destroy 0 key_held).
Proof.
  exact (proj1 (X13_destroy_is_local 0
    {| isFocusedUsingKeyboard := false; isKeyPressed := true;
       focusTracker := 0 |} key_held pi_reachable_key_held eq_refl)).
Defined.

(** A destroyed tracker with no callback pending stays so through any
    event. *)
Lemma pi_destroyed_step e k w :
  destroyed k w -> k ∉ timeouts w ->
  destroyed k (step e w) /\ k ∉ timeouts (step e w).
Proof.
  intros (Hfl & Hkp & Hl & Hu) Ht.
  assert (Hsame : forall w',
    keyboardFocusTrackers w' !! k = keyboardFocusTrackers w !! k ->
    documentListeners w' = documentListeners w ->
    (forall j, j ∈ timeouts w' -> j ∈ timeouts w) ->
    keeps_objects w w' ->
    destroyed k w' /\ k ∉ timeouts w').
  { intros w' Ek Ed Et Hkeep. split; [|by intros ?%Et].
    unfold destroyed, flag, keyPressed, listening. rewrite Ek, Ed.
    split_and!; try done. by eapply pi_keeps_unsubscribed. }
  destruct e as [type|f el|f|f| | |f|j]; cbn [step].
  - destruct (pi_dispatch_deaf type k w Hl) as [Ek Et].
    destruct (pi_dispatch_fold type (documentListeners w) w)
      as (_ & _ & Hd & _).
    split; [|by intros ?%Et].
    unfold destroyed, flag, keyPressed, listening.
    fold (document_dispatchEvent type w) in Hd. rewrite Ek, Hd.
    split_and!; try done.
    eapply pi_keeps_unsubscribed; [apply pi_keeps_dispatch|done].
  - destruct (pi_focus_rest f el w) as (Hd & Ht').
    apply Hsame; [|done|by rewrite Ht'|apply pi_keeps_focus].
    unfold FocusTracker_focus.
    cbn [set_isFocused update_focus with_focusTrackers keyboardFocusTrackers].
    rewrite pi_set_focusedElement_unsubscribed; [done|].
    eapply pi_keeps_unsubscribed; [|done].
    apply pi_keeps_update_focus. intros ?. by left.
  - apply Hsame; try done.
    apply pi_keeps_update_focus. intros ?. by left.
  - destruct (pi_focus_timeout_rest f w) as (Hd & Ht').
    apply Hsame; [|done|by rewrite Ht'|apply pi_keeps_focus_timeout].
    unfold FocusTracker_timeout.
    destruct (focusTrackers w !! f) as [ft|]; [|done].
    destruct (_nextEventLoopTimeout ft); [|done].
    cbn [set_isFocused update_focus with_focusTrackers keyboardFocusTrackers].
    rewrite pi_set_focusedElement_unsubscribed; [done|].
    eapply pi_keeps_unsubscribed; [|done].
    apply pi_keeps_update_focus. intros ?. by left.
  - destruct (pi_run_timeout_rest w) as (Hd & Ht' & _).
    apply Hsame; [|done| |apply pi_keeps_run_timeout].
    + unfold run_timeout. destruct (timeouts w) as [|k' rest] eqn:E; [done|].
      rewrite pi_deferred_update_lookup.
      cbn [with_timeouts keyboardFocusTrackers].
      destruct (keyboardFocusTrackers w !! k); [|done].
      cbn [fmap option_fmap option_map]. rewrite decide_False; [done|].
      intros ->. apply Ht, list_elem_of_here.
    + intros j. rewrite Ht'. destruct (timeouts w); [done|].
      apply list_elem_of_further.
  - apply Hsame; try done. apply pi_keeps_new_FocusTracker.
  - case_bool_decide; [|done].
    destruct (pi_new_KeyboardFocusTracker_spec f w)
      as (_ & Hk & Hd & Ht' & Hft).
    assert (Hlt : k < length (keyboardFocusTrackers w)).
    { apply lookup_lt_is_Some. unfold flag in Hfl.
      by destruct (keyboardFocusTrackers w !! k). }
    split; [|by rewrite Ht'].
    unfold destroyed, flag, keyPressed. rewrite Hk, lookup_app_l by done.
    split_and!; try done.
    + intros (l & Hin & Ho). rewrite Hd in Hin.
      apply elem_of_app in Hin as [Hin|Hin]; [apply Hl; by exists l|].
      apply elem_of_cons in Hin as [->|Hin];
        [|apply list_elem_of_singleton in Hin as ->]; cbn in Ho; lia.
    + intros f' ft'. rewrite Hft.
      destruct (focusTrackers w !! f') as [ft|] eqn:E; [|done].
      intros [= <-]. destruct (decide (f' = f)); [|by apply (Hu f')].
      cbn. rewrite elem_of_app, list_elem_of_singleton.
      intros [Hin| ->]; [by apply (Hu f' ft)|lia].
  - destruct (keyboardFocusTrackers w !! j) as [t|] eqn:E;
      [|by rewrite pi_destroy_missing].
    destruct (pi_destroy_spec j t w E) as (Hk & Hd & Ht' & _).
    split; [|by rewrite Ht'].
    unfold destroyed, flag, keyPressed.
    split_and!.
    + rewrite Hk. by destruct (decide (k = j)).
    + rewrite Hk. by destruct (decide (k = j)).
    + intros (l & Hin & Ho). rewrite Hd in Hin.
      apply list_elem_of_filter in Hin as [_ Hin]. apply Hl. by exists l.
    + eapply pi_keeps_unsubscribed; [apply pi_keeps_destroy|done].
Qed.

(** X14. Per-instance generation: a destroyed tracker for which no callback
    is pending stays as [destroy] left it, through any events: flag and
    [isKeyPressed] false, no listener, no subscription, and no callback
    scheduled for it. *)
Theorem X14_destroyed_tracker_stays_quiet es k w :
  destroyed k w -> k ∉ timeouts w ->
  destroyed k (run es w) /\ k ∉ timeouts (run es w).
Proof.
  revert w. induction es as [|e es IH]; intros w Hd Ht; [done|].
  cbn. destruct (pi_destroyed_step e k w Hd Ht). by apply IH.
Qed.

Lemma X14_destroyed_tracker_stays_quiet_witness :
  destroyed 0
    (run [DocumentEvent "keydown"; ElementFocus 0 7; RunTimeout]
       after_destroy).
Proof.
  refine (proj1 (X14_destroyed_tracker_stays_quiet
    [DocumentEvent "keydown"; ElementFocus 0 7; RunTimeout] 0 after_destroy
    _ _)).
  - split_and!; [reflexivity|reflexivity| |].
    + by intros (l & ?%elem_of_nil & _).
    + intros f ft Hf. destruct f as [|f]; [|done].
      injection Hf as <-. apply not_elem_of_nil.
  - apply not_elem_of_nil.
Defined.

(** X15. Per-instance generation: [destroy] does not cancel the update that
    a keydown deferred: the callback stays in the queue, and when the queue
    has run the flag of the destroyed tracker equals [isFocused] of its
    focus tracker. *)
Theorem X15_destroy_keeps_deferred_update k t ft w :
  k ∈ timeouts w -> keyboardFocusTrackers w !! k = Some t ->
  focusTrackers w !! focusTracker t = Some ft ->
  k ∈ timeouts (destroy k w) /\
  flag k (destroy k w) = Some false /\
  flag k (drain (destroy k w)) = Some (isFocused ft).
Proof.
  intros Hin Ek Ef.
  destruct (pi_destroy_spec k t w Ek) as (Hk & _ & Ht & Hf).
  set (w1 := destroy k w) in *.
  destruct (pi_run_timeouts (timeouts w1) w1 eq_refl) as (_ & _ & _ & Hd).
  fold (drain w1) in Hd.
  split_and!.
  - by rewrite Ht.
  - unfold flag. by rewrite Hk, decide_True.
  - unfold flag. rewrite Hd, Hk, decide_True by done.
    cbn [fmap option_fmap option_map].
    rewrite decide_True by by rewrite Ht.
    cbn [focusTracker]. rewrite Hf, Ef. cbn.
    by rewrite decide_True.
Qed.

Lemma X15_destroy_keeps_deferred_update_witness :
  flag 0 (drain (destroy 0 focused_then_keydown)) = Some true.
Proof.
  refine (proj2 (proj2 (X15_destroy_keeps_deferred_update 0
    {| isFocusedUsingKeyboard := false; isKeyPressed := true;
       focusTracker := 0 |}
    {| focusedElement := Some 7; isFocused := true;
       _nextEventLoopTimeout := false; change_focusedElement := [0] |}
    focused_then_keydown _ _ _))).
  - apply list_elem_of_here.
  - reflexivity.
  - reflexivity.
Defined.

(** X16. Per-instance generation: a tracker constructed while a key is held
    has its own [isKeyPressed] false, so the next focus change leaves its
    flag false, while every tracker attached before gets the value of its
    own [isKeyPressed]: trackers of one focus tracker can disagree. *)
Theorem X16_late_tracker_misses_held_key f ft el w :
  focusTrackers w !! f = Some ft -> focusedElement ft <> Some el ->
  flag (new_KeyboardFocusTracker f w).1
    (FocusTracker_focus f el (new_KeyboardFocusTracker f w).2) = Some false /\
  forall j t, keyboardFocusTrackers w !! j = Some t ->
    j ∈ change_focusedElement ft ->
    flag j (FocusTracker_focus f el (new_KeyboardFocusTracker f w).2) =
    Some (isKeyPressed t).
Proof.
  intros Ef Hne.
  destruct (pi_new_KeyboardFocusTracker_spec f w) as (-> & Hk & _ & _ & Hft).
  set (k0 := length (keyboardFocusTrackers w)) in *.
  set (w1 := (new_KeyboardFocusTracker f w).2) in *.
  set (w2 := set_nextEventLoopTimeout f false w1).
  assert (Ef2 : focusTrackers w2 !! f =
    Some {| focusedElement := focusedElement ft; isFocused := isFocused ft;
            _nextEventLoopTimeout := false;
            change_focusedElement := change_focusedElement ft ++ [k0] |}).
  { unfold w2, set_nextEventLoopTimeout.
    rewrite pi_update_focus_lookup, Hft, Ef.
    cbn [fmap option_fmap option_map]. by rewrite !decide_True. }
  assert (E : forall j,
    keyboardFocusTrackers (FocusTracker_focus f el w1) !! j =
    (fun t => if decide (j ∈ change_focusedElement ft ++ [k0])
              then {| isFocusedUsingKeyboard := isKeyPressed t;
                      isKeyPressed := isKeyPressed t;
                      focusTracker := focusTracker t |}
              else t) <$> keyboardFocusTrackers w1 !! j).
  { intros j. unfold FocusTracker_focus. fold w2.
    cbn [set_isFocused update_focus with_focusTrackers keyboardFocusTrackers].
    rewrite (pi_set_focusedElement_changed f _ (Some el) w2 Ef2 Hne).
    by rewrite pi_fire_lookup. }
  unfold flag. split.
  - rewrite E, Hk, list_lookup_middle by done.
    cbn [fmap option_fmap option_map].
    rewrite decide_True; [done|].
    apply elem_of_app. right. apply list_elem_of_here.
  - intros j t Ej Hin. rewrite E, Hk, (lookup_app_l_Some _ _ _ _ Ej).
    cbn [fmap option_fmap option_map].
    rewrite decide_True; [done|]. apply elem_of_app. by left.
Qed.

Lemma X16_late_tracker_misses_held_key_witness :
  flag 1 (FocusTracker_focus 0 7 (new_KeyboardFocusTracker 0 key_held).2)
    = Some false /\
  flag 0 (FocusTracker_focus 0 7 (new_KeyboardFocusTracker 0 key_held).2)
    = Some true.
Proof.
  pose proof (X16_late_tracker_misses_held_key 0
    {| focusedElement := None; isFocused := false;
       _nextEventLoopTimeout := false; change_focusedElement := [0] |}
    7 key_held eq_refl ltac:(discriminate)) as [H1 H2].
  split; [exact H1|].
  exact (H2 0 {| isFocusedUsingKeyboard := false; isKeyPressed := true;
                 focusTracker := 0 |} eq_refl (list_elem_of_here _ _)).
Defined.

End PerInstanceFacts.
